(** * AnonChat: the server-side session, matchmaking and reputation subsystem

    A shallow embedding of the two chat servers of the repository (the
    baseline server, and the production server with [SessionManager],
    [ReputationSystem] and [SmartMatchmaking]) and the properties of the
    specification checked against them.

    Conventions of the embedding.
    - JavaScript integers (counters, scores, [Date.now()] milliseconds) are
      [Z].  The fractional quantities of the code (the moving average of
      response times, the matchmaking compatibility score) are exact
      rationals [Q]; IEEE rounding is not modelled.
    - A JavaScript [Map] is an association list in insertion order, a [Set]
      a duplicate-free list in insertion order: iteration order is
      observable in the code (tie-breaks, order of emitted events).
    - An object stored in a [Map] and mutated in place is read, rebuilt and
      written back under the same key, which keeps its position.
    - [Date.now()] is an argument [now]; a handler reads the clock once.
      The results of [uuidv4()] and [crypto.randomBytes] are arguments too.
    - Strings are sequences of 8-bit code units.
    - [console.log] is left out. *)

From Stdlib Require Import ZArith QArith Lia List String Ascii Bool.
From stdpp Require Import base decidable option list strings.
Import ListNotations.

Close Scope Q_scope.
Open Scope string_scope.
Open Scope list_scope.
Open Scope Z_scope.

(** ** JavaScript values and containers *)

Module Js.

(** Values that reach the server inside an event payload.  [VObject] stands
    for any object or array: the handlers never look inside one.  [VNum]
    carries the integers; a number that is not an integer behaves like a
    non-zero integer in all the code below, and [VNaN] is the one falsy
    number besides 0. *)
Inductive Val :=
  | VUndefined
  | VNull
  | VBool (b : bool)
  | VNum (z : Z)
  | VNaN
  | VStr (s : string)
  | VObject.

#[global] Instance Val_eq_dec : EqDecision Val.
Proof. solve_decision. Defined.

(** [typeof v] *)
Definition typeof (v : Val) : string :=
  match v with
  | VUndefined => "undefined"
  | VNull => "object"
  | VBool _ => "boolean"
  | VNum _ | VNaN => "number"
  | VStr _ => "string"
  | VObject => "object"
  end.

(** ToBoolean: what [if (v)] and [!v] test. *)
Definition truthy (v : Val) : bool :=
  match v with
  | VUndefined | VNull | VNaN => false
  | VBool b => b
  | VNum z => negb (z =? 0)
  | VStr s => negb (String.eqb s "")
  | VObject => true
  end.

Section MAP.
Context {K : Type} `{EqDecision K} {V : Type}.

(** [new Map()]: entries in insertion order, keys pairwise distinct. *)
Definition Map := list (K * V).

(** [m.get(k)], [None] for [undefined]. *)
Fixpoint get (k : K) (m : Map) : option V :=
  match m with
  | [] => None
  | (k', v) :: m' => if decide (k' = k) then Some v else get k m'
  end.

(** [m.has(k)] *)
Definition has (k : K) (m : Map) : bool :=
  match get k m with
  | Some _ => true
  | None => false
  end.

(** [m.set(k, v)]: an existing key keeps its position, a new key goes
    last. *)
Fixpoint set (k : K) (v : V) (m : Map) : Map :=
  match m with
  | [] => [(k, v)]
  | (k', v') :: m' =>
      if decide (k' = k) then (k', v) :: m' else (k', v') :: set k v m'
  end.

(** [m.delete(k)] *)
Fixpoint del (k : K) (m : Map) : Map :=
  match m with
  | [] => []
  | (k', v') :: m' =>
      if decide (k' = k) then del k m' else (k', v') :: del k m'
  end.

(** [m.size] *)
Definition size (m : Map) : Z := Z.of_nat (length m).

End MAP.
Arguments Map : clear implicits.

Section SET.
Context {A : Type} `{EqDecision A}.

(** [new Set()]: members in insertion order, without duplicates. *)
Definition JsSet := list A.

(** [s.has(x)] *)
Definition mem (x : A) (s : JsSet) : bool := bool_decide (x ∈ s).

(** [s.add(x)]: adding a member again changes nothing. *)
Definition add (x : A) (s : JsSet) : JsSet :=
  if mem x s then s else s ++ [x].

(** [s.delete(x)] *)
Definition remove (x : A) (s : JsSet) : JsSet :=
  filter (fun y => y ≠ x) s.

End SET.
Arguments JsSet : clear implicits.

End Js.

Import Js.

(** ** ReputationSystem (production server) *)

Module ReputationSystem.

Record Reputation := {
  score : Z;
  messageCount : Z;
  avgResponseTime : Q;
  skipCount : Z;
  reportCount : Z;
  spamScore : Z;
  lastActivity : Z;
  createdAt : Z
}.

(** Assignments to one field of a record. *)
Definition set_score (v : Z) (r : Reputation) : Reputation :=
  {| score := v; messageCount := messageCount r;
     avgResponseTime := avgResponseTime r; skipCount := skipCount r;
     reportCount := reportCount r; spamScore := spamScore r;
     lastActivity := lastActivity r; createdAt := createdAt r |}.

Definition set_messageCount (v : Z) (r : Reputation) : Reputation :=
  {| score := score r; messageCount := v;
     avgResponseTime := avgResponseTime r; skipCount := skipCount r;
     reportCount := reportCount r; spamScore := spamScore r;
     lastActivity := lastActivity r; createdAt := createdAt r |}.

Definition set_avgResponseTime (v : Q) (r : Reputation) : Reputation :=
  {| score := score r; messageCount := messageCount r;
     avgResponseTime := v; skipCount := skipCount r;
     reportCount := reportCount r; spamScore := spamScore r;
     lastActivity := lastActivity r; createdAt := createdAt r |}.

Definition set_skipCount (v : Z) (r : Reputation) : Reputation :=
  {| score := score r; messageCount := messageCount r;
     avgResponseTime := avgResponseTime r; skipCount := v;
     reportCount := reportCount r; spamScore := spamScore r;
     lastActivity := lastActivity r; createdAt := createdAt r |}.

Definition set_reportCount (v : Z) (r : Reputation) : Reputation :=
  {| score := score r; messageCount := messageCount r;
     avgResponseTime := avgResponseTime r; skipCount := skipCount r;
     reportCount := v; spamScore := spamScore r;
     lastActivity := lastActivity r; createdAt := createdAt r |}.

Definition set_spamScore (v : Z) (r : Reputation) : Reputation :=
  {| score := score r; messageCount := messageCount r;
     avgResponseTime := avgResponseTime r; skipCount := skipCount r;
     reportCount := reportCount r; spamScore := v;
     lastActivity := lastActivity r; createdAt := createdAt r |}.

Definition set_lastActivity (v : Z) (r : Reputation) : Reputation :=
  {| score := score r; messageCount := messageCount r;
     avgResponseTime := avgResponseTime r; skipCount := skipCount r;
     reportCount := reportCount r; spamScore := spamScore r;
     lastActivity := v; createdAt := createdAt r |}.

(** [this.reputations]: userId -> reputationData.  The key is whatever
    value the caller passes ([reportUser] passes a payload field). *)
Definition t := Map Val Reputation.

(** [Math.floor(n * this.REPUTATION_DECAY)] with the decay 0.95, in exact
    arithmetic. *)
Definition decayed (n : Z) : Z := (n * 95) / 100.

Definition INITIAL_SCORE : Z := 100.

(** The map of the constructor. *)
Definition empty : t := [].

(** The record [initializeReputation] stores for a new user. *)
Definition fresh (now : Z) : Reputation :=
  {| score := INITIAL_SCORE; messageCount := 0; avgResponseTime := 0%Q;
     skipCount := 0; reportCount := 0; spamScore := 0;
     lastActivity := now; createdAt := now |}.

(** Returns the record of [userId], creating it first when absent. *)
Definition initializeReputation (now : Z) (userId : Val) (reps : t)
  : Reputation * t :=
  match get userId reps with
  | Some rep => (rep, reps)
  | None => (fresh now, set userId (fresh now) reps)
  end.

Definition getReputation (now : Z) (userId : Val) (reps : t)
  : Reputation * t :=
  match get userId reps with
  | Some rep => (rep, reps)
  | None => initializeReputation now userId reps
  end.

Definition recordMessage (now : Z) (userId : Val) (isSpam : bool) (reps : t)
  : t :=
  let '(rep, reps) := getReputation now userId reps in
  let rep := set_messageCount (messageCount rep + 1) rep in
  let rep := set_lastActivity now rep in
  let rep :=
    if isSpam then
      let rep := set_spamScore (spamScore rep + 10) rep in
      set_score (Z.max 0 (score rep - 5)) rep
    else if 0 <? spamScore rep then
      set_spamScore (Z.max 0 (spamScore rep - 1)) rep
    else rep in
  set userId rep reps.

Definition recordResponseTime (now : Z) (userId : Val) (responseTimeMs : Q)
    (reps : t) : t :=
  let '(rep, reps) := getReputation now userId reps in
  let rep :=
    if Qeq_bool (avgResponseTime rep) 0 then
      set_avgResponseTime responseTimeMs rep
    else
      set_avgResponseTime
        (Qplus (Qmult (avgResponseTime rep) (7 # 10))
               (Qmult responseTimeMs (3 # 10))) rep in
  set userId rep reps.

Definition recordSkip (now : Z) (userId : Val) (reps : t) : t :=
  let '(rep, reps) := getReputation now userId reps in
  let rep := set_skipCount (skipCount rep + 1) rep in
  let rep := set_score (Z.max 0 (score rep - 3)) rep in
  let rep := set_lastActivity now rep in
  set userId rep reps.

Definition recordReport (now : Z) (userId : Val) (reps : t) : t :=
  let '(rep, reps) := getReputation now userId reps in
  let rep := set_reportCount (reportCount rep + 1) rep in
  let rep := set_score (Z.max 0 (score rep - 15)) rep in
  let rep := set_lastActivity now rep in
  set userId rep reps.

Definition isToxic (now : Z) (userId : Val) (reps : t) : bool * t :=
  let '(rep, reps) := getReputation now userId reps in
  ((score rep <? 30) || (3 <? reportCount rep) || (50 <? spamScore rep),
   reps).

Definition getMatchmakingPriority (now : Z) (userId : Val) (reps : t)
  : Z * t :=
  let '(rep, reps) := getReputation now userId reps in
  (score rep / 20, reps).

(** One turn of the loop of [decayReputations]. *)
Definition decayOne (now : Z) (reps : t) (e : Val * Reputation) : t :=
  let '(userId, rep) := e in
  if 86400000 <? now - lastActivity rep then del userId reps
  else
    let rep := set_skipCount (decayed (skipCount rep)) rep in
    let rep := set_spamScore (decayed (spamScore rep)) rep in
    let rep :=
      if score rep <? INITIAL_SCORE
      then set_score (Z.min INITIAL_SCORE (score rep + 1)) rep
      else rep in
    set userId rep reps.

Definition decayReputations (now : Z) (reps : t) : t :=
  fold_left (decayOne now) reps reps.

(** The calls of the class, as the events of a run.  [OpQuery] stands for
    [getReputation], [isToxic] and [getMatchmakingPriority], which change
    the map alike (they create the record of an unknown user). *)
Inductive Op :=
  | OpInitialize (now : Z) (userId : Val)
  | OpQuery (now : Z) (userId : Val)
  | OpMessage (now : Z) (userId : Val) (isSpam : bool)
  | OpSkip (now : Z) (userId : Val)
  | OpReport (now : Z) (userId : Val)
  | OpResponseTime (now : Z) (userId : Val) (responseTimeMs : Q)
  | OpDecay (now : Z).

Definition step (reps : t) (o : Op) : t :=
  match o with
  | OpInitialize now u => snd (initializeReputation now u reps)
  | OpQuery now u => snd (getReputation now u reps)
  | OpMessage now u isSpam => recordMessage now u isSpam reps
  | OpSkip now u => recordSkip now u reps
  | OpReport now u => recordReport now u reps
  | OpResponseTime now u ms => recordResponseTime now u ms reps
  | OpDecay now => decayReputations now reps
  end.

(** A run from the map of the constructor. *)
Definition run (ops : list Op) : t := fold_left step ops empty.

Definition score_ok (e : Val * Reputation) : Prop :=
  0 <= score (snd e) <= 100.

End ReputationSystem.

(** ** SessionManager (production server) *)

(** [messageData], the object built by the [sendMessage] handler.  [roomId]
    is the payload field as received. *)
Record Message := {
  msg_id : string;
  msg_roomId : Val;
  msg_senderId : string;
  msg_senderName : string;
  msg_message : string;
  msg_timestamp : Z
}.

Module SessionManager.

Record Session := {
  token : string;
  socketId : string;
  userId : string;
  username : string;
  createdAt : Z;
  lastActivity : Z;
  currentRoom : option string;
  currentMatch : option string;
  messageBuffer : list Message;
  reconnectCount : Z
}.

Definition set_socketId (v : string) (s : Session) : Session :=
  {| token := token s; socketId := v; userId := userId s;
     username := username s; createdAt := createdAt s;
     lastActivity := lastActivity s; currentRoom := currentRoom s;
     currentMatch := currentMatch s; messageBuffer := messageBuffer s;
     reconnectCount := reconnectCount s |}.
Definition set_lastActivity (v : Z) (s : Session) : Session :=
  {| token := token s; socketId := socketId s; userId := userId s;
     username := username s; createdAt := createdAt s;
     lastActivity := v; currentRoom := currentRoom s;
     currentMatch := currentMatch s; messageBuffer := messageBuffer s;
     reconnectCount := reconnectCount s |}.
Definition set_currentRoom (v : option string) (s : Session) : Session :=
  {| token := token s; socketId := socketId s; userId := userId s;
     username := username s; createdAt := createdAt s;
     lastActivity := lastActivity s; currentRoom := v;
     currentMatch := currentMatch s; messageBuffer := messageBuffer s;
     reconnectCount := reconnectCount s |}.
Definition set_currentMatch (v : option string) (s : Session) : Session :=
  {| token := token s; socketId := socketId s; userId := userId s;
     username := username s; createdAt := createdAt s;
     lastActivity := lastActivity s; currentRoom := currentRoom s;
     currentMatch := v; messageBuffer := messageBuffer s;
     reconnectCount := reconnectCount s |}.
Definition set_messageBuffer (v : list Message) (s : Session) : Session :=
  {| token := token s; socketId := socketId s; userId := userId s;
     username := username s; createdAt := createdAt s;
     lastActivity := lastActivity s; currentRoom := currentRoom s;
     currentMatch := currentMatch s; messageBuffer := v;
     reconnectCount := reconnectCount s |}.
Definition set_reconnectCount (v : Z) (s : Session) : Session :=
  {| token := token s; socketId := socketId s; userId := userId s;
     username := username s; createdAt := createdAt s;
     lastActivity := lastActivity s; currentRoom := currentRoom s;
     currentMatch := currentMatch s; messageBuffer := messageBuffer s;
     reconnectCount := v |}.

Record t := {
  sessions : Map string Session;        (* sessionToken -> sessionData *)
  socketToSession : Map string string   (* socketId -> sessionToken *)
}.

Definition SESSION_TTL : Z := 60000.
Definition MESSAGE_BUFFER_SIZE : Z := 20.

Definition empty : t := {| sessions := []; socketToSession := [] |}.

(** [tok] is the result of [generateSessionToken()]. *)
Definition createSession (tok : string) (now : Z)
    (sid uid uname : string) (sm : t) : string * t :=
  let session :=
    {| token := tok; socketId := sid; userId := uid; username := uname;
       createdAt := now; lastActivity := now; currentRoom := None;
       currentMatch := None; messageBuffer := []; reconnectCount := 0 |} in
  (tok, {| sessions := set tok session (sessions sm);
           socketToSession := set sid tok (socketToSession sm) |}).

(** The [updates] objects the handlers pass: [{ currentRoom }] or
    [{ currentMatch }]. *)
Inductive Updates :=
  | UpdCurrentRoom (roomId : string)
  | UpdCurrentMatch (matchId : string).

Definition updateSession (now : Z) (tok : string) (updates : Updates)
    (sm : t) : bool * t :=
  match get tok (sessions sm) with
  | Some session =>
      let session :=
        match updates with
        | UpdCurrentRoom r => set_currentRoom (Some r) session
        | UpdCurrentMatch m => set_currentMatch (Some m) session
        end in
      let session := set_lastActivity now session in
      (true, {| sessions := set tok session (sessions sm);
                socketToSession := socketToSession sm |})
  | None => (false, sm)
  end.

Definition addMessageToBuffer (tok : string) (message : Message) (sm : t)
  : t :=
  match get tok (sessions sm) with
  | Some session =>
      let buf := messageBuffer session ++ [message] in
      let buf :=
        if MESSAGE_BUFFER_SIZE <? Z.of_nat (length buf) then tail buf
        else buf in
      {| sessions := set tok (set_messageBuffer buf session) (sessions sm);
         socketToSession := socketToSession sm |}
  | None => sm
  end.

Definition getSession (now : Z) (tok : string) (sm : t) : option Session :=
  match get tok (sessions sm) with
  | Some session =>
      if now - lastActivity session <? SESSION_TTL then Some session
      else None
  | None => None
  end.

Definition getSessionBySocket (now : Z) (sid : string) (sm : t)
  : option Session :=
  match get sid (socketToSession sm) with
  | Some tok => if String.eqb tok "" then None else getSession now tok sm
  | None => None
  end.

Definition reconnectSession (now : Z) (tok newSocketId : string) (sm : t)
  : option Session * t :=
  match getSession now tok sm with
  | Some session =>
      let s2s := del (socketId session) (socketToSession sm) in
      let session := set_socketId newSocketId session in
      let session := set_reconnectCount (reconnectCount session + 1) session in
      let session := set_lastActivity now session in
      let s2s := set newSocketId tok s2s in
      (Some session,
       {| sessions := set tok session (sessions sm);
          socketToSession := s2s |})
  | None => (None, sm)
  end.

Definition deleteSession (tok : string) (sm : t) : t :=
  match get tok (sessions sm) with
  | Some session =>
      {| sessions := del tok (sessions sm);
         socketToSession := del (socketId session) (socketToSession sm) |}
  | None => sm
  end.

(** One turn of the loop of [cleanupExpiredSessions]. *)
Definition cleanupOne (now : Z) (sm : t) (e : string * Session) : t :=
  let '(tok, session) := e in
  if SESSION_TTL <? now - lastActivity session then deleteSession tok sm
  else sm.

Definition cleanupExpiredSessions (now : Z) (sm : t) : t :=
  fold_left (cleanupOne now) (sessions sm) sm.

(** The sweeps the 30-second timer has run, at the given times in order. *)
Definition sweeps (times : list Z) (sm : t) : t :=
  fold_left (fun sm now => cleanupExpiredSessions now sm) times sm.

(** The last [n] elements of a list, in order. *)
Definition lastN {A : Type} (n : nat) (l : list A) : list A :=
  drop (length l - n) l.

(** The messages a run of calls appends to the buffer of [tok]. *)
Definition appendedTo (tok : string) (calls : list (string * Message))
  : list Message :=
  map snd (filter (fun c => fst c = tok) calls).

(** A run of [addMessageToBuffer] calls, each with its token and message. *)
Definition appendAll (calls : list (string * Message)) (sm : t) : t :=
  fold_left (fun sm c => addMessageToBuffer (fst c) (snd c) sm) calls sm.

End SessionManager.

(** ** SmartMatchmaking (production server) *)

Module SmartMatchmaking.

Record Metadata := {
  priority : Z;
  joinedAt : Z;
  activityLevel : Z;
  responseSpeed : Q
}.

Record ActiveMatch := { user1 : string; user2 : string; startTime : Z }.

(** [this.reputation] is the global [reputationSystem] object: the methods
    below take and return its map next to the matchmaking state. *)
Record t := {
  waitingQueue : Map Z (JsSet string);      (* priority -> Set<userId> *)
  userMetadata : Map string Metadata;       (* userId -> metadata *)
  activeMatches : Map string ActiveMatch    (* matchId -> match *)
}.

Definition empty : t :=
  {| waitingQueue := []; userMetadata := []; activeMatches := [] |}.

Inductive QueueResult :=
  | Rejected (reason : string)      (* { success: false, reason } *)
  | Accepted (priority : Z).        (* { success: true, priority } *)

Definition calculateActivityLevel (rep : ReputationSystem.Reputation) : Z :=
  if ReputationSystem.messageCount rep <? 10 then 25
  else if ReputationSystem.messageCount rep <? 50 then 50
  else if ReputationSystem.messageCount rep <? 200 then 75
  else 100.

Definition addToQueue (now : Z) (uid : string)
    (reps : ReputationSystem.t) (mm : t)
  : QueueResult * ReputationSystem.t * t :=
  let '(rep, reps) := ReputationSystem.getReputation now (VStr uid) reps in
  let '(toxic, reps) := ReputationSystem.isToxic now (VStr uid) reps in
  if toxic then (Rejected "reputation_too_low", reps, mm)
  else
    let '(prio, reps) :=
      ReputationSystem.getMatchmakingPriority now (VStr uid) reps in
    let wq :=
      if has prio (waitingQueue mm) then waitingQueue mm
      else set prio [] (waitingQueue mm) in
    let wq := set prio (add uid (default [] (get prio wq))) wq in
    let md :=
      {| priority := prio; joinedAt := now;
         activityLevel := calculateActivityLevel rep;
         responseSpeed := ReputationSystem.avgResponseTime rep |} in
    (Accepted prio, reps,
     {| waitingQueue := wq;
        userMetadata := set uid md (userMetadata mm);
        activeMatches := activeMatches mm |}).

Definition removeFromQueue (uid : string) (mm : t) : t :=
  match get uid (userMetadata mm) with
  | Some metadata =>
      let wq :=
        match get (priority metadata) (waitingQueue mm) with
        | Some queue =>
            let queue := remove uid queue in
            if (length queue =? 0)%nat
            then del (priority metadata) (waitingQueue mm)
            else set (priority metadata) queue (waitingQueue mm)
        | None => waitingQueue mm
        end in
      {| waitingQueue := wq;
         userMetadata := del uid (userMetadata mm);
         activeMatches := activeMatches mm |}
  | None => mm
  end.

(** [activityDiff + (timeDiff / 1000)], lower is better. *)
Definition compatibility (userMeta candidateMeta : Metadata) : Q :=
  let activityDiff :=
    Z.abs (activityLevel userMeta - activityLevel candidateMeta) in
  let timeDiff := Z.abs (joinedAt userMeta - joinedAt candidateMeta) in
  Qplus (inject_Z activityDiff) (Qdiv (inject_Z timeDiff) (inject_Z 1000)).

(** [score < bestScore], where [None] is the initial [Infinity]. *)
Definition better (score : Q) (bestScore : option Q) : bool :=
  match bestScore with
  | None => true
  | Some b => negb (Qle_bool b score)
  end.

(** One turn of the candidate loop: the running [(bestMatch, bestScore)]. *)
Definition consider (mm : t) (userMeta : Metadata)
    (best : option string * option Q) (candidateId : string)
  : option string * option Q :=
  match get candidateId (userMetadata mm) with
  | None => best
  | Some candidateMeta =>
      let score := compatibility userMeta candidateMeta in
      if better score (snd best) then (Some candidateId, Some score)
      else best
  end.

Definition findMatchInPriority (uid : string) (prio : Z)
    (userMeta : Metadata) (mm : t) : option string :=
  match get prio (waitingQueue mm) with
  | None => None
  | Some queue =>
      if (length queue <? 2)%nat then None
      else
        let candidates := filter (fun id => id ≠ uid) queue in
        if (length candidates =? 0)%nat then None
        else fst (fold_left (consider mm userMeta) candidates (None, None))
  end.

(** [!match] for a user id or [null]: the empty string is falsy too. *)
Definition noMatch (m : option string) : bool :=
  match m with
  | Some s => String.eqb s ""
  | None => true
  end.

(** [uuid] is the result of [uuidv4()]. *)
Definition findMatch (uuid : string) (now : Z) (uid : string) (mm : t)
  : option (string * string) * t :=
  match get uid (userMetadata mm) with
  | None => (None, mm)
  | Some userMeta =>
      let m := findMatchInPriority uid (priority userMeta) userMeta mm in
      let m :=
        if noMatch m && (0 <? priority userMeta)
        then findMatchInPriority uid (priority userMeta - 1) userMeta mm
        else m in
      let m :=
        if noMatch m && (priority userMeta <? 5)
        then findMatchInPriority uid (priority userMeta + 1) userMeta mm
        else m in
      match m with
      | Some partner =>
          if String.eqb partner "" then (None, mm)
          else
            let mm := removeFromQueue uid mm in
            let mm := removeFromQueue partner mm in
            let matchId := "match-" +:+ uuid in
            (Some (matchId, partner),
             {| waitingQueue := waitingQueue mm;
                userMetadata := userMetadata mm;
                activeMatches :=
                  set matchId
                    {| user1 := uid; user2 := partner; startTime := now |}
                    (activeMatches mm) |})
      | None => (None, mm)
      end
  end.

Definition endMatch (matchId : string) (mm : t) : t :=
  {| waitingQueue := waitingQueue mm;
     userMetadata := userMetadata mm;
     activeMatches := del matchId (activeMatches mm) |}.

(** The priority buckets that hold [uid]. *)
Definition bucketsOf (uid : string) (mm : t) : list Z :=
  map fst (filter (fun e => uid ∈ snd e) (waitingQueue mm)).

End SmartMatchmaking.

(** ** Security utilities (the same text in both servers) *)

(** An event payload [data]: an object with its own properties. *)
Definition Payload := Map string Val.

(** [data[key]] *)
Definition field (key : string) (data : Payload) : Val :=
  default VUndefined (get key data).

(** [validatePayload(data, schema)]; [schema] lists [Object.entries]. *)
Fixpoint validatePayload (data : Payload) (schema : list (string * string))
  : bool :=
  match schema with
  | [] => true
  | (key, type) :: rest =>
      if String.eqb type "required" && negb (truthy (field key data))
      then false
      else if truthy (field key data)
              && negb (String.eqb (typeof (field key data)) type)
              && negb (String.eqb type "required")
      then false
      else validatePayload data rest
  end.

Definition code (c : ascii) : nat := nat_of_ascii c.

(** Case folding of the [i] flag, on the letters a pattern can name. *)
Definition lower (c : ascii) : ascii :=
  if ((65 <=? code c) && (code c <=? 90))%nat
  then ascii_of_nat (code c + 32) else c.

(** What [.] does not match. *)
Definition lineTerminator (c : ascii) : bool :=
  ((code c =? 10) || (code c =? 13))%nat.

(** What [trim()] removes. *)
Definition whiteSpace (c : ascii) : bool :=
  (((9 <=? code c) && (code c <=? 13)) || (code c =? 32)
   || (code c =? 160))%nat.

(** [s] starts with [p], letters compared without case: the rest of [s]. *)
Fixpoint prefixCi (p s : string) : option string :=
  match p, s with
  | EmptyString, _ => Some s
  | String _ _, EmptyString => None
  | String a p', String b s' =>
      if Ascii.eqb (lower a) (lower b) then prefixCi p' s' else None
  end.

(** [[^>]*>] at the start of [s]: the number of characters before the
    first [>], and the rest after it. *)
Fixpoint upToGt (s : string) : option (nat * string) :=
  match s with
  | EmptyString => None
  | String c s' =>
      if Ascii.eqb c ">" then Some (O, s')
      else match upToGt s' with
           | Some (n, r) => Some (S n, r)
           | None => None
           end
  end.

(** [.*?<\/script>] at the start of [s]: the length of the match. *)
Fixpoint lazyClose (s : string) : option nat :=
  match prefixCi "</script>" s with
  | Some _ => Some 9%nat
  | None =>
      match s with
      | EmptyString => None
      | String c s' =>
          if lineTerminator c then None
          else match lazyClose s' with
               | Some n => Some (S n)
               | None => None
               end
      end
  end.

(** [/<script[^>]*>.*?<\/script>/i] at the start of [s]: the length of the
    match. *)
Definition matchScript (s : string) : option nat :=
  match prefixCi "<script" s with
  | None => None
  | Some r =>
      match upToGt r with
      | None => None
      | Some (n, r') =>
          match lazyClose r' with
          | None => None
          | Some k => Some (7 + n + 1 + k)%nat
          end
      end
  end.

(** [/<[^>]+>/] at the start of [s]: the length of the match. *)
Definition matchTag (s : string) : option nat :=
  match s with
  | String "<" r =>
      match upToGt r with
      | Some (S n, _) => Some (S n + 2)%nat
      | _ => None
      end
  | _ => None
  end.

(** [s.replace(re, '')] with the [g] flag, for a pattern that matches no
    empty string: [skip] characters of the current match are still to drop. *)
Fixpoint replaceAll (matchAt : string -> option nat) (skip : nat)
    (s : string) : string :=
  match s with
  | EmptyString => EmptyString
  | String c s' =>
      match skip with
      | S k => replaceAll matchAt k s'
      | O =>
          match matchAt s with
          | Some (S l) => replaceAll matchAt l s'
          | _ => String c (replaceAll matchAt O s')
          end
      end
  end.

Fixpoint trimStart (s : string) : string :=
  match s with
  | EmptyString => EmptyString
  | String c s' => if whiteSpace c then trimStart s' else s
  end.

Fixpoint trimEnd (s : string) : string :=
  match s with
  | EmptyString => EmptyString
  | String c s' =>
      match trimEnd s' with
      | EmptyString =>
          if whiteSpace c then EmptyString else String c EmptyString
      | r => String c r
      end
  end.

Definition trim (s : string) : string := trimEnd (trimStart s).

Definition sanitize (text : Val) : string :=
  match text with
  | VStr s => trim (replaceAll matchTag O (replaceAll matchScript O s))
  | _ => ""
  end.

(** The number of leading characters of [s] equal to [c]. *)
Fixpoint runLength (c : ascii) (s : string) : nat :=
  match s with
  | String d s' => if Ascii.eqb c d then S (runLength c s') else O
  | EmptyString => O
  end.

(** [/(.)\1{10,}/.test(s)] *)
Fixpoint repeatedRun (s : string) : bool :=
  match s with
  | EmptyString => false
  | String c s' =>
      (negb (lineTerminator c) && (10 <=? runLength c s')%nat)
      || repeatedRun s'
  end.

(** ** AdminMetrics (production server) *)

Module AdminMetrics.

(** The counters the embedded handlers write; [activeRooms] and
    [hourlyStats] are written by other handlers and timers only. *)
Record t := {
  totalConnections : Z;
  totalMessages : Z;
  totalReports : Z;
  peakConcurrentUsers : Z;
  messagesPerSecond : Z;
  flaggedUsers : JsSet Val;
  messageTimestamps : list Z
}.

Definition empty : t :=
  {| totalConnections := 0; totalMessages := 0; totalReports := 0;
     peakConcurrentUsers := 0; messagesPerSecond := 0; flaggedUsers := [];
     messageTimestamps := [] |}.

Definition recordMessage (now : Z) (m : t) : t :=
  {| totalConnections := totalConnections m;
     totalMessages := totalMessages m + 1;
     totalReports := totalReports m;
     peakConcurrentUsers := peakConcurrentUsers m;
     messagesPerSecond := messagesPerSecond m;
     flaggedUsers := flaggedUsers m;
     messageTimestamps := messageTimestamps m ++ [now] |}.

Definition recordReport (uid : Val) (m : t) : t :=
  {| totalConnections := totalConnections m;
     totalMessages := totalMessages m;
     totalReports := totalReports m + 1;
     peakConcurrentUsers := peakConcurrentUsers m;
     messagesPerSecond := messagesPerSecond m;
     flaggedUsers := add uid (flaggedUsers m);
     messageTimestamps := messageTimestamps m |}.

Definition updateConcurrentUsers (count : Z) (m : t) : t :=
  {| totalConnections := totalConnections m;
     totalMessages := totalMessages m;
     totalReports := totalReports m;
     peakConcurrentUsers :=
       if peakConcurrentUsers m <? count then count
       else peakConcurrentUsers m;
     messagesPerSecond := messagesPerSecond m;
     flaggedUsers := flaggedUsers m;
     messageTimestamps := messageTimestamps m |}.

End AdminMetrics.

(** ** Rate limiting (production server) *)

Module RateLimit.

Record Limits := {
  lastMessage : Z;
  messageCount : Z;
  lastTyping : Z;
  lastReport : Z;
  windowStart : Z
}.

(** [rateLimits]: userId -> limits *)
Definition t := Map string Limits.

Definition MESSAGE_INTERVAL : Z := 500.
Definition MESSAGE_BURST : Z := 5.
Definition TYPING_INTERVAL : Z := 1000.
Definition REPORT_INTERVAL : Z := 10000.

Definition fresh (now : Z) : Limits :=
  {| lastMessage := 0; messageCount := 0; lastTyping := 0; lastReport := 0;
     windowStart := now |}.

Definition checkRateLimit (now : Z) (uid : string) (type : string)
    (rateLimits : t) : bool * t :=
  let '(limits, rateLimits) :=
    match get uid rateLimits with
    | Some limits => (limits, rateLimits)
    | None => (fresh now, set uid (fresh now) rateLimits)
    end in
  if String.eqb type "message" then
    let limits :=
      if 10000 <? now - windowStart limits then
        {| lastMessage := lastMessage limits; messageCount := 0;
           lastTyping := lastTyping limits; lastReport := lastReport limits;
           windowStart := now |}
      else limits in
    if (MESSAGE_BURST <=? messageCount limits)
       && (now - lastMessage limits <? MESSAGE_INTERVAL)
    then (false, set uid limits rateLimits)
    else
      (true,
       set uid
         {| lastMessage := now; messageCount := messageCount limits + 1;
            lastTyping := lastTyping limits; lastReport := lastReport limits;
            windowStart := windowStart limits |}
         rateLimits)
  else if String.eqb type "typing" then
    if now - lastTyping limits <? TYPING_INTERVAL then (false, rateLimits)
    else
      (true,
       set uid
         {| lastMessage := lastMessage limits;
            messageCount := messageCount limits;
            lastTyping := now; lastReport := lastReport limits;
            windowStart := windowStart limits |}
         rateLimits)
  else if String.eqb type "report" then
    if now - lastReport limits <? REPORT_INTERVAL then (false, rateLimits)
    else
      (true,
       set uid
         {| lastMessage := lastMessage limits;
            messageCount := messageCount limits;
            lastTyping := lastTyping limits; lastReport := now;
            windowStart := windowStart limits |}
         rateLimits)
  else (true, rateLimits).

(** The record after the [n]-th allowed message of a burst begun at [t1]. *)
Definition inBurst (t1 now n lt lr : Z) : Limits :=
  {| lastMessage := now; messageCount := n; lastTyping := lt;
     lastReport := lr; windowStart := t1 |}.

(** A burst of [message] evaluations of one user at the given times: the
    answers in order, and the final map. *)
Fixpoint burst (uid : string) (times : list Z) (rateLimits : t)
  : list bool * t :=
  match times with
  | [] => ([], rateLimits)
  | now :: rest =>
      let '(ok, rateLimits) := checkRateLimit now uid "message" rateLimits in
      let '(oks, rateLimits) := burst uid rest rateLimits in
      (ok :: oks, rateLimits)
  end.

End RateLimit.

(** ** The production server: global state and socket handlers *)

Module Server.

Record User := {
  id : string;
  username : string;
  socketId : string;
  joinedAt : Z;
  status : string
}.

Definition set_status (v : string) (u : User) : User :=
  {| id := id u; username := username u; socketId := socketId u;
     joinedAt := joinedAt u; status := v |}.

Record PublicRoom := {
  pub_id : string;
  pub_name : string;
  pub_participants : JsSet string;
  pub_createdAt : Z
}.

Record PrivateRoom := {
  room_id : string;
  participants : JsSet string;
  createdAt : Z;
  type : string
}.

Definition pub_leave (uid : string) (r : PublicRoom) : PublicRoom :=
  {| pub_id := pub_id r; pub_name := pub_name r;
     pub_participants := remove uid (pub_participants r);
     pub_createdAt := pub_createdAt r |}.

Definition room_leave (uid : string) (r : PrivateRoom) : PrivateRoom :=
  {| room_id := room_id r; participants := remove uid (participants r);
     createdAt := createdAt r; type := type r |}.

(** The module-level objects of the server. *)
Record State := {
  sessionManager : SessionManager.t;
  reputationSystem : ReputationSystem.t;
  matchmaking : SmartMatchmaking.t;
  adminMetrics : AdminMetrics.t;
  users : Map string User;                  (* userId -> userData *)
  activeSockets : Map string string;        (* socketId -> userId *)
  userSockets : Map string (JsSet string);  (* userId -> Set<socketId> *)
  publicRooms : Map string PublicRoom;      (* roomId -> roomData *)
  privateChatRooms : Map string PrivateRoom;(* chatId -> roomData *)
  typingUsers : Map string (JsSet string);  (* roomId -> Set<userId> *)
  rateLimits : RateLimit.t
}.

(** The variables of one connection's closure. *)
Record Conn := {
  socket_id : string;
  currentUserId : option string;
  currentSessionToken : option string
}.

(** [if (x)] for a string or [null]: the value when it is truthy. *)
Definition truthyId (x : option string) : option string :=
  match x with
  | Some s => if String.eqb s "" then None else Some s
  | None => None
  end.

(** The key a client value can be in a map whose keys are all strings. *)
Definition keyOf (v : Val) : option string :=
  match v with
  | VStr s => Some s
  | _ => None
  end.

(** What a handler sends, in order. *)
Inductive Reply :=
  | ReplyError (error : string)         (* { success: false, error } *)
  | ReplyOk                             (* { success: true } *)
  | ReplyMessage (messageData : Message)(* { success: true, messageData } *)
  | ReplyReport (message : string).     (* { success: true, message } *)

Inductive Out :=
  | Callback (r : Reply)
  | SocketLeave (room : Val)
  | PartnerSkipped (room : Val)
  | PartnerDisconnected (room : string)
  | NewMessage (room : Val) (messageData : Message)
  | UserLeftRoom (room : Val) (uid : string) (uname : option string)
  | OnlineUsersUpdate (onlineUsers : list User)
  | RoomsListUpdate (roomsList : list (string * string * Z)).

(** [Array.from(new Set(xs))] *)
Definition dedupe (xs : list string) : list string :=
  fold_left (fun s x => add x s) xs [].

Definition getOnlineUsers (st : State) : list User :=
  omap (fun uid => get uid (users st))
       (dedupe (map snd (activeSockets st))).

Definition getRoomsList (st : State) : list (string * string * Z) :=
  map (fun e => (pub_id (snd e), pub_name (snd e),
                 Z.of_nat (length (pub_participants (snd e)))))
      (publicRooms st).

Definition with_adminMetrics (m : AdminMetrics.t) (st : State) : State :=
  {| sessionManager := sessionManager st;
     reputationSystem := reputationSystem st;
     matchmaking := matchmaking st; adminMetrics := m; users := users st;
     activeSockets := activeSockets st; userSockets := userSockets st;
     publicRooms := publicRooms st; privateChatRooms := privateChatRooms st;
     typingUsers := typingUsers st; rateLimits := rateLimits st |}.

Definition with_rateLimits (rl : RateLimit.t) (st : State) : State :=
  {| sessionManager := sessionManager st;
     reputationSystem := reputationSystem st;
     matchmaking := matchmaking st; adminMetrics := adminMetrics st;
     users := users st; activeSockets := activeSockets st;
     userSockets := userSockets st; publicRooms := publicRooms st;
     privateChatRooms := privateChatRooms st; typingUsers := typingUsers st;
     rateLimits := rl |}.

Definition with_reputationSystem (reps : ReputationSystem.t) (st : State)
  : State :=
  {| sessionManager := sessionManager st; reputationSystem := reps;
     matchmaking := matchmaking st; adminMetrics := adminMetrics st;
     users := users st; activeSockets := activeSockets st;
     userSockets := userSockets st; publicRooms := publicRooms st;
     privateChatRooms := privateChatRooms st; typingUsers := typingUsers st;
     rateLimits := rateLimits st |}.

Definition with_sessionManager (sm : SessionManager.t) (st : State) : State :=
  {| sessionManager := sm; reputationSystem := reputationSystem st;
     matchmaking := matchmaking st; adminMetrics := adminMetrics st;
     users := users st; activeSockets := activeSockets st;
     userSockets := userSockets st; publicRooms := publicRooms st;
     privateChatRooms := privateChatRooms st; typingUsers := typingUsers st;
     rateLimits := rateLimits st |}.

Definition with_matchmaking (mm : SmartMatchmaking.t) (st : State) : State :=
  {| sessionManager := sessionManager st;
     reputationSystem := reputationSystem st; matchmaking := mm;
     adminMetrics := adminMetrics st; users := users st;
     activeSockets := activeSockets st; userSockets := userSockets st;
     publicRooms := publicRooms st; privateChatRooms := privateChatRooms st;
     typingUsers := typingUsers st; rateLimits := rateLimits st |}.

Definition with_users (us : Map string User) (st : State) : State :=
  {| sessionManager := sessionManager st;
     reputationSystem := reputationSystem st;
     matchmaking := matchmaking st; adminMetrics := adminMetrics st;
     users := us; activeSockets := activeSockets st;
     userSockets := userSockets st; publicRooms := publicRooms st;
     privateChatRooms := privateChatRooms st; typingUsers := typingUsers st;
     rateLimits := rateLimits st |}.

Definition with_sockets (a : Map string string)
    (u : Map string (JsSet string)) (st : State) : State :=
  {| sessionManager := sessionManager st;
     reputationSystem := reputationSystem st;
     matchmaking := matchmaking st; adminMetrics := adminMetrics st;
     users := users st; activeSockets := a; userSockets := u;
     publicRooms := publicRooms st; privateChatRooms := privateChatRooms st;
     typingUsers := typingUsers st; rateLimits := rateLimits st |}.

Definition with_publicRooms (rooms : Map string PublicRoom) (st : State)
  : State :=
  {| sessionManager := sessionManager st;
     reputationSystem := reputationSystem st;
     matchmaking := matchmaking st; adminMetrics := adminMetrics st;
     users := users st; activeSockets := activeSockets st;
     userSockets := userSockets st; publicRooms := rooms;
     privateChatRooms := privateChatRooms st; typingUsers := typingUsers st;
     rateLimits := rateLimits st |}.

Definition with_privateChatRooms (rooms : Map string PrivateRoom)
    (st : State) : State :=
  {| sessionManager := sessionManager st;
     reputationSystem := reputationSystem st;
     matchmaking := matchmaking st; adminMetrics := adminMetrics st;
     users := users st; activeSockets := activeSockets st;
     userSockets := userSockets st; publicRooms := publicRooms st;
     privateChatRooms := rooms; typingUsers := typingUsers st;
     rateLimits := rateLimits st |}.

Definition broadcastOnlineUsers (st : State) : list Out * State :=
  let onlineUsers := getOnlineUsers st in
  ([OnlineUsersUpdate onlineUsers],
   with_adminMetrics
     (AdminMetrics.updateConcurrentUsers (Z.of_nat (length onlineUsers))
        (adminMetrics st)) st).

Definition broadcastRoomsList (st : State) : list Out :=
  [RoomsListUpdate (getRoomsList st)].

(** [socket.on('skipMatch', (chatId, callback) => ...)] *)
Definition skipMatch (now : Z) (c : Conn) (chatId : Val) (st : State)
  : list Out * State :=
  match truthyId (currentUserId c) with
  | None => ([Callback (ReplyError "Invalid request")], st)
  | Some uid =>
      if negb (truthy chatId)
      then ([Callback (ReplyError "Invalid request")], st)
      else
        match keyOf chatId ≫= fun cid =>
              get cid (privateChatRooms st) ≫= fun room => Some (cid, room)
        with
        | None => ([Callback (ReplyError "Room not found")], st)
        | Some (cid, room) =>
            let st :=
              with_reputationSystem
                (ReputationSystem.recordSkip now (VStr uid)
                   (reputationSystem st)) st in
            let st :=
              with_matchmaking
                (SmartMatchmaking.endMatch cid (matchmaking st)) st in
            let room := room_leave uid room in
            let rooms :=
              if (length (participants room) =? 0)%nat
              then del cid (privateChatRooms st)
              else set cid room (privateChatRooms st) in
            ([SocketLeave chatId; PartnerSkipped chatId; Callback ReplyOk],
             with_privateChatRooms rooms st)
        end
  end.

(** [socket.on('sendMessage', (data, callback) => ...)]; [uuid] is the
    result of [uuidv4()]. *)
Definition sendMessage (uuid : string) (now : Z) (c : Conn) (data : Payload)
    (st : State) : list Out * State :=
  if negb (validatePayload data [("roomId", "string"); ("message", "string")])
  then ([Callback (ReplyError "Invalid payload")], st)
  else
    match truthyId (currentUserId c) with
    | None => ([Callback (ReplyError "Rate limit exceeded")], st)
    | Some uid =>
        let '(ok, rl) :=
          RateLimit.checkRateLimit now uid "message" (rateLimits st) in
        let st := with_rateLimits rl st in
        if negb ok then ([Callback (ReplyError "Rate limit exceeded")], st)
        else
          let roomId := field "roomId" data in
          let rawMessage := field "message" data in
          let message := substring 0 1000 (sanitize rawMessage) in
          if String.eqb message ""
          then ([Callback (ReplyError "Empty message")], st)
          else
            match get uid (users st) with
            | None => ([Callback (ReplyError "User not found")], st)
            | Some user =>
                let isSpam :=
                  (500 <? String.length message)%nat || repeatedRun message in
                let st :=
                  with_reputationSystem
                    (ReputationSystem.recordMessage now (VStr uid) isSpam
                       (reputationSystem st)) st in
                if isSpam
                then ([Callback (ReplyError "Spam detected")], st)
                else
                  let messageData :=
                    {| msg_id := "msg-" +:+ uuid; msg_roomId := roomId;
                       msg_senderId := uid; msg_senderName := username user;
                       msg_message := message; msg_timestamp := now |} in
                  let st :=
                    match truthyId (currentSessionToken c) with
                    | Some tok =>
                        with_sessionManager
                          (SessionManager.addMessageToBuffer tok messageData
                             (sessionManager st)) st
                    | None => st
                    end in
                  let st :=
                    with_adminMetrics
                      (AdminMetrics.recordMessage now (adminMetrics st)) st in
                  ([NewMessage roomId messageData;
                    Callback (ReplyMessage messageData)], st)
            end
    end.

(** [socket.on('reportUser', (data, callback) => ...)] *)
Definition reportUser (now : Z) (c : Conn) (data : Payload) (st : State)
  : list Out * State :=
  if negb (validatePayload data
             [("targetUserId", "string"); ("reason", "string")])
  then ([Callback (ReplyError "Invalid payload")], st)
  else
    match truthyId (currentUserId c) with
    | None => ([Callback (ReplyError "Rate limit exceeded")], st)
    | Some uid =>
        let '(ok, rl) :=
          RateLimit.checkRateLimit now uid "report" (rateLimits st) in
        let st := with_rateLimits rl st in
        if negb ok then ([Callback (ReplyError "Rate limit exceeded")], st)
        else
          let targetUserId := field "targetUserId" data in
          let st :=
            with_reputationSystem
              (ReputationSystem.recordReport now targetUserId
                 (reputationSystem st)) st in
          let st :=
            with_adminMetrics
              (AdminMetrics.recordReport targetUserId (adminMetrics st)) st in
          ([Callback (ReplyReport "Report submitted. Thank you.")], st)
    end.

(** [socket.on('leaveRoom', (roomId) => ...)] *)
Definition leaveRoom (c : Conn) (roomId : Val) (st : State)
  : list Out * State :=
  match truthyId (currentUserId c) with
  | None => ([], st)
  | Some uid =>
      if negb (truthy roomId) then ([], st)
      else
        let uname := username <$> get uid (users st) in
        match keyOf roomId with
        | None => ([], st)
        | Some rid =>
            match get rid (publicRooms st) with
            | Some room =>
                let st :=
                  with_publicRooms
                    (set rid (pub_leave uid room) (publicRooms st)) st in
                (SocketLeave roomId :: UserLeftRoom roomId uid uname
                   :: broadcastRoomsList st, st)
            | None =>
                match get rid (privateChatRooms st) with
                | Some room =>
                    let st :=
                      with_privateChatRooms
                        (set rid (room_leave uid room) (privateChatRooms st))
                        st in
                    (SocketLeave roomId :: UserLeftRoom roomId uid uname
                       :: broadcastRoomsList st, st)
                | None => ([], st)
                end
            end
        end
  end.

(** One turn of the loop of the [disconnect] handler over [publicRooms]. *)
Definition leavePublic (uid : string) (uname : option string)
    (acc : list Out * Map string PublicRoom) (e : string * PublicRoom)
  : list Out * Map string PublicRoom :=
  let '(roomId, room) := e in
  if mem uid (pub_participants room)
  then (fst acc ++ [UserLeftRoom (VStr roomId) uid uname],
        set roomId (pub_leave uid room) (snd acc))
  else acc.

(** One turn of its loop over [privateChatRooms]. *)
Definition leavePrivate (uid : string)
    (acc : list Out * Map string PrivateRoom * SmartMatchmaking.t)
    (e : string * PrivateRoom)
  : list Out * Map string PrivateRoom * SmartMatchmaking.t :=
  let '(chatId, room) := e in
  let '(outs, rooms, mm) := acc in
  if mem uid (participants room)
  then
    let room := room_leave uid room in
    if (length (participants room) =? 0)%nat
    then (outs ++ [PartnerDisconnected chatId], del chatId rooms,
          SmartMatchmaking.endMatch chatId mm)
    else (outs ++ [PartnerDisconnected chatId], set chatId room rooms, mm)
  else acc.

(** [socket.on('disconnect', () => ...)] *)
Definition disconnect (c : Conn) (st : State) : list Out * State :=
  match truthyId (currentUserId c) with
  | None => ([], st)
  | Some uid =>
      let active := del (socket_id c) (activeSockets st) in
      let sockets :=
        match get uid (userSockets st) with
        | Some userSocketSet =>
            let userSocketSet := remove (socket_id c) userSocketSet in
            if (length userSocketSet =? 0)%nat
            then del uid (userSockets st)
            else set uid userSocketSet (userSockets st)
        | None => userSockets st
        end in
      let st := with_sockets active sockets st in
      let user := get uid (users st) in
      let st :=
        match user with
        | Some u => with_users (set uid (set_status "offline" u) (users st)) st
        | None => st
        end in
      let st :=
        with_matchmaking
          (SmartMatchmaking.removeFromQueue uid (matchmaking st)) st in
      let '(outs1, pubs) :=
        fold_left (leavePublic uid (username <$> user)) (publicRooms st)
                  ([], publicRooms st) in
      let st := with_publicRooms pubs st in
      let '(outs2, rooms, mm) :=
        fold_left (leavePrivate uid) (privateChatRooms st)
                  ([], privateChatRooms st, matchmaking st) in
      let st := with_matchmaking mm (with_privateChatRooms rooms st) in
      let '(outs3, st) := broadcastOnlineUsers st in
      (outs1 ++ outs2 ++ outs3 ++ broadcastRoomsList st, st)
  end.

End Server.

(** ** The baseline server: rooms, leaving and the cleanup job *)

Module Baseline.

Record User := {
  id : string;
  username : string;
  age : Z;
  gender : string;
  location : string;
  avatar : string;
  isOnline : bool;
  lastSeen : Z
}.

Record PublicRoom := {
  pub_id : string;
  pub_name : string;
  pub_participants : JsSet string
}.

Record PrivateRoom := {
  participants : JsSet string;
  createdAt : Z
}.

Definition pub_leave (uid : string) (r : PublicRoom) : PublicRoom :=
  {| pub_id := pub_id r; pub_name := pub_name r;
     pub_participants := remove uid (pub_participants r) |}.

Definition room_leave (uid : string) (r : PrivateRoom) : PrivateRoom :=
  {| participants := remove uid (participants r); createdAt := createdAt r |}.

Record State := {
  users : Map string User;
  activeSockets : Map string string;
  userSockets : Map string (JsSet string);   (* userId -> Set<socketId> *)
  publicRooms : Map string PublicRoom;
  waitingQueue : Map string Z;               (* userId -> timestamp *)
  privateChatRooms : Map string PrivateRoom  (* chatId -> room *)
}.

Inductive Out :=
  | SocketLeave (room : Val)
  | SystemMessage (room : Val) (msgId : string) (content : string)
      (timestamp : Z)
  | RoomsUpdate (roomsList : list (string * string * Z))
  | LobbyUpdate (activeUsers : Z) (onlineUsers : list User).

Definition getOnlineUsers (st : State) : list User :=
  omap (fun uid => get uid (users st))
       (Server.dedupe (map snd (activeSockets st))).

Definition getRoomsList (st : State) : list (string * string * Z) :=
  map (fun e => (pub_id (snd e), pub_name (snd e),
                 Z.of_nat (length (pub_participants (snd e)))))
      (publicRooms st).

(** One turn of the loop of [cleanupEmptyRooms]. *)
Definition cleanupOne (now : Z) (rooms : Map string PrivateRoom)
    (e : string * PrivateRoom) : Map string PrivateRoom :=
  let '(chatId, room) := e in
  if (length (participants room) =? 0)%nat && (60000 <? now - createdAt room)
  then del chatId rooms
  else rooms.

Definition cleanupEmptyRooms (now : Z) (st : State) : State :=
  {| users := users st; activeSockets := activeSockets st;
     userSockets := userSockets st; publicRooms := publicRooms st;
     waitingQueue := waitingQueue st;
     privateChatRooms :=
       fold_left (cleanupOne now) (privateChatRooms st)
                 (privateChatRooms st) |}.

(** The job run every 30 seconds. *)
Definition cleanupJob (now : Z) (st : State) : State :=
  let st := cleanupEmptyRooms now st in
  {| users := users st; activeSockets := activeSockets st;
     userSockets := userSockets st; publicRooms := publicRooms st;
     waitingQueue :=
       fold_left
         (fun q e => if 60000 <? now - snd e then del (fst e) q else q)
         (waitingQueue st) (waitingQueue st);
     privateChatRooms := privateChatRooms st |}.

(** [socket.on('chat:leave', (data) => ...)] of the connection of user
    [uid]; [uuid] is the result of [uuidv4()]. *)
Definition chatLeave (uuid : string) (now : Z) (uid : string)
    (data : Payload) (st : State) : list Out * State :=
  if negb (validatePayload data [("chatId", "string")]) then ([], st)
  else
    let chatId := field "chatId" data in
    let '(outs, pubs) :=
      match Server.keyOf chatId ≫= fun k =>
            get k (publicRooms st) ≫= fun room => Some (k, room)
      with
      | Some (k, room) =>
          let pubs := set k (pub_leave uid room) (publicRooms st) in
          ([RoomsUpdate
              (getRoomsList
                 {| users := users st; activeSockets := activeSockets st;
                    userSockets := userSockets st; publicRooms := pubs;
                    waitingQueue := waitingQueue st;
                    privateChatRooms := privateChatRooms st |})], pubs)
      | None => ([], publicRooms st)
      end in
    let rooms :=
      match Server.keyOf chatId ≫= fun k =>
            get k (privateChatRooms st) ≫= fun room => Some (k, room)
      with
      | Some (k, room) => set k (room_leave uid room) (privateChatRooms st)
      | None => privateChatRooms st
      end in
    let uname :=
      match get uid (users st) with
      | Some u => if String.eqb (username u) "" then "User" else username u
      | None => "User"
      end in
    (SocketLeave chatId :: outs
       ++ [SystemMessage chatId uuid (uname +:+ " left the chat.") now],
     {| users := users st; activeSockets := activeSockets st;
        userSockets := userSockets st; publicRooms := pubs;
        waitingQueue := waitingQueue st; privateChatRooms := rooms |}).

(** [socket.on('disconnect', (reason) => ...)] of socket [sid] of user
    [uid]. *)
Definition disconnect (now : Z) (sid uid : string) (st : State)
  : list Out * State :=
  let active := del sid (activeSockets st) in
  let waiting := del uid (waitingQueue st) in
  let sockets :=
    match get uid (userSockets st) with
    | Some socketSet =>
        let socketSet := remove sid socketSet in
        if (length socketSet =? 0)%nat then del uid (userSockets st)
        else set uid socketSet (userSockets st)
    | None => userSockets st
    end in
  if has uid sockets
  then ([], {| users := users st; activeSockets := active;
               userSockets := sockets; publicRooms := publicRooms st;
               waitingQueue := waiting;
               privateChatRooms := privateChatRooms st |})
  else
    let pubs :=
      map (fun e => (fst e, if mem uid (pub_participants (snd e))
                            then pub_leave uid (snd e) else snd e))
          (publicRooms st) in
    let rooms :=
      map (fun e => (fst e, if mem uid (participants (snd e))
                            then room_leave uid (snd e) else snd e))
          (privateChatRooms st) in
    let us :=
      match get uid (users st) with
      | Some u =>
          set uid {| id := id u; username := username u; age := age u;
                     gender := gender u; location := location u;
                     avatar := avatar u; isOnline := false;
                     lastSeen := now |} (users st)
      | None => users st
      end in
    let st :=
      {| users := us; activeSockets := active; userSockets := sockets;
         publicRooms := pubs; waitingQueue := waiting;
         privateChatRooms := rooms |} in
    ([LobbyUpdate (size active) (getOnlineUsers st);
      RoomsUpdate (getRoomsList st)], st).

End Baseline.

(** ** Sample states, built by the operations above *)

Module Sample.

Definition message (n : Z) : Message :=
  {| msg_id := "msg-a"; msg_roomId := VStr "room-1"; msg_senderId := "u1";
     msg_senderName := "ann"; msg_message := "hi"; msg_timestamp := n |}.

(** bob was reported once (score 85) and joins the queue at time 10; alice
    (score 100) joins at time 20. *)
Definition aliceAndBob : SmartMatchmaking.t :=
  let reps := ReputationSystem.recordReport 0 (VStr "bob")
                ReputationSystem.empty in
  let '(_, reps, mm) :=
    SmartMatchmaking.addToQueue 10 "bob" reps SmartMatchmaking.empty in
  let '(_, _, mm) := SmartMatchmaking.addToQueue 20 "alice" reps mm in
  mm.

Definition aliceMeta : SmartMatchmaking.Metadata :=
  {| SmartMatchmaking.priority := 5; SmartMatchmaking.joinedAt := 20;
     SmartMatchmaking.activityLevel := 25;
     SmartMatchmaking.responseSpeed := 0%Q |}.

(** The same with carol, reported once too, who joins at time 15. *)
Definition aliceBobCarol : SmartMatchmaking.t :=
  let reps := ReputationSystem.recordReport 0 (VStr "bob")
                ReputationSystem.empty in
  let reps := ReputationSystem.recordReport 0 (VStr "carol") reps in
  let '(_, reps, mm) :=
    SmartMatchmaking.addToQueue 10 "bob" reps SmartMatchmaking.empty in
  let '(_, reps, mm) := SmartMatchmaking.addToQueue 15 "carol" reps mm in
  let '(_, _, mm) := SmartMatchmaking.addToQueue 20 "alice" reps mm in
  mm.

(** ann joins the queue at time 10. *)
Definition annOnce : SmartMatchmaking.t :=
  snd (SmartMatchmaking.addToQueue 10 "ann" ReputationSystem.empty
         SmartMatchmaking.empty).

(** ann joins at time 10, sends a spam message at 20 and joins again
    at 30. *)
Definition annAgain
  : SmartMatchmaking.QueueResult * ReputationSystem.t * SmartMatchmaking.t :=
  let '(_, reps, mm) :=
    SmartMatchmaking.addToQueue 10 "ann" ReputationSystem.empty
      SmartMatchmaking.empty in
  let reps := ReputationSystem.recordMessage 20 (VStr "ann") true reps in
  SmartMatchmaking.addToQueue 30 "ann" reps mm.

(** The rate limits after five messages of u1 at 1000..1004. *)
Definition fiveMessages : RateLimit.t :=
  snd (RateLimit.burst "u1" [1000; 1001; 1002; 1003; 1004] []).

(** The production server with ann (u1, socket s1, session t0) and bob
    (u2, socket s2), matched at time 4000 into the random room match-1. *)
Definition server : Server.State :=
  {| Server.sessionManager :=
       snd (SessionManager.createSession "t0" 1000 "s1" "u1" "ann"
              SessionManager.empty);
     Server.reputationSystem :=
       snd (ReputationSystem.initializeReputation 1000 (VStr "u1")
              ReputationSystem.empty);
     Server.matchmaking :=
       {| SmartMatchmaking.waitingQueue := [];
          SmartMatchmaking.userMetadata := [];
          SmartMatchmaking.activeMatches :=
            [("match-1",
              {| SmartMatchmaking.user1 := "u1";
                 SmartMatchmaking.user2 := "u2";
                 SmartMatchmaking.startTime := 4000 |})] |};
     Server.adminMetrics := AdminMetrics.empty;
     Server.users :=
       [("u1", {| Server.id := "u1"; Server.username := "ann";
                  Server.socketId := "s1"; Server.joinedAt := 1000;
                  Server.status := "online" |});
        ("u2", {| Server.id := "u2"; Server.username := "bob";
                  Server.socketId := "s2"; Server.joinedAt := 2000;
                  Server.status := "online" |})];
     Server.activeSockets := [("s1", "u1"); ("s2", "u2")];
     Server.userSockets := [("u1", ["s1"]); ("u2", ["s2"])];
     Server.publicRooms :=
       [("room-1", {| Server.pub_id := "room-1";
                      Server.pub_name := "General Lounge";
                      Server.pub_participants := [];
                      Server.pub_createdAt := 0 |})];
     Server.privateChatRooms :=
       [("match-1", {| Server.room_id := "match-1";
                       Server.participants := ["u1"; "u2"];
                       Server.createdAt := 4000;
                       Server.type := "random" |})];
     Server.typingUsers := [];
     Server.rateLimits := [] |}.

Definition annConn : Server.Conn :=
  {| Server.socket_id := "s1"; Server.currentUserId := Some "u1";
     Server.currentSessionToken := Some "t0" |}.

Definition bobConn : Server.Conn :=
  {| Server.socket_id := "s2"; Server.currentUserId := Some "u2";
     Server.currentSessionToken := None |}.

(** The same after bob skipped the match at time 4500: ann is the last
    participant of match-1. *)
Definition annAlone : Server.State :=
  snd (Server.skipMatch 4500 bobConn (VStr "match-1") server).

(** The message ann's payload without [roomId] produces. *)
Definition strayMessage : Message :=
  {| msg_id := "msg-a1"; msg_roomId := VUndefined; msg_senderId := "u1";
     msg_senderName := "ann"; msg_message := "hi"; msg_timestamp := 5000 |}.

(** The baseline server with ann (u1, socket s1) alone in the random room
    random-1, created at time 1000. *)
Definition baseline : Baseline.State :=
  {| Baseline.users :=
       [("u1", {| Baseline.id := "u1"; Baseline.username := "ann";
                  Baseline.age := 30; Baseline.gender := "Other";
                  Baseline.location := "Unknown"; Baseline.avatar := "";
                  Baseline.isOnline := true; Baseline.lastSeen := 1000 |})];
     Baseline.activeSockets := [("s1", "u1")];
     Baseline.userSockets := [("u1", ["s1"])];
     Baseline.publicRooms := [];
     Baseline.waitingQueue := [];
     Baseline.privateChatRooms :=
       [("random-1", {| Baseline.participants := ["u1"];
                        Baseline.createdAt := 1000 |})] |}.

(** The same after ann left the room at time 100000. *)
Definition baselineLeft : Baseline.State :=
  snd (Baseline.chatLeave "x" 100000 "u1" [("chatId", VStr "random-1")]
         baseline).

End Sample.

(** ** Predicates on text, to state what [sanitize] returns *)

Module Text.

(** No match of [/<[^>]+>/] starts anywhere in [s]. *)
Fixpoint tagFree (s : string) : bool :=
  match s with
  | EmptyString => true
  | String c s' =>
      match matchTag s with
      | Some _ => false
      | None => tagFree s'
      end
  end.

Definition headChar (s : string) : option ascii :=
  match s with
  | EmptyString => None
  | String c _ => Some c
  end.

Fixpoint lastChar (s : string) : option ascii :=
  match s with
  | EmptyString => None
  | String c EmptyString => Some c
  | String _ s' => lastChar s'
  end.

Definition isSpace (c : option ascii) : bool :=
  match c with
  | Some c => whiteSpace c
  | None => false
  end.

(** [s] neither starts nor ends with white space. *)
Definition trimmed (s : string) : bool :=
  negb (isSpace (headChar s)) && negb (isSpace (lastChar s)).

End Text.

(** ** Runs of rate-limit calls and of reputation decay *)

Module RateRun.

(** One evaluation: its time, the calling user and the kind of event. *)
Record Call := { at_ : Z; by_ : string; kind : string }.

(** The map after a run of evaluations, in order. *)
Definition after (cs : list Call) (rl : RateLimit.t) : RateLimit.t :=
  fold_left
    (fun rl c => snd (RateLimit.checkRateLimit (at_ c) (by_ c) (kind c) rl))
    cs rl.

(** No call of the run is an event of kind [k] by [uid]. *)
Definition noneOf (uid k : string) (cs : list Call) : Prop :=
  Forall (fun c => by_ c = uid -> kind c <> k) cs.

(** Each time is at least [d] after the one before, the first after
    [last]. *)
Fixpoint spaced (d last : Z) (times : list Z) : Prop :=
  match times with
  | [] => True
  | t :: rest => d <= t - last /\ spaced d t rest
  end.

End RateRun.

Module ReputationRun.

(** What one tick of [decayReputations] makes of a record it keeps. *)
Definition decayedRecord (rep : ReputationSystem.Reputation)
  : ReputationSystem.Reputation :=
  let rep :=
    ReputationSystem.set_skipCount
      (ReputationSystem.decayed (ReputationSystem.skipCount rep)) rep in
  let rep :=
    ReputationSystem.set_spamScore
      (ReputationSystem.decayed (ReputationSystem.spamScore rep)) rep in
  if ReputationSystem.score rep <? ReputationSystem.INITIAL_SCORE
  then ReputationSystem.set_score
         (Z.min ReputationSystem.INITIAL_SCORE
            (ReputationSystem.score rep + 1)) rep
  else rep.

End ReputationRun.

(** ** States of the SessionManager over its lifetime *)

Module SessionRun.

(** The states the methods of the class lead to from the constructor's.
    A token drawn by [generateSessionToken] is new. *)
Inductive reachable : SessionManager.t -> Prop :=
  | reach_empty : reachable SessionManager.empty
  | reach_create tok now sid uid uname sm :
      reachable sm ->
      get tok (SessionManager.sessions sm) = None ->
      reachable (snd (SessionManager.createSession tok now sid uid uname sm))
  | reach_update now tok updates sm :
      reachable sm ->
      reachable (snd (SessionManager.updateSession now tok updates sm))
  | reach_append tok message sm :
      reachable sm ->
      reachable (SessionManager.addMessageToBuffer tok message sm)
  | reach_reconnect now tok newSocketId sm :
      reachable sm ->
      reachable (snd (SessionManager.reconnectSession now tok newSocketId sm))
  | reach_delete tok sm :
      reachable sm ->
      reachable (SessionManager.deleteSession tok sm)
  | reach_cleanup now sm :
      reachable sm ->
      reachable (SessionManager.cleanupExpiredSessions now sm).

(** Every entry of [socketToSession] names a stored session whose
    [socketId] is the entry's key. *)
Definition indexed (sm : SessionManager.t) : Prop :=
  forall sid tok,
    get sid (SessionManager.socketToSession sm) = Some tok ->
    exists session,
      get tok (SessionManager.sessions sm) = Some session /\
      SessionManager.socketId session = sid.

End SessionRun.

(** ** The candidate loop of matchmaking *)

Module MatchRun.

(** The running best of the candidate loop is consistent: without a score
    there is no candidate, and a score is that of the running candidate. *)
Definition bestOf (mm : SmartMatchmaking.t)
    (userMeta : SmartMatchmaking.Metadata)
    (best : option string * option Q) : Prop :=
  match snd best with
  | None => fst best = None
  | Some s =>
      exists p md,
        fst best = Some p /\
        get p (SmartMatchmaking.userMetadata mm) = Some md /\
        s = SmartMatchmaking.compatibility userMeta md
  end.

End MatchRun.

(** ** The production server: joining and reconnecting *)

Module Handlers.

(** What the callback of [userJoin] and [reconnectSession] receives. *)
Inductive Reply :=
  | Failed (error : string)              (* { success: false, error } *)
  | Joined (userId sessionToken : string)
      (onlineUsers : list Server.User)
      (publicRooms : list (string * string * Z))
  | Restored (userId : string) (sessionToken : Val)
      (messageBuffer : list Message)
      (currentRoom currentMatch : option string)
      (onlineUsers : list Server.User)
      (publicRooms : list (string * string * Z)).

(** What the handler does besides: [socket.join] and the broadcast. *)
Inductive Effect :=
  | SocketJoin (room : string)
  | Broadcast (out : Server.Out).

(** [socket.on('userJoin', (username, callback) => ...)]; [uuid] and [tok]
    are the results of [uuidv4()] and [generateSessionToken()]. *)
Definition userJoin (uuid tok : string) (now : Z) (c : Server.Conn)
    (username : Val) (st : Server.State)
  : Reply * list Effect * Server.Conn * Server.State :=
  if negb (truthy username) || negb (String.eqb (typeof username) "string")
  then (Failed "Invalid username", [], c, st)
  else
    let username := substring 0 30 (sanitize username) in
    if String.eqb username "" then (Failed "Username required", [], c, st)
    else
      let userId := "user-" +:+ uuid in
      let st :=
        Server.with_users
          (set userId
             {| Server.id := userId; Server.username := username;
                Server.socketId := Server.socket_id c;
                Server.joinedAt := now; Server.status := "online" |}
             (Server.users st)) st in
      let sockets :=
        if has userId (Server.userSockets st) then Server.userSockets st
        else set userId [] (Server.userSockets st) in
      let sockets :=
        set userId
          (add (Server.socket_id c) (default [] (get userId sockets)))
          sockets in
      let st :=
        Server.with_sockets
          (set (Server.socket_id c) userId (Server.activeSockets st))
          sockets st in
      let st :=
        Server.with_reputationSystem
          (snd (ReputationSystem.initializeReputation now (VStr userId)
                  (Server.reputationSystem st))) st in
      let '(sessionToken, sm) :=
        SessionManager.createSession tok now (Server.socket_id c) userId
          username (Server.sessionManager st) in
      let st := Server.with_sessionManager sm st in
      let reply :=
        Joined userId sessionToken (Server.getOnlineUsers st)
          (Server.getRoomsList st) in
      let '(outs, st) := Server.broadcastOnlineUsers st in
      (reply, map Broadcast outs,
       {| Server.socket_id := Server.socket_id c;
          Server.currentUserId := Some userId;
          Server.currentSessionToken := Some sessionToken |}, st).

(** [socket.on('reconnectSession', (sessionToken, callback) => ...)].  The
    reply is built before [socket.join] and sent after it, before the
    broadcast. *)
Definition reconnectSession (now : Z) (c : Server.Conn) (sessionToken : Val)
    (st : Server.State)
  : Reply * list Effect * Server.Conn * Server.State :=
  if negb (truthy sessionToken)
  then (Failed "Invalid session token", [], c, st)
  else
    match
      match Server.keyOf sessionToken with
      | Some tok =>
          let '(session, sm) :=
            SessionManager.reconnectSession now tok (Server.socket_id c)
              (Server.sessionManager st) in
          match session with
          | Some session => Some (tok, session, sm)
          | None => None
          end
      | None => None
      end
    with
    | None => (Failed "Session expired or invalid", [], c, st)
    | Some (tok, session, sm) =>
        let st := Server.with_sessionManager sm st in
        let userId := SessionManager.userId session in
        let us :=
          match get userId (Server.users st) with
          | None =>
              set userId
                {| Server.id := userId;
                   Server.username := SessionManager.username session;
                   Server.socketId := Server.socket_id c;
                   Server.joinedAt := now; Server.status := "online" |}
                (Server.users st)
          | Some user =>
              set userId
                {| Server.id := Server.id user;
                   Server.username := Server.username user;
                   Server.socketId := Server.socket_id c;
                   Server.joinedAt := Server.joinedAt user;
                   Server.status := "online" |}
                (Server.users st)
          end in
        let st := Server.with_users us st in
        let st :=
          Server.with_sockets
            (set (Server.socket_id c) userId (Server.activeSockets st))
            (Server.userSockets st) st in
        let reply :=
          Restored userId sessionToken
            (SessionManager.messageBuffer session)
            (SessionManager.currentRoom session)
            (SessionManager.currentMatch session)
            (Server.getOnlineUsers st) (Server.getRoomsList st) in
        let joins :=
          match Server.truthyId (SessionManager.currentRoom session) with
          | Some room => [SocketJoin room]
          | None => []
          end in
        let '(outs, st) := Server.broadcastOnlineUsers st in
        (reply, joins ++ map Broadcast outs,
         {| Server.socket_id := Server.socket_id c;
            Server.currentUserId := Some userId;
            Server.currentSessionToken := Some tok |}, st)
    end.

End Handlers.

(** ** More sample states *)

Module Scenes.

(** ann waits in buckets 5 and 4 (as in [Sample.annAgain]); dave and zed,
    both of score 100, join at times 40 and 50. *)
Definition annDaveZed : SmartMatchmaking.t :=
  let '(_, reps, mm) := Sample.annAgain in
  let '(_, reps, mm) := SmartMatchmaking.addToQueue 40 "dave" reps mm in
  let '(_, _, mm) := SmartMatchmaking.addToQueue 50 "zed" reps mm in
  mm.

End Scenes.

(** * Properties *)

(** ** Maps *)

Section MapFacts.
Context {K : Type} `{EqDecision K} {V : Type}.
Implicit Types (k : K) (v : V) (m : Map K V).

Lemma get_set_eq k v m : get k (set k v m) = Some v.
Proof.
  induction m as [|[k' v'] m IH]; simpl.
  - destruct (decide (k = k)); congruence.
  - destruct (decide (k' = k)) as [->|Hne]; simpl.
    + destruct (decide (k = k)); congruence.
    + destruct (decide (k' = k)); congruence.
Qed.

Lemma get_set_ne k k' v m : k ≠ k' -> get k' (set k v m) = get k' m.
Proof.
  intros Hne. induction m as [|[k0 v0] m IH]; simpl.
  - destruct (decide (k = k')); congruence.
  - destruct (decide (k0 = k)) as [->|Hk]; simpl.
    + destruct (decide (k = k')); congruence.
    + destruct (decide (k0 = k')); congruence.
Qed.

Lemma get_del_eq k m : get k (del k m) = None.
Proof.
  induction m as [|[k' v'] m IH]; simpl; [done|].
  destruct (decide (k' = k)) as [->|Hne]; simpl; [done|].
  destruct (decide (k' = k)); congruence.
Qed.

Lemma get_del_ne k k' m : k ≠ k' -> get k' (del k m) = get k' m.
Proof.
  intros Hne. induction m as [|[k0 v0] m IH]; simpl; [done|].
  destruct (decide (k0 = k)) as [->|Hk]; simpl.
  - destruct (decide (k = k')); congruence.
  - destruct (decide (k0 = k')); congruence.
Qed.

Lemma get_Some_In k v m : get k m = Some v -> (k, v) ∈ m.
Proof.
  induction m as [|[k' v'] m IH]; simpl; [done|].
  destruct (decide (k' = k)) as [->|Hne].
  - intros [= ->]. by left.
  - intros Hg. right. by apply IH.
Qed.

(** A property of all stored values survives [set] and [del]. *)
Lemma Forall_set (P : K * V -> Prop) k v m :
  P (k, v) -> Forall P m -> Forall P (set k v m).
Proof.
  intros Hp. induction 1 as [|[k' v'] m Hx Hm IH]; simpl.
  - by repeat constructor.
  - destruct (decide (k' = k)) as [->|Hne]; by constructor.
Qed.

Lemma Forall_del (P : K * V -> Prop) k m :
  Forall P m -> Forall P (del k m).
Proof.
  induction 1 as [|[k' v'] m Hx Hm IH]; simpl; [done|].
  destruct (decide (k' = k)); [done|by constructor].
Qed.

Lemma get_None_not_In k m : get k m = None -> ~ In k (map fst m).
Proof.
  induction m as [|[k' v'] m IH]; simpl; [tauto|].
  destruct (decide (k' = k)) as [->|Hne]; [done|].
  intros Hg [Hk|Hin]; [done|]. by apply IH.
Qed.

Lemma get_not_In k m : ~ In k (map fst m) -> get k m = None.
Proof.
  induction m as [|[k' v'] m IH]; simpl; [done|].
  intros Hn. destruct (decide (k' = k)) as [->|Hne]; [tauto|].
  apply IH. tauto.
Qed.

Lemma get_del k k' m :
  get k' (del k m) = if decide (k = k') then None else get k' m.
Proof.
  destruct (decide (k = k')) as [->|Hne].
  - apply get_del_eq.
  - by apply get_del_ne.
Qed.

(** [set] on a present key keeps the keys; [has] sees exactly the keys. *)
Lemma keys_set_present k v m :
  has k m = true -> map fst (set k v m) = map fst m.
Proof.
  unfold has. induction m as [|[k' v'] m IH]; simpl; [done|].
  destruct (decide (k' = k)) as [->|Hne]; simpl; [done|].
  intros Hh. f_equal. by apply IH.
Qed.

Lemma has_set k k' v m :
  has k' (set k v m) = if decide (k = k') then true else has k' m.
Proof.
  unfold has. destruct (decide (k = k')) as [->|Hne].
  - by rewrite get_set_eq.
  - by rewrite get_set_ne.
Qed.

End MapFacts.

(** ** ReputationSystem *)

Section ReputationFacts.
Import ReputationSystem.

Lemma fresh_score_ok now userId : score_ok (userId, fresh now).
Proof. unfold score_ok; simpl. unfold INITIAL_SCORE. lia. Qed.

Lemma getReputation_ok now userId reps rep reps' :
  Forall score_ok reps ->
  getReputation now userId reps = (rep, reps') ->
  Forall score_ok reps' /\ 0 <= score rep <= 100.
Proof.
  intros Hall. unfold getReputation, initializeReputation.
  destruct (get userId reps) as [r|] eqn:Hg; intros [= <- <-].
  - split; [done|].
    apply get_Some_In in Hg. rewrite Forall_forall in Hall.
    apply (Hall _ Hg).
  - split; [|apply (fresh_score_ok now userId)].
    apply Forall_set; [apply fresh_score_ok|done].
Qed.

Lemma recordMessage_ok now userId isSpam reps :
  Forall score_ok reps ->
  Forall score_ok (recordMessage now userId isSpam reps).
Proof.
  intros Hall. unfold recordMessage.
  destruct (getReputation now userId reps) as [rep reps'] eqn:Hg.
  destruct (getReputation_ok _ _ _ _ _ Hall Hg) as [Hall' Hrep].
  apply Forall_set; [|done].
  unfold score_ok. destruct isSpam; simpl; [lia|].
  destruct (0 <? spamScore rep); simpl; lia.
Qed.

Lemma recordResponseTime_ok now userId ms reps :
  Forall score_ok reps ->
  Forall score_ok (recordResponseTime now userId ms reps).
Proof.
  intros Hall. unfold recordResponseTime.
  destruct (getReputation now userId reps) as [rep reps'] eqn:Hg.
  destruct (getReputation_ok _ _ _ _ _ Hall Hg) as [Hall' Hrep].
  apply Forall_set; [|done].
  unfold score_ok. by destruct (Qeq_bool (avgResponseTime rep) 0).
Qed.

Lemma recordSkip_ok now userId reps :
  Forall score_ok reps -> Forall score_ok (recordSkip now userId reps).
Proof.
  intros Hall. unfold recordSkip.
  destruct (getReputation now userId reps) as [rep reps'] eqn:Hg.
  destruct (getReputation_ok _ _ _ _ _ Hall Hg) as [Hall' Hrep].
  apply Forall_set; [|done]. unfold score_ok; simpl. lia.
Qed.

Lemma recordReport_ok now userId reps :
  Forall score_ok reps -> Forall score_ok (recordReport now userId reps).
Proof.
  intros Hall. unfold recordReport.
  destruct (getReputation now userId reps) as [rep reps'] eqn:Hg.
  destruct (getReputation_ok _ _ _ _ _ Hall Hg) as [Hall' Hrep].
  apply Forall_set; [|done]. unfold score_ok; simpl. lia.
Qed.

Lemma decayOne_ok now reps e :
  score_ok e -> Forall score_ok reps -> Forall score_ok (decayOne now reps e).
Proof.
  destruct e as [userId rep]. unfold score_ok at 1; simpl. intros He Hall.
  destruct (86400000 <? now - lastActivity rep).
  - by apply Forall_del.
  - apply Forall_set; [|done]. unfold score_ok, INITIAL_SCORE; simpl.
    destruct (score rep <? 100) eqn:Hlt; simpl; lia.
Qed.

Lemma decayLoop_ok now l acc :
  Forall score_ok l -> Forall score_ok acc ->
  Forall score_ok (fold_left (decayOne now) l acc).
Proof.
  revert acc. induction l as [|e l IH]; intros acc Hl Hacc; simpl; [done|].
  inversion Hl; subst. apply IH; [done|]. by apply decayOne_ok.
Qed.

Lemma decayReputations_ok now reps :
  Forall score_ok reps -> Forall score_ok (decayReputations now reps).
Proof. intros Hall. by apply decayLoop_ok. Qed.

Lemma step_ok reps o : Forall score_ok reps -> Forall score_ok (step reps o).
Proof.
  intros Hall. destruct o; simpl.
  - destruct (initializeReputation now userId reps) as [rep reps'] eqn:Hi.
    unfold initializeReputation in Hi.
    destruct (get userId reps); injection Hi as <- <-; simpl; [done|].
    apply Forall_set; [apply fresh_score_ok|done].
  - destruct (getReputation now userId reps) as [rep reps'] eqn:Hq.
    apply (getReputation_ok _ _ _ _ _ Hall Hq).
  - by apply recordMessage_ok.
  - by apply recordSkip_ok.
  - by apply recordReport_ok.
  - by apply recordResponseTime_ok.
  - by apply decayReputations_ok.
Qed.

Lemma run_ok ops reps :
  Forall score_ok reps -> Forall score_ok (fold_left step ops reps).
Proof.
  revert reps. induction ops as [|o ops IH]; intros reps Hall; simpl; [done|].
  apply IH. by apply step_ok.
Qed.

(** C1. After any finite sequence of [ReputationSystem] operations, run
    from the map of the constructor, the record of every user has a score
    between 0 and 100.  Every prefix of a sequence is a sequence, so the
    bound holds after each operation. *)
Theorem score_within_0_100 (ops : list Op) (userId : Val) (rep : Reputation) :
  get userId (run ops) = Some rep -> 0 <= score rep <= 100.
Proof.
  intros Hg. apply get_Some_In in Hg.
  assert (Hall : Forall score_ok (run ops)) by (apply run_ok; constructor).
  rewrite Forall_forall in Hall. apply (Hall _ Hg).
Qed.

(** Eight reports drive the score to the floor, a decay tick lifts it by
    one. *)
Lemma score_within_0_100_witness :
  let ops := repeat (OpReport 5 (VStr "u")) 8 ++ [OpDecay 10] in
  let rep :=
    {| score := 1; messageCount := 0; avgResponseTime := 0%Q;
       skipCount := 0; reportCount := 8; spamScore := 0;
       lastActivity := 5; createdAt := 5 |} in
  get (VStr "u") (run ops) = Some rep /\ 0 <= score rep <= 100.
Proof.
  intros ops rep. split; [reflexivity|].
  apply (score_within_0_100 ops (VStr "u") rep). reflexivity.
Defined.

End ReputationFacts.

(** ** SessionManager *)

Section SessionFacts.
Import SessionManager.

Lemma deleteSession_get tok tok' sm :
  get tok (sessions (deleteSession tok' sm)) = None \/
  get tok (sessions (deleteSession tok' sm)) = get tok (sessions sm).
Proof.
  unfold deleteSession. destruct (get tok' (sessions sm)); simpl; [|by right].
  rewrite get_del. destruct (decide (tok' = tok)); auto.
Qed.

Lemma cleanupLoop_get now tok l sm :
  get tok (sessions (fold_left (cleanupOne now) l sm)) = None \/
  get tok (sessions (fold_left (cleanupOne now) l sm)) = get tok (sessions sm).
Proof.
  revert sm. induction l as [|[t s] l IH]; intros sm; [by right|].
  cbn [fold_left].
  destruct (IH (cleanupOne now sm (t, s))) as [Hn|He]; [by left|].
  rewrite He. unfold cleanupOne.
  destruct (SESSION_TTL <? now - lastActivity s); [|by right].
  apply deleteSession_get.
Qed.

Lemma getSession_expired now tok sm session :
  get tok (sessions sm) = Some session ->
  now - lastActivity session > SESSION_TTL ->
  getSession now tok sm = None.
Proof.
  intros Hg Hexp. unfold getSession. rewrite Hg.
  destruct (now - lastActivity session <? SESSION_TTL) eqn:Hlt; [|done].
  apply Z.ltb_lt in Hlt. lia.
Qed.

Lemma sweeps_get times tok sm :
  get tok (sessions (sweeps times sm)) = None \/
  get tok (sessions (sweeps times sm)) = get tok (sessions sm).
Proof.
  revert sm. unfold sweeps.
  induction times as [|t times IH]; intros sm; [by right|].
  cbn [fold_left].
  destruct (IH (cleanupExpiredSessions t sm)) as [Hn|He]; [by left|].
  rewrite He. apply cleanupLoop_get.
Qed.

Lemma getSession_after_sweeps now times tok sm session :
  get tok (sessions sm) = Some session ->
  now - lastActivity session > SESSION_TTL ->
  getSession now tok (sweeps times sm) = None.
Proof.
  intros Hg Hexp. destruct (sweeps_get times tok sm) as [Hn|He].
  - unfold getSession. by rewrite Hn.
  - rewrite Hg in He. by apply (getSession_expired _ _ _ session).
Qed.

(** C2. Once [now - lastActivity] exceeds the TTL of 60000 ms, [getSession]
    and [reconnectSession] answer [null] for the token, and
    [reconnectSession] changes nothing.  This holds in the state as it is
    and in the state left by any number of sweeps, run at any times
    ([times] may be empty: no sweep has run). *)
Theorem expired_session_not_found
    (sm : t) (tok newSocketId : string) (session : Session) (now : Z)
    (times : list Z) :
  get tok (sessions sm) = Some session ->
  now - lastActivity session > 60000 ->
  getSession now tok (sweeps times sm) = None /\
  reconnectSession now tok newSocketId (sweeps times sm)
    = (None, sweeps times sm).
Proof.
  intros Hg Hexp.
  pose proof (getSession_after_sweeps now times tok sm session Hg Hexp) as H.
  unfold reconnectSession. by rewrite H.
Qed.

(** A session created at time 1000 is found at 60999 and not at 61001,
    neither before any sweep nor after the sweep of time 31000, which
    kept it. *)
Lemma expired_session_not_found_witness :
  let sm := snd (createSession "t0" 1000 "s1" "u1" "ann" empty) in
  getSession 60999 "t0" sm <> None /\
  getSession 61001 "t0" sm = None /\
  reconnectSession 61001 "t0" "s2" (sweeps [31000] sm) = (None, sm).
Proof.
  intros sm.
  assert (Hg : get "t0" (sessions sm) = Some
            {| token := "t0"; socketId := "s1"; userId := "u1";
               username := "ann"; createdAt := 1000; lastActivity := 1000;
               currentRoom := None; currentMatch := None;
               messageBuffer := []; reconnectCount := 0 |})
    by reflexivity.
  assert (Hexp : 61001 - 1000 > 60000) by reflexivity.
  split; [vm_compute; discriminate|].
  split; [exact (proj1 (expired_session_not_found sm "t0" "s2" _ 61001 []
                          Hg Hexp))|].
  exact (proj2 (expired_session_not_found sm "t0" "s2" _ 61001 [31000]
                  Hg Hexp)).
Defined.

Lemma lastN_short {A : Type} (n : nat) (l : list A) :
  (length l <= n)%nat -> lastN n l = l.
Proof.
  intros Hle. unfold lastN.
  replace (length l - n)%nat with 0%nat by lia. done.
Qed.

Lemma lastN_length {A : Type} (n : nat) (l : list A) :
  (length (lastN n l) <= n)%nat.
Proof. unfold lastN. rewrite length_drop. lia. Qed.

Lemma lastN_app_lastN {A : Type} (n : nat) (l r : list A) :
  lastN n (lastN n l ++ r) = lastN n (l ++ r).
Proof.
  destruct (decide (length l <= n)%nat) as [Hle|Hgt].
  - by rewrite (lastN_short n l).
  - unfold lastN. rewrite !length_app, length_drop.
    replace (length l - (length l - n) + length r - n)%nat
      with (length r) by lia.
    rewrite <- (drop_app_le l r (length l - n)) by lia.
    rewrite drop_drop. f_equal. lia.
Qed.

(** One call on a buffer within the bound keeps its last 20 entries. *)
Lemma addMessageToBuffer_same tok m sm session :
  get tok (sessions sm) = Some session ->
  (length (messageBuffer session) <= 20)%nat ->
  exists session',
    get tok (sessions (addMessageToBuffer tok m sm)) = Some session' /\
    messageBuffer session' = lastN 20 (messageBuffer session ++ [m]).
Proof.
  intros Hg Hlen. unfold addMessageToBuffer. rewrite Hg. simpl.
  rewrite get_set_eq. eexists; split; [done|]. simpl.
  unfold MESSAGE_BUFFER_SIZE, lastN. rewrite length_app. simpl.
  destruct (20 <? Z.of_nat (length (messageBuffer session) + 1)) eqn:Hc.
  - apply Z.ltb_lt in Hc.
    replace (length (messageBuffer session) + 1 - 20)%nat with 1%nat by lia.
    by destruct (messageBuffer session).
  - apply Z.ltb_ge in Hc.
    replace (length (messageBuffer session) + 1 - 20)%nat with 0%nat by lia.
    done.
Qed.

Lemma addMessageToBuffer_other tok tok' m sm :
  tok' <> tok ->
  get tok (sessions (addMessageToBuffer tok' m sm)) = get tok (sessions sm).
Proof.
  intros Hne. unfold addMessageToBuffer.
  destruct (get tok' (sessions sm)); simpl; [|done]. by rewrite get_set_ne.
Qed.

(** C9. After any run of [addMessageToBuffer] calls (on any tokens), the
    buffer of a session holds the last 20 of the messages it held before
    followed by those appended to it, in append order; so it never holds
    more than 20, and the 21st append evicts exactly the oldest. *)
Theorem messageBuffer_keeps_last_20
    (sm : t) (tok : string) (session : Session)
    (calls : list (string * Message)) :
  get tok (sessions sm) = Some session ->
  (length (messageBuffer session) <= 20)%nat ->
  exists session',
    get tok (sessions (appendAll calls sm)) = Some session' /\
    messageBuffer session'
      = lastN 20 (messageBuffer session ++ appendedTo tok calls) /\
    (length (messageBuffer session') <= 20)%nat.
Proof.
  revert sm session. unfold appendAll.
  induction calls as [|[t m] calls IH]; intros sm session Hg Hlen; simpl.
  - exists session. rewrite app_nil_r, lastN_short by done. done.
  - destruct (decide (t = tok)) as [->|Hne].
    + destruct (addMessageToBuffer_same tok m sm session Hg Hlen)
        as (s1 & Hg1 & Hb1).
      assert (Hlen1 : (length (messageBuffer s1) <= 20)%nat)
        by (rewrite Hb1; apply lastN_length).
      destruct (IH _ s1 Hg1 Hlen1) as (s2 & Hg2 & Hb2 & Hlen2).
      exists s2. split; [done|]. split; [|done].
      rewrite Hb2, Hb1, lastN_app_lastN. unfold appendedTo.
      rewrite filter_cons_True by done. simpl.
      by rewrite <- app_assoc.
    + pose proof (addMessageToBuffer_other tok t m sm Hne) as Ho.
      rewrite <- Ho in Hg.
      destruct (IH _ session Hg Hlen) as (s2 & Hg2 & Hb2 & Hlen2).
      exists s2. split; [done|]. split; [|done].
      rewrite Hb2. unfold appendedTo. by rewrite filter_cons_False.
Qed.

(** Twenty-one messages, numbered by their timestamps, appended to a new
    session. *)
Lemma messageBuffer_keeps_last_20_witness :
  let sm := snd (createSession "t0" 0 "s1" "u1" "ann" empty) in
  let calls := map (fun n => ("t0", Sample.message n)) (seqZ 1 21) in
  exists session',
    get "t0" (sessions (appendAll calls sm)) = Some session' /\
    messageBuffer session' = map Sample.message (seqZ 2 20) /\
    (length (messageBuffer session') <= 20)%nat.
Proof.
  intros sm calls.
  apply (messageBuffer_keeps_last_20 sm "t0"
           {| token := "t0"; socketId := "s1"; userId := "u1";
              username := "ann"; createdAt := 0; lastActivity := 0;
              currentRoom := None; currentMatch := None;
              messageBuffer := []; reconnectCount := 0 |} calls).
  - reflexivity.
  - simpl. lia.
Defined.

End SessionFacts.

(** ** SmartMatchmaking *)

Section MatchmakingFacts.
Import SmartMatchmaking.

(** A bucket with a single member yields no candidate, whoever searches. *)
Lemma findMatchInPriority_single uid prio userMeta mm other :
  get prio (waitingQueue mm) = Some [other] ->
  findMatchInPriority uid prio userMeta mm = None.
Proof. intros Hg. unfold findMatchInPriority. by rewrite Hg. Qed.

(** C3. [findMatch] on the searcher's bucket, then the bucket below: alice
    (score 100, priority 5) is alone in bucket 5 and bob (score 85,
    priority 4) is the one user waiting in bucket 4.  The claim has
    [findMatch] return bob; the code returns [null] and leaves both queued,
    because [findMatchInPriority] gives up on a bucket of size below 2
    although the searcher is not a member of the adjacent bucket. *)
Theorem findMatch_misses_single_neighbour :
  waitingQueue Sample.aliceAndBob = [(4, ["bob"]); (5, ["alice"])] /\
  (priority <$> get "alice" (userMetadata Sample.aliceAndBob)) = Some 5 /\
  findMatchInPriority "alice" 4 Sample.aliceMeta Sample.aliceAndBob = None /\
  findMatch "x" 30 "alice" Sample.aliceAndBob = (None, Sample.aliceAndBob).
Proof. repeat split; reflexivity. Qed.

(** With a second user in bucket 4 the same search does reach the bucket
    and picks the candidate of the lowest compatibility score: bob joined
    10 ms before alice, carol 5 ms before. *)
Example findMatch_two_neighbours :
  waitingQueue Sample.aliceBobCarol
    = [(4, ["bob"; "carol"]); (5, ["alice"])] /\
  fst (findMatch "x" 30 "alice" Sample.aliceBobCarol)
    = Some ("match-x", "carol").
Proof. split; reflexivity. Qed.

(** C4. ann (score 100) joins the queue in bucket 5, sends one spam message
    (score 95, priority 4) and joins again: the second [addToQueue] does not
    dequeue her first, so she waits in buckets 5 and 4 at once, and
    [removeFromQueue], which looks only at the bucket of her metadata,
    leaves her in bucket 5. *)
Theorem addToQueue_twice_leaves_two_buckets :
  bucketsOf "ann" Sample.annOnce = [5] /\
  fst (fst Sample.annAgain) = Accepted 4 /\
  bucketsOf "ann" (snd Sample.annAgain) = [5; 4] /\
  (joinedAt <$> get "ann" (userMetadata (snd Sample.annAgain))) = Some 30 /\
  bucketsOf "ann" (removeFromQueue "ann" (snd Sample.annAgain)) = [5].
Proof. repeat split; reflexivity. Qed.

(** With an unchanged priority the second call keeps her in the one bucket
    and refreshes [joinedAt]. *)
Example addToQueue_twice_same_priority :
  let '(_, reps, mm) :=
    addToQueue 10 "ann" ReputationSystem.empty SmartMatchmaking.empty in
  let '(_, _, mm') := addToQueue 30 "ann" reps mm in
  bucketsOf "ann" mm' = [5] /\
  (joinedAt <$> get "ann" (userMetadata mm')) = Some 30.
Proof. split; reflexivity. Qed.

End MatchmakingFacts.

(** ** Rate limiting *)

Section RateLimitFacts.
Import RateLimit.

Lemma set_get_id {K V : Type} `{EqDecision K} (k : K) (v : V) (m : Map K V) :
  get k m = Some v -> set k v m = m.
Proof.
  induction m as [|[k' v'] m IH]; simpl; [done|].
  destruct (decide (k' = k)) as [->|Hne].
  - by intros [= ->].
  - intros Hg. f_equal. by apply IH.
Qed.

(** A [message] evaluation on an existing record. *)
Lemma checkRateLimit_message now uid rl l :
  get uid rl = Some l ->
  checkRateLimit now uid "message" rl =
    let l0 :=
      if 10000 <? now - windowStart l then
        {| lastMessage := lastMessage l; messageCount := 0;
           lastTyping := lastTyping l; lastReport := lastReport l;
           windowStart := now |}
      else l in
    if (5 <=? messageCount l0) && (now - lastMessage l0 <? 500)
    then (false, set uid l0 rl)
    else (true,
          set uid
            {| lastMessage := now; messageCount := messageCount l0 + 1;
               lastTyping := lastTyping l0; lastReport := lastReport l0;
               windowStart := windowStart l0 |} rl).
Proof. intros Hg. unfold checkRateLimit. by rewrite Hg. Qed.

Lemma checkRateLimit_inBurst t1 prev now n lt lr uid rl :
  get uid rl = Some (inBurst t1 prev n lt lr) ->
  now - t1 <= 10000 -> n < 5 ->
  exists rl',
    checkRateLimit now uid "message" rl = (true, rl') /\
    get uid rl' = Some (inBurst t1 now (n + 1) lt lr).
Proof.
  intros Hg Hw Hn. rewrite (checkRateLimit_message _ _ _ _ Hg). simpl.
  replace (10000 <? now - t1) with false by (symmetry; apply Z.ltb_ge; lia).
  simpl. replace (5 <=? n) with false by (symmetry; apply Z.leb_gt; lia).
  simpl. eexists; split; [done|]. by rewrite get_set_eq.
Qed.

(** The first evaluation of a burst, on a fresh or an expired window. *)
Lemma checkRateLimit_first t1 uid rl :
  (get uid rl = None \/
   exists l, get uid rl = Some l /\ t1 - windowStart l > 10000) ->
  exists rl' lt lr,
    checkRateLimit t1 uid "message" rl = (true, rl') /\
    get uid rl' = Some (inBurst t1 t1 1 lt lr).
Proof.
  intros [Hn|(l & Hg & Hexp)].
  - unfold checkRateLimit. rewrite Hn. simpl.
    replace (10000 <? t1 - t1) with false by (symmetry; apply Z.ltb_ge; lia).
    simpl. eexists _, 0, 0. split; [done|]. by rewrite get_set_eq.
  - rewrite (checkRateLimit_message _ _ _ _ Hg). simpl.
    replace (10000 <? t1 - windowStart l) with true
      by (symmetry; apply Z.ltb_lt; lia).
    simpl. eexists _, (lastTyping l), (lastReport l).
    split; [done|]. by rewrite get_set_eq.
Qed.

(** C7, as the code has it.  In a burst of six [message] evaluations within
    one second that starts on a fresh or an expired window, the first five
    are allowed, and the sixth is denied exactly when it comes less than
    500 ms after the fifth. *)
Theorem burst_of_six
    (uid : string) (rl : t) (t1 t2 t3 t4 t5 t6 : Z) :
  (get uid rl = None \/
   exists l, get uid rl = Some l /\ t1 - windowStart l > 10000) ->
  t1 <= t2 <= t3 -> t3 <= t4 <= t5 -> t5 <= t6 -> t6 - t1 <= 1000 ->
  fst (burst uid [t1; t2; t3; t4; t5; t6] rl)
    = [true; true; true; true; true; negb (t6 - t5 <? 500)].
Proof.
  intros Hstart H123 H345 H56 Hsec.
  destruct (checkRateLimit_first t1 uid rl Hstart)
    as (rl1 & lt & lr & E1 & G1).
  destruct (checkRateLimit_inBurst t1 t1 t2 1 lt lr uid rl1 G1)
    as (rl2 & E2 & G2); [lia..|].
  destruct (checkRateLimit_inBurst t1 t2 t3 2 lt lr uid rl2 G2)
    as (rl3 & E3 & G3); [lia..|].
  destruct (checkRateLimit_inBurst t1 t3 t4 3 lt lr uid rl3 G3)
    as (rl4 & E4 & G4); [lia..|].
  destruct (checkRateLimit_inBurst t1 t4 t5 4 lt lr uid rl4 G4)
    as (rl5 & E5 & G5); [lia..|].
  cbn [burst]. rewrite E1, E2, E3, E4, E5.
  rewrite (checkRateLimit_message _ _ _ _ G5). simpl.
  replace (10000 <? t6 - t1) with false by (symmetry; apply Z.ltb_ge; lia).
  simpl. by destruct (t6 - t5 <? 500).
Qed.

(** The burst of the counterexample, and one whose sixth message follows
    the fifth at once. *)
Lemma burst_of_six_witness :
  fst (burst "u1" [1000; 1100; 1200; 1300; 1400; 1950] [])
    = [true; true; true; true; true; negb (1950 - 1400 <? 500)] /\
  fst (burst "u1" [1000; 1100; 1200; 1300; 1400; 1500] [])
    = [true; true; true; true; true; negb (1500 - 1400 <? 500)].
Proof.
  split.
  - apply (burst_of_six "u1" [] 1000 1100 1200 1300 1400 1950);
      [left; reflexivity|lia..].
  - apply (burst_of_six "u1" [] 1000 1100 1200 1300 1400 1500);
      [left; reflexivity|lia..].
Defined.

(** C7 as stated fails: six evaluations within one second, the sixth 550 ms
    after the fifth, are all allowed. *)
Lemma burst_sixth_allowed :
  fst (burst "u1" [1000; 1100; 1200; 1300; 1400; 1950] [])
    = [true; true; true; true; true; true] /\
  fst (burst "u1" [1000; 1100; 1200; 1300; 1400; 1950] [])
    <> [true; true; true; true; true; false].
Proof. split; [reflexivity|vm_compute; discriminate]. Qed.

Lemma checkRateLimit_frame now uid type rl uid' :
  uid' <> uid -> get uid' (snd (checkRateLimit now uid type rl)) = get uid' rl.
Proof.
  intros Hne. unfold checkRateLimit.
  destruct (get uid rl) as [l|];
    repeat match goal with
           | |- context [if ?b then _ else _] => destruct b
           end; simpl; rewrite ?get_set_ne by done; done.
Qed.

Lemma checkRateLimit_denied now uid type rl l :
  get uid rl = Some l ->
  fst (checkRateLimit now uid type rl) = false ->
  snd (checkRateLimit now uid type rl) = rl.
Proof.
  intros Hg. unfold checkRateLimit. rewrite Hg.
  destruct (String.eqb type "message").
  - destruct (10000 <? now - windowStart l) eqn:Hw; simpl.
    + unfold MESSAGE_BURST. simpl. discriminate.
    + destruct ((MESSAGE_BURST <=? messageCount l)
                && (now - lastMessage l <? MESSAGE_INTERVAL));
        simpl; [|discriminate].
      intros _. by apply set_get_id.
  - repeat match goal with
           | |- context [if ?b then _ else _] => destruct b
           end; simpl; done.
Qed.

Lemma checkRateLimit_denied_new now uid type rl :
  get uid rl = None ->
  fst (checkRateLimit now uid type rl) = false ->
  snd (checkRateLimit now uid type rl) = set uid (fresh now) rl.
Proof.
  intros Hg. unfold checkRateLimit. rewrite Hg.
  destruct (String.eqb type "message").
  - simpl. destruct (10000 <? now - now); simpl; discriminate.
  - repeat match goal with
           | |- context [if ?b then _ else _] => destruct b
           end; simpl; done.
Qed.

Lemma checkRateLimit_allowed now uid type rl :
  fst (checkRateLimit now uid type rl) = true ->
  exists l',
    get uid (snd (checkRateLimit now uid type rl)) = Some l' /\
    (type = "message" ->
     lastMessage l' = now /\
     messageCount l' =
       match get uid rl with
       | Some l => if 10000 <? now - windowStart l then 0 else messageCount l
       | None => 0
       end + 1) /\
    (type = "typing" -> lastTyping l' = now) /\
    (type = "report" -> lastReport l' = now).
Proof.
  unfold checkRateLimit.
  set (p := match get uid rl with
            | Some limits => (limits, rl)
            | None => (fresh now, set uid (fresh now) rl)
            end).
  assert (Hp : get uid (snd p) = Some (fst p)).
  { subst p. destruct (get uid rl) eqn:Hg; simpl; [done|].
    by rewrite get_set_eq. }
  assert (Hw : (if 10000 <? now - windowStart (fst p) then 0
                else messageCount (fst p))
               = match get uid rl with
                 | Some l =>
                     if 10000 <? now - windowStart l then 0 else messageCount l
                 | None => 0
                 end).
  { subst p. destruct (get uid rl); simpl; [done|].
    by destruct (10000 <? now - now). }
  destruct p as [limits rl0]; simpl in Hp, Hw.
  destruct (String.eqb_spec type "message") as [->|Hm].
  - destruct ((MESSAGE_BURST <=? _) && _); simpl; [discriminate|].
    intros _. rewrite get_set_eq. eexists; split; [done|]. simpl.
    split; [|split; discriminate]. intros _. split; [done|].
    rewrite <- Hw. by destruct (10000 <? now - windowStart limits).
  - destruct (String.eqb_spec type "typing") as [->|Ht].
    + destruct (now - lastTyping limits <? TYPING_INTERVAL); simpl;
        [discriminate|].
      intros _. rewrite get_set_eq. eexists; split; [done|]. simpl.
      split; [discriminate|]. split; [done|discriminate].
    + destruct (String.eqb_spec type "report") as [->|Hr].
      * destruct (now - lastReport limits <? REPORT_INTERVAL); simpl;
          [discriminate|].
        intros _. rewrite get_set_eq. eexists; split; [done|]. simpl.
        split; [discriminate|]. split; [discriminate|done].
      * simpl. intros _. exists limits. split; [done|]. tauto.
Qed.

(** C8, as the code has it.  A call touches the record of the calling user
    only.  An allowed call stamps the last-event time of its kind (and, for
    a message, counts it in the window, restarted when older than 10 s); a
    denied call returns before any update: it leaves an existing record as
    it was, so a denied retry cannot restart the window, and for a user
    without a record it stores the fresh one. *)
Theorem checkRateLimit_effects (now : Z) (uid type : string) (rl : t) :
  (forall uid', uid' <> uid ->
     get uid' (snd (checkRateLimit now uid type rl)) = get uid' rl) /\
  (forall l, get uid rl = Some l ->
     fst (checkRateLimit now uid type rl) = false ->
     snd (checkRateLimit now uid type rl) = rl) /\
  (get uid rl = None ->
   fst (checkRateLimit now uid type rl) = false ->
   snd (checkRateLimit now uid type rl) = set uid (fresh now) rl) /\
  (fst (checkRateLimit now uid type rl) = true ->
   exists l',
     get uid (snd (checkRateLimit now uid type rl)) = Some l' /\
     (type = "message" ->
      lastMessage l' = now /\
      messageCount l' =
        match get uid rl with
        | Some l => if 10000 <? now - windowStart l then 0 else messageCount l
        | None => 0
        end + 1) /\
     (type = "typing" -> lastTyping l' = now) /\
     (type = "report" -> lastReport l' = now)).
Proof.
  split; [|split; [|split]].
  - intros uid'. apply checkRateLimit_frame.
  - intros l. apply checkRateLimit_denied.
  - apply checkRateLimit_denied_new.
  - apply checkRateLimit_allowed.
Qed.

(** After five messages at 1000..1004: a sixth at 1005 is denied and
    changes nothing, one at 1600 is allowed and counted. *)
Lemma checkRateLimit_effects_witness :
  get "u2" (snd (checkRateLimit 1005 "u1" "message" Sample.fiveMessages))
    = get "u2" Sample.fiveMessages /\
  snd (checkRateLimit 1005 "u1" "message" Sample.fiveMessages)
    = Sample.fiveMessages /\
  exists l',
    get "u1" (snd (checkRateLimit 1600 "u1" "message" Sample.fiveMessages))
      = Some l' /\
    lastMessage l' = 1600 /\ messageCount l' = 6.
Proof.
  split; [|split].
  - apply (proj1 (checkRateLimit_effects 1005 "u1" "message"
                    Sample.fiveMessages)).
    discriminate.
  - apply (proj1 (proj2 (checkRateLimit_effects 1005 "u1" "message"
                           Sample.fiveMessages))
             (inBurst 1000 1004 5 0 0)); reflexivity.
  - destruct (proj2 (proj2 (proj2 (checkRateLimit_effects 1600 "u1" "message"
                                     Sample.fiveMessages))) eq_refl)
      as (l' & Hg & Hm & _).
    exists l'. split; [exact Hg|]. exact (Hm eq_refl).
Defined.

(** C8 as stated fails: the denied sixth message at 1005 updates neither
    the window count nor the time of the last message. *)
Lemma denied_call_updates_nothing :
  fst (checkRateLimit 1005 "u1" "message" Sample.fiveMessages) = false /\
  get "u1" (snd (checkRateLimit 1005 "u1" "message" Sample.fiveMessages))
    = Some {| lastMessage := 1004; messageCount := 5; lastTyping := 0;
              lastReport := 0; windowStart := 1000 |}.
Proof. split; reflexivity. Qed.

End RateLimitFacts.

(** ** The production server *)

Section ServerFacts.
Import Server.

(** A payload whose two fields are strings, empty or not, passes. *)
Lemma validatePayload_two_strings data k1 k2 s1 s2 :
  field k1 data = VStr s1 -> field k2 data = VStr s2 ->
  validatePayload data [(k1, "string"); (k2, "string")] = true.
Proof.
  intros H1 H2. simpl. rewrite H1, H2. simpl.
  by destruct (String.eqb s1 ""), (String.eqb s2 "").
Qed.

(** A key the payload lacks passes as well: only a truthy value of another
    type is refused. *)
Lemma validatePayload_missing_key data key rest :
  get key data = None ->
  validatePayload data ((key, "string") :: rest) = validatePayload data rest.
Proof. intros Hg. simpl. unfold field. by rewrite Hg. Qed.

(** [sanitize] on markup, and the spam pattern. *)
Example sanitize_tags : sanitize (VStr " <b>hi</b> there ") = "hi there".
Proof. reflexivity. Qed.

Example sanitize_script :
  sanitize (VStr "a<SCRIPT src=x>alert(1)</ScRiPt>b<>c") = "ab<>c".
Proof. reflexivity. Qed.

Example sanitize_not_a_string : sanitize (VNum 5) = "".
Proof. reflexivity. Qed.

Example repeatedRun_eleven :
  repeatedRun "aaaaaaaaaaa" = true /\ repeatedRun "aaaaaaaaaa" = false.
Proof. split; reflexivity. Qed.

(** C6. A [sendMessage] payload without [roomId], sent by ann: the claim has
    the handler answer with an error and change nothing.  [validatePayload]
    accepts the payload, and the handler runs to the end: it counts the
    message in the rate limit and in the reputation, buffers it in the
    session, emits [newMessage] to the room [undefined] and acknowledges
    success. *)
Theorem sendMessage_accepts_missing_roomId :
  let data := [("message", VStr "hi")] in
  let res := sendMessage "a1" 5000 Sample.annConn data Sample.server in
  validatePayload data [("roomId", "string"); ("message", "string")] = true /\
  fst res = [NewMessage VUndefined Sample.strayMessage;
             Callback (ReplyMessage Sample.strayMessage)] /\
  (RateLimit.messageCount <$> get "u1" (rateLimits (snd res))) = Some 1 /\
  (ReputationSystem.messageCount
     <$> get (VStr "u1") (reputationSystem (snd res))) = Some 1 /\
  (SessionManager.messageBuffer
     <$> get "t0" (SessionManager.sessions (sessionManager (snd res))))
    = Some [Sample.strayMessage] /\
  AdminMetrics.totalMessages (adminMetrics (snd res)) = 1.
Proof. repeat split; reflexivity. Qed.

(** A payload whose [roomId] is a number is refused, and nothing changes. *)
Example sendMessage_refuses_wrong_type :
  sendMessage "a1" 5000 Sample.annConn
    [("roomId", VNum 7); ("message", VStr "hi")] Sample.server
  = ([Callback (ReplyError "Invalid payload")], Sample.server).
Proof. reflexivity. Qed.

Lemma recordReport_get now target reps :
  exists rep',
    get target (ReputationSystem.recordReport now target reps) = Some rep' /\
    match get target reps with
    | Some rep =>
        ReputationSystem.reportCount rep'
          = ReputationSystem.reportCount rep + 1 /\
        ReputationSystem.score rep'
          = Z.max 0 (ReputationSystem.score rep - 15)
    | None =>
        ReputationSystem.reportCount rep' = 1 /\
        ReputationSystem.score rep' = 85 /\
        ReputationSystem.createdAt rep' = now
    end.
Proof.
  unfold ReputationSystem.recordReport, ReputationSystem.getReputation,
    ReputationSystem.initializeReputation.
  destruct (get target reps) as [rep|] eqn:Hg; rewrite get_set_eq;
    eexists; (split; [done|]); simpl; done.
Qed.

(** C10. [reportUser] from an authenticated connection that passes the rate
    limit: whatever string [target] names, known to [users] or not, the
    handler acknowledges success, and the reputation record under [target]
    has one report more and a score lower by 15 (not below 0); when there
    was no record, one is created with score 100 first, so it ends with one
    report and score 85.  The statement has no hypothesis on [users]. *)
Theorem reportUser_any_target
    (now : Z) (c : Conn) (data : Payload) (st : State)
    (uid target reason : string) :
  truthyId (currentUserId c) = Some uid ->
  field "targetUserId" data = VStr target ->
  field "reason" data = VStr reason ->
  fst (RateLimit.checkRateLimit now uid "report" (rateLimits st)) = true ->
  fst (reportUser now c data st)
    = [Callback (ReplyReport "Report submitted. Thank you.")] /\
  exists rep',
    get (VStr target) (reputationSystem (snd (reportUser now c data st)))
      = Some rep' /\
    match get (VStr target) (reputationSystem st) with
    | Some rep =>
        ReputationSystem.reportCount rep'
          = ReputationSystem.reportCount rep + 1 /\
        ReputationSystem.score rep'
          = Z.max 0 (ReputationSystem.score rep - 15)
    | None =>
        ReputationSystem.reportCount rep' = 1 /\
        ReputationSystem.score rep' = 85 /\
        ReputationSystem.createdAt rep' = now
    end.
Proof.
  intros Hu Ht Hr Hok. unfold reportUser.
  rewrite (validatePayload_two_strings _ _ _ _ _ Ht Hr), Hu. simpl.
  destruct (RateLimit.checkRateLimit now uid "report" (rateLimits st))
    as [ok rl]. simpl in Hok. subst ok. simpl. split; [done|].
  rewrite Ht. apply recordReport_get.
Qed.

(** ann reports the identifier "nobody", which no user has. *)
Lemma reportUser_any_target_witness :
  get "nobody" (users Sample.server) = None /\
  fst (reportUser 50000 Sample.annConn
         [("targetUserId", VStr "nobody"); ("reason", VStr "rude")]
         Sample.server)
    = [Callback (ReplyReport "Report submitted. Thank you.")] /\
  exists rep',
    get (VStr "nobody")
        (reputationSystem
           (snd (reportUser 50000 Sample.annConn
                   [("targetUserId", VStr "nobody"); ("reason", VStr "rude")]
                   Sample.server))) = Some rep' /\
    ReputationSystem.reportCount rep' = 1 /\
    ReputationSystem.score rep' = 85 /\
    ReputationSystem.createdAt rep' = 50000.
Proof.
  split; [reflexivity|].
  apply (reportUser_any_target 50000 Sample.annConn
           [("targetUserId", VStr "nobody"); ("reason", VStr "rude")]
           Sample.server "u1" "nobody" "rude"); reflexivity.
Defined.

End ServerFacts.

(** ** Emptied private and random rooms *)

Section RoomFacts.

Lemma mem_true {A : Type} `{EqDecision A} (x : A) (s : JsSet A) :
  x ∈ s -> mem x s = true.
Proof. intros Hin. unfold mem. by apply bool_decide_eq_true. Qed.

Lemma get_In_keys {K V : Type} `{EqDecision K} (k : K) (v : V) (m : Map K V) :
  get k m = Some v -> In k (map fst m).
Proof.
  intros Hg. destruct (in_dec (fun a b => decide (a = b)) k (map fst m))
    as [Hin|Hn]; [done|].
  apply get_not_In in Hn. congruence.
Qed.

(** [skipMatch] by the last participant deletes the room in the same step. *)
Lemma skipMatch_last_deletes now c cid st uid room :
  Server.truthyId (Server.currentUserId c) = Some uid ->
  cid <> "" ->
  get cid (Server.privateChatRooms st) = Some room ->
  remove uid (Server.participants room) = [] ->
  get cid (Server.privateChatRooms (snd (Server.skipMatch now c (VStr cid) st)))
    = None.
Proof.
  intros Hu Hc Hg Hr. unfold Server.skipMatch. rewrite Hu. simpl.
  apply String.eqb_neq in Hc. rewrite Hc. simpl. rewrite Hg. simpl.
  rewrite Hr. simpl. apply get_del_eq.
Qed.

(** The loop of [disconnect] over the private rooms: a turn on another key
    leaves the entry of [cid] alone. *)
Lemma leavePrivate_other uid acc k room cid :
  k <> cid ->
  get cid (snd (fst (Server.leavePrivate uid acc (k, room))))
    = get cid (snd (fst acc)).
Proof.
  intros Hne. destruct acc as [[outs rooms] mm]. simpl.
  destruct (mem uid (Server.participants room)); [|done].
  destruct (length (remove uid (Server.participants room)) =? 0)%nat; simpl.
  - by apply get_del_ne.
  - by apply get_set_ne.
Qed.

Lemma leavePrivate_loop_other uid l acc cid :
  ~ In cid (map fst l) ->
  get cid (snd (fst (fold_left (Server.leavePrivate uid) l acc)))
    = get cid (snd (fst acc)).
Proof.
  revert acc. induction l as [|[k r] l IH]; intros acc Hn; [done|].
  cbn [fold_left]. simpl in Hn. rewrite IH by tauto.
  apply leavePrivate_other. tauto.
Qed.

Lemma leavePrivate_loop_deletes uid l acc cid room :
  NoDup (map fst l) ->
  get cid l = Some room ->
  uid ∈ Server.participants room ->
  remove uid (Server.participants room) = [] ->
  get cid (snd (fst (fold_left (Server.leavePrivate uid) l acc))) = None.
Proof.
  revert acc. induction l as [|[k r] l IH]; intros acc Hnd Hg Hin Hr;
    [done|].
  cbn [fold_left]. simpl in Hnd, Hg. apply NoDup_cons in Hnd as [Hk Hnd].
  destruct (decide (k = cid)) as [->|Hne].
  - injection Hg as ->.
    rewrite leavePrivate_loop_other
      by (intros Hc; apply Hk; by apply list_elem_of_In).
    destruct acc as [[outs rooms] mm]. simpl.
    rewrite (mem_true _ _ Hin), Hr. simpl. apply get_del_eq.
  - by apply IH.
Qed.

Lemma disconnect_last_deletes c st uid cid room :
  Server.truthyId (Server.currentUserId c) = Some uid ->
  NoDup (map fst (Server.privateChatRooms st)) ->
  get cid (Server.privateChatRooms st) = Some room ->
  uid ∈ Server.participants room ->
  remove uid (Server.participants room) = [] ->
  get cid (Server.privateChatRooms (snd (Server.disconnect c st))) = None.
Proof.
  intros Hu Hnd Hg Hin Hr. unfold Server.disconnect. rewrite Hu.
  match goal with
  | |- context [fold_left (Server.leavePublic ?u ?n) ?l ?a] =>
      destruct (fold_left (Server.leavePublic u n) l a) as [outs1 pubs]
  end.
  match goal with
  | |- context [fold_left (Server.leavePrivate ?u) ?l ?a] =>
      pose proof (leavePrivate_loop_deletes u l a cid room) as Hdel;
      destruct (fold_left (Server.leavePrivate u) l a) as [[outs2 rooms] mm]
  end.
  simpl in Hdel |- *. apply Hdel; try done.
  all: by destruct (get uid (Server.users st)).
Qed.

(** [leaveRoom] never deletes a room. *)
Lemma leaveRoom_keeps c roomId st cid :
  has cid (Server.privateChatRooms (snd (Server.leaveRoom c roomId st)))
    = has cid (Server.privateChatRooms st).
Proof.
  unfold Server.leaveRoom.
  destruct (Server.truthyId (Server.currentUserId c)); [|done].
  destruct (negb (truthy roomId)); [done|].
  destruct (Server.keyOf roomId) as [rid|]; [|done].
  destruct (get rid (Server.publicRooms st)); [done|].
  destruct (get rid (Server.privateChatRooms st)) eqn:Hg; [|done].
  simpl. rewrite has_set. destruct (decide (rid = cid)) as [->|]; [|done].
  unfold has. by rewrite Hg.
Qed.

Lemma has_map_values {K V : Type} `{EqDecision K} (f : K * V -> V)
    (k : K) (m : Map K V) :
  has k (map (fun e => (fst e, f e)) m) = has k m.
Proof.
  unfold has. induction m as [|[k' v'] m IH]; simpl; [done|].
  by destruct (decide (k' = k)).
Qed.

(** Neither does [chat:leave] nor [disconnect] of the baseline server. *)
Lemma chatLeave_keeps uuid now uid data st cid :
  has cid (Baseline.privateChatRooms
             (snd (Baseline.chatLeave uuid now uid data st)))
    = has cid (Baseline.privateChatRooms st).
Proof.
  unfold Baseline.chatLeave.
  destruct (negb (validatePayload data [("chatId", "string")])); [done|].
  destruct (Server.keyOf (field "chatId" data) ≫= _) as [[k1 r1]|];
    destruct (Server.keyOf (field "chatId" data)) as [k|]; simpl; try done;
    (destruct (get k (Baseline.privateChatRooms st)) eqn:Hg; simpl;
     [|done]; rewrite has_set; destruct (decide (k = cid)) as [->|];
     [|done]; unfold has; by rewrite Hg).
Qed.

Lemma baseline_disconnect_keeps now sid uid st cid :
  has cid (Baseline.privateChatRooms
             (snd (Baseline.disconnect now sid uid st)))
    = has cid (Baseline.privateChatRooms st).
Proof.
  unfold Baseline.disconnect.
  match goal with |- context [if has uid ?s then _ else _] =>
    destruct (has uid s) end; [done|].
  simpl. apply has_map_values.
Qed.

(** The sweep of the baseline server. *)
Lemma cleanupOne_other now rooms k room cid :
  k <> cid -> get cid (Baseline.cleanupOne now rooms (k, room)) = get cid rooms.
Proof.
  intros Hne. unfold Baseline.cleanupOne.
  destruct (_ && _); [by apply get_del_ne|done].
Qed.

Lemma cleanupLoop_other now l rooms cid :
  ~ In cid (map fst l) ->
  get cid (fold_left (Baseline.cleanupOne now) l rooms) = get cid rooms.
Proof.
  revert rooms. induction l as [|[k r] l IH]; intros rooms Hn; [done|].
  cbn [fold_left]. simpl in Hn. rewrite IH by tauto.
  apply cleanupOne_other. tauto.
Qed.

Lemma cleanupLoop_decides now l rooms cid room :
  NoDup (map fst l) ->
  get cid l = Some room ->
  has cid (fold_left (Baseline.cleanupOne now) l rooms)
    = if (length (Baseline.participants room) =? 0)%nat
         && (60000 <? now - Baseline.createdAt room)
      then false else has cid rooms.
Proof.
  revert rooms. induction l as [|[k r] l IH]; intros rooms Hnd Hg; [done|].
  cbn [fold_left]. simpl in Hnd, Hg. apply NoDup_cons in Hnd as [Hk Hnd].
  destruct (decide (k = cid)) as [->|Hne].
  - injection Hg as ->. unfold has.
    rewrite cleanupLoop_other
      by (intros Hc; apply Hk; by apply list_elem_of_In).
    unfold Baseline.cleanupOne.
    destruct (_ && _); [by rewrite get_del_eq|done].
  - rewrite (IH _ Hnd Hg). unfold has.
    by rewrite cleanupOne_other.
Qed.

Lemma cleanupEmptyRooms_decides now st cid room :
  NoDup (map fst (Baseline.privateChatRooms st)) ->
  get cid (Baseline.privateChatRooms st) = Some room ->
  has cid (Baseline.privateChatRooms (Baseline.cleanupEmptyRooms now st))
    = negb ((length (Baseline.participants room) =? 0)%nat
            && (60000 <? now - Baseline.createdAt room)).
Proof.
  intros Hnd Hg. simpl. rewrite (cleanupLoop_decides _ _ _ _ _ Hnd Hg).
  destruct (_ && _); [done|]. unfold has. by rewrite Hg.
Qed.

(** C5, as the code has it.  In the production server the room is deleted
    in the very step in which its last participant leaves by [skipMatch] or
    by disconnecting, and [leaveRoom] never deletes a room.  In the baseline
    server [chat:leave] and [disconnect] never delete a room, and the
    sweep [cleanupEmptyRooms] deletes a room exactly when it is empty and
    was created more than 60000 ms before. *)
Theorem emptied_room_lifecycle
    (now : Z) (c : Server.Conn) (uid cid sid uuid : string) (roomId : Val)
    (data : Payload) (st : Server.State) (room : Server.PrivateRoom)
    (bst : Baseline.State) (broom : Baseline.PrivateRoom) :
  (Server.truthyId (Server.currentUserId c) = Some uid ->
   cid <> "" ->
   get cid (Server.privateChatRooms st) = Some room ->
   remove uid (Server.participants room) = [] ->
   get cid (Server.privateChatRooms
              (snd (Server.skipMatch now c (VStr cid) st))) = None) /\
  (Server.truthyId (Server.currentUserId c) = Some uid ->
   NoDup (map fst (Server.privateChatRooms st)) ->
   get cid (Server.privateChatRooms st) = Some room ->
   uid ∈ Server.participants room ->
   remove uid (Server.participants room) = [] ->
   get cid (Server.privateChatRooms (snd (Server.disconnect c st))) = None) /\
  has cid (Server.privateChatRooms (snd (Server.leaveRoom c roomId st)))
    = has cid (Server.privateChatRooms st) /\
  has cid (Baseline.privateChatRooms
             (snd (Baseline.chatLeave uuid now uid data bst)))
    = has cid (Baseline.privateChatRooms bst) /\
  has cid (Baseline.privateChatRooms
             (snd (Baseline.disconnect now sid uid bst)))
    = has cid (Baseline.privateChatRooms bst) /\
  (NoDup (map fst (Baseline.privateChatRooms bst)) ->
   get cid (Baseline.privateChatRooms bst) = Some broom ->
   has cid (Baseline.privateChatRooms (Baseline.cleanupEmptyRooms now bst))
     = negb ((length (Baseline.participants broom) =? 0)%nat
             && (60000 <? now - Baseline.createdAt broom))).
Proof.
  repeat split.
  - apply skipMatch_last_deletes.
  - apply disconnect_last_deletes.
  - apply leaveRoom_keeps.
  - apply chatLeave_keeps.
  - apply baseline_disconnect_keeps.
  - apply cleanupEmptyRooms_decides.
Qed.

(** ann, the last participant of match-1, skips or disconnects: the room is
    gone after the step; had she called [leaveRoom] it would stay.  In the
    baseline server ann leaves random-1 at time 100000 and the room stays;
    the sweep one millisecond later deletes it. *)
Lemma emptied_room_lifecycle_witness :
  get "match-1"
      (Server.privateChatRooms
         (snd (Server.skipMatch 5000 Sample.annConn (VStr "match-1")
                 Sample.annAlone))) = None /\
  get "match-1"
      (Server.privateChatRooms
         (snd (Server.disconnect Sample.annConn Sample.annAlone))) = None /\
  has "match-1"
      (Server.privateChatRooms
         (snd (Server.leaveRoom Sample.annConn (VStr "match-1")
                 Sample.annAlone))) = true /\
  has "random-1" (Baseline.privateChatRooms Sample.baselineLeft) = true /\
  has "random-1"
      (Baseline.privateChatRooms
         (Baseline.cleanupEmptyRooms 100001 Sample.baselineLeft)) = false.
Proof.
  pose (room := {| Server.room_id := "match-1"; Server.participants := ["u1"];
                   Server.createdAt := 4000; Server.type := "random" |}).
  pose (broom := {| Baseline.participants := [];
                    Baseline.createdAt := 1000 |}).
  destruct (emptied_room_lifecycle 5000 Sample.annConn "u1" "match-1" "s1" "x"
              (VStr "match-1") [] Sample.annAlone room Sample.baseline broom)
    as (H1 & H2 & H3 & _).
  destruct (emptied_room_lifecycle 100000 Sample.annConn "u1" "random-1" "s1"
              "x" VNull [("chatId", VStr "random-1")] Sample.annAlone room
              Sample.baseline broom) as (_ & _ & _ & H4 & _).
  destruct (emptied_room_lifecycle 100001 Sample.annConn "u1" "random-1" "s1"
              "x" VNull [] Sample.annAlone room Sample.baselineLeft broom)
    as (_ & _ & _ & _ & _ & H6).
  split; [apply H1; [reflexivity|discriminate|reflexivity|reflexivity]|].
  split; [apply H2; [reflexivity|apply NoDup_singleton|reflexivity
                    |apply list_elem_of_here|reflexivity]|].
  split; [rewrite H3; reflexivity|].
  split; [unfold Sample.baselineLeft; rewrite H4; reflexivity|].
  rewrite H6; [reflexivity|apply NoDup_singleton|reflexivity].
Defined.

(** C5 as stated fails: ann is the last participant of match-1, a room
    created at time 4000; her [skipMatch] at time 5000 deletes the room in
    that step. *)
Lemma last_skip_deletes_room_at_once :
  (Server.participants
     <$> get "match-1" (Server.privateChatRooms Sample.annAlone))
    = Some ["u1"] /\
  Server.privateChatRooms
    (snd (Server.skipMatch 5000 Sample.annConn (VStr "match-1")
            Sample.annAlone)) = [].
Proof. split; reflexivity. Qed.

End RoomFacts.

(** ** What [sanitize] returns *)

Section SanitizeFacts.
Import Text.

Lemma matchTag_lt c s n : matchTag (String c s) = Some n -> c = "<"%char.
Proof.
  unfold matchTag. destruct (Ascii.eqb_spec c "<") as [->|Hne]; [done|].
  destruct c as [[] [] [] [] [] [] [] []]; try discriminate.
  by contradict Hne.
Qed.

Lemma matchTag_cons_lt s :
  matchTag (String "<" s) =
    match upToGt s with
    | Some (S n, _) => Some (S n + 2)%nat
    | _ => None
    end.
Proof. reflexivity. Qed.

Lemma matchTag_not_lt c s : c <> "<"%char -> matchTag (String c s) = None.
Proof.
  intros Hne. destruct (matchTag (String c s)) eqn:Hm; [|done].
  by apply matchTag_lt in Hm.
Qed.

(** Where the input has no [>], the output has none. *)
Lemma upToGt_replaceAll_None f s k :
  upToGt s = None -> upToGt (replaceAll f k s) = None.
Proof.
  revert k. induction s as [|c s IH]; intros k; simpl; [by destruct k|].
  destruct (Ascii.eqb c ">") eqn:Hc; [done|].
  destruct (upToGt s) as [[n r]|] eqn:Hu; [done|]. intros _.
  destruct k as [|k]; [|by apply IH].
  destruct (f (String c s)) as [[|l]|]; [| by apply IH |];
    simpl; rewrite Hc, (IH 0%nat); done.
Qed.

Lemma tagFree_replaceAll s k : tagFree (replaceAll matchTag k s) = true.
Proof.
  revert k. induction s as [|c s IH]; intros k; [by destruct k|].
  cbn [replaceAll]. destruct k as [|k]; [|apply IH].
  destruct (matchTag (String c s)) as [[|l]|] eqn:Hm; [| apply IH |].
  - apply matchTag_lt in Hm as Hc. subst c. rewrite matchTag_cons_lt in Hm.
    by destruct (upToGt s) as [[[|n] r]|].
  - cbn [tagFree]. rewrite IH.
    destruct (Ascii.eqb_spec c "<") as [->|Hne];
      [|by rewrite matchTag_not_lt].
    rewrite matchTag_cons_lt in Hm |- *.
    destruct (upToGt s) as [[[|n] r]|] eqn:Hu; [|done|].
    + destruct s as [|d s]; [done|]. simpl in Hu.
      destruct (Ascii.eqb_spec d ">") as [->|Hd];
        [|by destruct (upToGt s) as [[? ?]|]].
      cbn [replaceAll]. rewrite matchTag_not_lt by done. done.
    + by rewrite upToGt_replaceAll_None.
Qed.

Lemma tagFree_tail c s : tagFree (String c s) = true -> tagFree s = true.
Proof. cbn [tagFree]. by destruct (matchTag (String c s)). Qed.

Lemma tagFree_trimStart s : tagFree s = true -> tagFree (trimStart s) = true.
Proof.
  induction s as [|c s IH]; [done|]. intros Ht. simpl.
  destruct (whiteSpace c); [|done]. apply IH. by apply tagFree_tail in Ht.
Qed.

Lemma upToGt_app s w n r :
  upToGt s = Some (n, r) -> upToGt (s +:+ w) = Some (n, r +:+ w).
Proof.
  revert n r. induction s as [|c s IH]; intros n r; simpl; [done|].
  destruct (Ascii.eqb c ">"); [by intros [= <- <-]|].
  destruct (upToGt s) as [[m r']|]; [|done].
  intros [= <- <-]. by rewrite (IH m r').
Qed.

(** A match inside a prefix is a match inside the whole. *)
Lemma tagFree_prefix p w : tagFree (p +:+ w) = true -> tagFree p = true.
Proof.
  induction p as [|c p IH]; [done|].
  change (String c p +:+ w) with (String c (p +:+ w)). cbn [tagFree].
  destruct (matchTag (String c (p +:+ w))) eqn:Hm; [done|]. intros Ht.
  rewrite (IH Ht).
  destruct (matchTag (String c p)) eqn:Hp; [|done].
  apply matchTag_lt in Hp as Hc. subst c.
  rewrite matchTag_cons_lt in Hm, Hp.
  destruct (upToGt p) as [[[|m] r]|] eqn:Hu; try done.
  by rewrite (upToGt_app _ w _ _ Hu) in Hm.
Qed.

Lemma trimEnd_prefix s : exists w, s = trimEnd s +:+ w.
Proof.
  induction s as [|c s [w IH]]; [by exists ""|]. simpl.
  destruct (trimEnd s) as [|d r] eqn:Ht.
  - destruct (whiteSpace c).
    + exists (String c s). reflexivity.
    + exists s. reflexivity.
  - exists w. change (String c (String d r) +:+ w)
      with (String c (String d r +:+ w)). by rewrite <- IH.
Qed.

Lemma tagFree_trim s : tagFree s = true -> tagFree (trim s) = true.
Proof.
  intros Ht. unfold trim. apply tagFree_trimStart in Ht.
  destruct (trimEnd_prefix (trimStart s)) as [w Hw].
  rewrite Hw in Ht. by apply tagFree_prefix in Ht.
Qed.

Lemma headChar_trimStart s : isSpace (headChar (trimStart s)) = false.
Proof.
  induction s as [|c s IH]; [done|]. simpl.
  destruct (whiteSpace c) eqn:Hc; [done|]. simpl. by rewrite Hc.
Qed.

Lemma lastChar_trimEnd s : isSpace (lastChar (trimEnd s)) = false.
Proof.
  induction s as [|c s IH]; [done|]. simpl.
  destruct (trimEnd s) as [|d r] eqn:Ht.
  - destruct (whiteSpace c) eqn:Hc; [done|]. simpl. by rewrite Hc.
  - done.
Qed.

Lemma headChar_trimEnd s :
  isSpace (headChar s) = false -> isSpace (headChar (trimEnd s)) = false.
Proof.
  destruct s as [|c s]; [done|]. simpl. intros Hc.
  destruct (trimEnd s); [|done]. by rewrite Hc.
Qed.

Lemma trimmed_trim s : trimmed (trim s) = true.
Proof.
  unfold trimmed, trim.
  by rewrite headChar_trimEnd, lastChar_trimEnd
    by apply headChar_trimStart.
Qed.

(** What [sanitize] returns has no tag and no white space at its ends. *)
Lemma sanitize_clean (text : Val) :
  tagFree (sanitize text) = true /\ trimmed (sanitize text) = true.
Proof.
  destruct text; try done. simpl. split.
  - apply tagFree_trim, tagFree_replaceAll.
  - apply trimmed_trim.
Qed.

(** X1. Whatever value [sanitize] is given, the text it returns contains no
    match of the tag pattern [/<[^>]+>/] and neither starts nor ends with
    white space. *)
Theorem sanitize_tag_free_and_trimmed (text : Val) :
  tagFree (sanitize text) = true /\ trimmed (sanitize text) = true.
Proof. apply sanitize_clean. Qed.

Lemma prefixCi_cons p ps t r :
  prefixCi (String p ps) t = Some r ->
  exists a t', t = String a t' /\ lower p = lower a /\ prefixCi ps t' = Some r.
Proof.
  destruct t as [|a t']; simpl; [done|].
  destruct (Ascii.eqb_spec (lower p) (lower a)) as [He|]; [|done].
  intros Hr. by exists a, t'.
Qed.

Lemma lower_lt a : lower "<" = lower a -> a = "<"%char.
Proof.
  destruct a as [[] [] [] [] [] [] [] []]; vm_compute; congruence.
Qed.

(** The character after a letter of the pattern is not the closing [>]. *)
Lemma upToGt_letter p a t :
  lower p = lower a -> lower p <> ">"%char ->
  upToGt (String a t) =
    match upToGt t with
    | Some (n, r) => Some (S n, r)
    | None => None
    end.
Proof.
  intros Hl Hp. simpl. destruct (Ascii.eqb_spec a ">") as [->|]; [|done].
  by contradict Hp.
Qed.

(** Where the script pattern matches, the tag pattern matches. *)
Lemma matchScript_matchTag t : matchScript t <> None -> matchTag t <> None.
Proof.
  unfold matchScript.
  destruct (prefixCi "<script" t) as [r|] eqn:Hp; [|done].
  destruct (upToGt r) as [[n r']|] eqn:Hu; [|done]. intros _.
  apply prefixCi_cons in Hp as (a0 & t0 & -> & H0 & Hp).
  apply prefixCi_cons in Hp as (a1 & t1 & -> & H1 & Hp).
  apply prefixCi_cons in Hp as (a2 & t2 & -> & H2 & Hp).
  apply prefixCi_cons in Hp as (a3 & t3 & -> & H3 & Hp).
  apply prefixCi_cons in Hp as (a4 & t4 & -> & H4 & Hp).
  apply prefixCi_cons in Hp as (a5 & t5 & -> & H5 & Hp).
  apply prefixCi_cons in Hp as (a6 & t6 & -> & H6 & Hp).
  simpl in Hp. injection Hp as ->.
  apply lower_lt in H0 as ->. rewrite matchTag_cons_lt.
  rewrite (upToGt_letter _ _ _ H1) by (vm_compute; discriminate).
  rewrite (upToGt_letter _ _ _ H2) by (vm_compute; discriminate).
  rewrite (upToGt_letter _ _ _ H3) by (vm_compute; discriminate).
  rewrite (upToGt_letter _ _ _ H4) by (vm_compute; discriminate).
  rewrite (upToGt_letter _ _ _ H5) by (vm_compute; discriminate).
  rewrite (upToGt_letter _ _ _ H6) by (vm_compute; discriminate).
  by rewrite Hu.
Qed.

Lemma replaceAll_tagFree f s :
  (forall t, f t <> None -> matchTag t <> None) ->
  tagFree s = true -> replaceAll f 0 s = s.
Proof.
  intros Hf. induction s as [|c s IH]; [done|]. cbn [tagFree replaceAll].
  destruct (matchTag (String c s)) eqn:Hm; [done|]. intros Ht.
  destruct (f (String c s)) as [l|] eqn:Hfs.
  - exfalso. apply (Hf (String c s)); [by rewrite Hfs|done].
  - by rewrite IH.
Qed.

Lemma trimEnd_id s : isSpace (lastChar s) = false -> trimEnd s = s.
Proof.
  induction s as [|c s IH]; [done|].
  destruct s as [|d s]; [simpl; by intros ->|].
  intros Hl.
  change (trimEnd (String c (String d s)))
    with (match trimEnd (String d s) with
          | EmptyString =>
              if whiteSpace c then EmptyString else String c EmptyString
          | r => String c r
          end).
  by rewrite (IH Hl).
Qed.

Lemma trim_id s : trimmed s = true -> trim s = s.
Proof.
  unfold trimmed, trim. intros [Hh Hl]%andb_prop.
  apply negb_true_iff in Hh, Hl.
  assert (Hs : trimStart s = s).
  { destruct s as [|c s]; [done|]. cbn in Hh. cbn [trimStart].
    by rewrite Hh. }
  rewrite Hs. by apply trimEnd_id.
Qed.

(** X2. The texts [sanitize] returns unchanged are exactly those with no
    match of the tag pattern and no white space at either end. *)
Theorem sanitize_fixed_points (s : string) :
  sanitize (VStr s) = s <-> tagFree s = true /\ trimmed s = true.
Proof.
  split.
  - intros Hs. rewrite <- Hs. apply sanitize_clean.
  - intros [Ht Hw]. simpl.
    rewrite (replaceAll_tagFree matchScript s matchScript_matchTag Ht).
    rewrite (replaceAll_tagFree matchTag s (fun _ H => H) Ht).
    by apply trim_id.
Qed.

(** X3. Sanitizing twice is sanitizing once. *)
Theorem sanitize_idempotent (text : Val) :
  sanitize (VStr (sanitize text)) = sanitize text.
Proof.
  destruct (sanitize_clean text) as [Ht Hw].
  simpl.
  rewrite (replaceAll_tagFree matchScript _ matchScript_matchTag Ht).
  rewrite (replaceAll_tagFree matchTag _ (fun _ H => H) Ht).
  by apply trim_id.
Qed.

End SanitizeFacts.

(** ** What [validatePayload] accepts *)

Section ValidateFacts.

(** The loop of [validatePayload], entry by entry. *)
Lemma validatePayload_iff
    (data : Payload) (schema : list (string * string)) :
  validatePayload data schema = true <->
  Forall
    (fun e =>
       (snd e = "required" -> truthy (field (fst e) data) = true) /\
       (snd e <> "required" ->
        truthy (field (fst e) data) = false \/
        typeof (field (fst e) data) = snd e))
    schema.
Proof.
  induction schema as [|[key type] rest IH]; simpl.
  - split; [constructor|done].
  - rewrite Forall_cons. simpl. rewrite <- IH. clear IH.
    destruct (String.eqb_spec type "required") as [->|Hreq];
      destruct (truthy (field key data)); simpl.
    + destruct (String.eqb_spec (typeof (field key data)) "required");
        simpl; rewrite ?andb_false_r; simpl; tauto.
    + split; [done|]. intros [[H _] _]. by specialize (H eq_refl).
    + destruct (String.eqb_spec (typeof (field key data)) type) as [->|Ht];
        simpl.
      * split; [|tauto]. intros Hv. split; [|done]. split; [done|].
        by right.
      * split; [done|]. intros [[_ H] _].
        by destruct (H Hreq) as [?|?].
    + split; [|tauto]. intros Hv. split; [|done]. split; [done|].
      by left.
Qed.


(** So no schema of plain types refuses the empty object. *)
Lemma validatePayload_empty_object (schema : list (string * string)) :
  Forall (fun e => snd e <> "required") schema ->
  validatePayload [] schema = true.
Proof.
  intros Hs. apply validatePayload_iff.
  eapply Forall_impl; [exact Hs|]. intros [key type] Hne. simpl in *.
  split; [done|]. intros _. by left.
Qed.

End ValidateFacts.

(** ** Rate limiting over runs of events *)

Section RateRunFacts.
Import RateLimit RateRun.

Lemma checkRateLimit_record now uid type rl :
  exists l, get uid (snd (checkRateLimit now uid type rl)) = Some l.
Proof.
  unfold checkRateLimit. destruct (get uid rl) as [l|] eqn:Hg;
    repeat match goal with
           | |- context [if ?b then _ else _] => destruct b
           end; simpl; rewrite ?get_set_eq, ?Hg; eauto.
Qed.

(** An evaluation of another kind leaves the typing and report stamps. *)
Lemma checkRateLimit_keeps_stamps now uid type rl l :
  get uid rl = Some l ->
  exists l',
    get uid (snd (checkRateLimit now uid type rl)) = Some l' /\
    (type <> "typing" -> lastTyping l' = lastTyping l) /\
    (type <> "report" -> lastReport l' = lastReport l).
Proof.
  intros Hg. unfold checkRateLimit. rewrite Hg.
  destruct (String.eqb_spec type "message") as [->|Hm].
  - destruct (10000 <? now - windowStart l);
      match goal with
      | |- context [if ?b then _ else _] => destruct b
      end; simpl; rewrite get_set_eq; eauto.
  - destruct (String.eqb_spec type "typing") as [->|Ht].
    + destruct (now - lastTyping l <? TYPING_INTERVAL); simpl;
        rewrite ?get_set_eq, ?Hg; eexists; (split; [done|]); simpl;
        split; done.
    + destruct (String.eqb_spec type "report") as [->|Hr].
      * destruct (now - lastReport l <? REPORT_INTERVAL); simpl;
          rewrite ?get_set_eq, ?Hg; eexists; (split; [done|]); simpl;
          split; done.
      * simpl. rewrite Hg. eauto.
Qed.

Lemma after_keeps_lastTyping uid cs rl l :
  get uid rl = Some l -> noneOf uid "typing" cs ->
  exists l', get uid (after cs rl) = Some l' /\ lastTyping l' = lastTyping l.
Proof.
  revert rl l. unfold after, noneOf.
  induction cs as [|c cs IH]; intros rl l Hg Hn; [by exists l|].
  apply Forall_cons in Hn as [Hc Hn]. cbn [fold_left].
  destruct (decide (by_ c = uid)) as [Hu|Hu].
  - rewrite Hu.
    destruct (checkRateLimit_keeps_stamps (at_ c) uid (kind c) rl l Hg)
      as (l1 & Hg1 & Ht & _).
    destruct (IH _ l1 Hg1 Hn) as (l2 & Hg2 & Ht2).
    exists l2. split; [done|]. rewrite Ht2. by apply Ht, Hc.
  - apply IH; [|done]. by rewrite checkRateLimit_frame.
Qed.

Lemma after_keeps_lastReport uid cs rl l :
  get uid rl = Some l -> noneOf uid "report" cs ->
  exists l', get uid (after cs rl) = Some l' /\ lastReport l' = lastReport l.
Proof.
  revert rl l. unfold after, noneOf.
  induction cs as [|c cs IH]; intros rl l Hg Hn; [by exists l|].
  apply Forall_cons in Hn as [Hc Hn]. cbn [fold_left].
  destruct (decide (by_ c = uid)) as [Hu|Hu].
  - rewrite Hu.
    destruct (checkRateLimit_keeps_stamps (at_ c) uid (kind c) rl l Hg)
      as (l1 & Hg1 & _ & Hr).
    destruct (IH _ l1 Hg1 Hn) as (l2 & Hg2 & Hr2).
    exists l2. split; [done|]. rewrite Hr2. by apply Hr, Hc.
  - apply IH; [|done]. by rewrite checkRateLimit_frame.
Qed.

(** X5. After an allowed typing event at time [t], a typing event of the
    same user less than 1000 ms later is denied, whatever messages and
    reports the user sends in between and whatever other users do; the same
    holds for reports within 10000 ms. *)
Theorem cooldown_survives_other_events
    (uid : string) (rl : t) (t t' : Z) (cs : list Call) :
  (fst (checkRateLimit t uid "typing" rl) = true ->
   noneOf uid "typing" cs -> t' - t < 1000 ->
   fst (checkRateLimit t' uid "typing"
          (after cs (snd (checkRateLimit t uid "typing" rl)))) = false) /\
  (fst (checkRateLimit t uid "report" rl) = true ->
   noneOf uid "report" cs -> t' - t < 10000 ->
   fst (checkRateLimit t' uid "report"
          (after cs (snd (checkRateLimit t uid "report" rl)))) = false).
Proof.
  split; intros Hok Hn Hlt.
  - destruct (checkRateLimit_allowed t uid "typing" rl Hok)
      as (l1 & Hg1 & _ & Ht & _).
    destruct (after_keeps_lastTyping uid cs _ l1 Hg1 Hn) as (l2 & Hg2 & Ht2).
    unfold checkRateLimit at 1. rewrite Hg2. simpl.
    rewrite Ht2, (Ht eq_refl).
    by replace (t' - t <? TYPING_INTERVAL) with true
      by (symmetry; apply Z.ltb_lt; unfold TYPING_INTERVAL; lia).
  - destruct (checkRateLimit_allowed t uid "report" rl Hok)
      as (l1 & Hg1 & _ & _ & Hr).
    destruct (after_keeps_lastReport uid cs _ l1 Hg1 Hn) as (l2 & Hg2 & Hr2).
    unfold checkRateLimit at 1. rewrite Hg2. simpl.
    rewrite Hr2, (Hr eq_refl).
    by replace (t' - t <? REPORT_INTERVAL) with true
      by (symmetry; apply Z.ltb_lt; unfold REPORT_INTERVAL; lia).
Qed.

(** u1 types at 50000, sends two messages, u2 types, and u1 types again at
    50900; u1 reports at 50000 and again at 59000. *)
Lemma cooldown_survives_other_events_witness :
  let cs := [ {| at_ := 50100; by_ := "u1"; kind := "message" |};
              {| at_ := 50200; by_ := "u2"; kind := "typing" |};
              {| at_ := 50300; by_ := "u1"; kind := "message" |} ] in
  fst (checkRateLimit 50900 "u1" "typing"
         (after cs (snd (checkRateLimit 50000 "u1" "typing" []))))
    = false /\
  fst (checkRateLimit 59000 "u1" "report"
         (after cs (snd (checkRateLimit 50000 "u1" "report" []))))
    = false.
Proof.
  intros cs.
  assert (Hn : forall k, k = "typing" \/ k = "report" -> noneOf "u1" k cs).
  { intros k Hk. unfold noneOf, cs. repeat constructor; simpl;
      destruct Hk as [-> | ->]; intros; discriminate. }
  split.
  - apply (proj1 (cooldown_survives_other_events "u1" [] 50000 50900 cs));
      [reflexivity|apply Hn; by left|lia].
  - apply (proj2 (cooldown_survives_other_events "u1" [] 50000 59000 cs));
      [reflexivity|apply Hn; by right|lia].
Defined.

Lemma burst_spaced_allowed uid times rl l :
  get uid rl = Some l -> spaced 500 (lastMessage l) times ->
  Forall (fun ok => ok = true) (fst (burst uid times rl)).
Proof.
  revert rl l. induction times as [|now times IH]; intros rl l Hg Hs;
    [constructor|].
  destruct Hs as [Hd Hs]. cbn [burst].
  rewrite (checkRateLimit_message _ _ _ _ Hg). cbv zeta.
  set (l0 := if 10000 <? now - windowStart l then _ else l).
  assert (Hl0 : lastMessage l0 = lastMessage l)
    by (subst l0; by destruct (10000 <? now - windowStart l)).
  replace (now - lastMessage l0 <? 500) with false
    by (symmetry; apply Z.ltb_ge; lia).
  rewrite andb_false_r.
  match goal with
  | |- context [burst uid times (set uid ?l1 rl)] =>
      specialize (IH (set uid l1 rl) l1 (get_set_eq _ _ _) Hs);
      destruct (burst uid times (set uid l1 rl)) as [oks rl']
  end.
  by constructor.
Qed.

(** X6. Messages that keep 500 ms from one another are never denied,
    however many there are: the first of a user without a record is always
    allowed, and so is every message that comes at least 500 ms after the
    last allowed one. *)
Theorem spaced_messages_all_allowed
    (uid : string) (rl : t) (t1 : Z) (times : list Z) :
  (get uid rl = None \/
   exists l, get uid rl = Some l /\ 500 <= t1 - lastMessage l) ->
  spaced 500 t1 times ->
  Forall (fun ok => ok = true) (fst (burst uid (t1 :: times) rl)).
Proof.
  intros [Hn|(l & Hg & Hd)] Hs.
  - cbn [burst]. unfold checkRateLimit at 1. rewrite Hn. simpl.
    replace (10000 <? t1 - t1) with false
      by (symmetry; apply Z.ltb_ge; lia).
    simpl.
    match goal with
    | |- context [burst uid times ?m] =>
        pose proof (burst_spaced_allowed uid times m
                      {| lastMessage := t1; messageCount := 0 + 1;
                         lastTyping := 0; lastReport := 0;
                         windowStart := t1 |}) as Hb;
        destruct (burst uid times m) as [oks rl']
    end.
    constructor; [done|]. apply Hb; [|done].
    by rewrite !get_set_eq.
  - by apply (burst_spaced_allowed uid (t1 :: times) rl l).
Qed.

(** Twelve messages of a new user, one every 500 ms. *)
Lemma spaced_messages_all_allowed_witness :
  Forall (fun ok => ok = true)
    (fst (burst "u1" (50000 :: map (fun n => 50000 + 500 * n) (seqZ 1 11))
            [])).
Proof.
  apply (spaced_messages_all_allowed "u1" [] 50000
           (map (fun n => 50000 + 500 * n) (seqZ 1 11)));
    [left; reflexivity|].
  vm_compute. repeat split; discriminate.
Defined.

End RateRunFacts.

(** ** Keys of maps *)

Section KeyFacts.
Context {K : Type} `{EqDecision K} {V : Type}.
Implicit Types (k : K) (v : V) (m : Map K V).

Lemma get_notin k m : k ∉ map fst m -> get k m = None.
Proof. intros Hn. apply get_not_In. by rewrite <- list_elem_of_In. Qed.

Lemma get_Some_key k v m : get k m = Some v -> k ∈ map fst m.
Proof.
  intros Hg. apply get_Some_In in Hg.
  apply (list_elem_of_fmap_2 fst) in Hg. done.
Qed.

Lemma elem_keys_set x k v m :
  x ∈ map fst (set k v m) -> x = k \/ x ∈ map fst m.
Proof.
  induction m as [|[k' v'] m IH]; simpl.
  - rewrite list_elem_of_singleton. by left.
  - destruct (decide (k' = k)) as [->|Hne]; simpl.
    + by right.
    + rewrite !elem_of_cons. intros [->|Hx]; [right; by left|].
      destruct (IH Hx); [by left|right; by right].
Qed.

Lemma elem_keys_del x k m : x ∈ map fst (del k m) -> x ∈ map fst m.
Proof.
  induction m as [|[k' v'] m IH]; simpl; [done|].
  destruct (decide (k' = k)) as [->|Hne]; simpl.
  - intros Hx. right. by apply IH.
  - rewrite !elem_of_cons. intros [->|Hx]; [by left|right; by apply IH].
Qed.

Lemma NoDup_keys_set k v m :
  NoDup (map fst m) -> NoDup (map fst (set k v m)).
Proof.
  induction m as [|[k' v'] m IH]; simpl.
  - intros _. apply NoDup_singleton.
  - rewrite NoDup_cons. intros [Hk Hm].
    destruct (decide (k' = k)) as [->|Hne]; simpl.
    + by apply NoDup_cons.
    + apply NoDup_cons. split; [|by apply IH].
      intros Hx. apply elem_keys_set in Hx as [?|?]; done.
Qed.

Lemma NoDup_keys_del k m : NoDup (map fst m) -> NoDup (map fst (del k m)).
Proof.
  induction m as [|[k' v'] m IH]; simpl; [done|].
  rewrite NoDup_cons. intros [Hk Hm].
  destruct (decide (k' = k)) as [->|Hne]; simpl; [by apply IH|].
  apply NoDup_cons. split; [|by apply IH].
  intros Hx. by apply elem_keys_del in Hx.
Qed.

Lemma del_absent k m : get k m = None -> del k m = m.
Proof.
  induction m as [|[k' v'] m IH]; simpl; [done|].
  destruct (decide (k' = k)); [done|]. intros Hg. by rewrite IH.
Qed.

End KeyFacts.

(** ** ReputationSystem over runs *)

Section ReputationRunFacts.
Import ReputationSystem ReputationRun.

Lemma decayOne_get now acc k r u :
  get u (decayOne now acc (k, r)) =
    if decide (k = u)
    then if 86400000 <? now - lastActivity r then None
         else Some (decayedRecord r)
    else get u acc.
Proof.
  unfold decayOne, decayedRecord.
  destruct (decide (k = u)) as [->|Hne].
  - destruct (86400000 <? now - lastActivity r);
      [apply get_del_eq|apply get_set_eq].
  - destruct (86400000 <? now - lastActivity r);
      [by apply get_del_ne|by apply get_set_ne].
Qed.

Lemma decayLoop_get now l acc u :
  NoDup (map fst l) ->
  get u (fold_left (decayOne now) l acc) =
    match get u l with
    | Some r =>
        if 86400000 <? now - lastActivity r then None
        else Some (decayedRecord r)
    | None => get u acc
    end.
Proof.
  revert acc. induction l as [|[k r] l IH]; intros acc Hnd; [done|].
  simpl in Hnd. apply NoDup_cons in Hnd as [Hk Hnd].
  cbn [fold_left get]. rewrite (IH _ Hnd), decayOne_get.
  destruct (decide (k = u)) as [->|Hne]; [|done].
  by rewrite (get_notin _ _ Hk).
Qed.

(** The loop of [decayReputations], record by record. *)
Lemma decayReputations_get
    (now : Z) (reps : t) (userId : Val) :
  NoDup (map fst reps) ->
  get userId (decayReputations now reps) =
    match get userId reps with
    | Some rep =>
        if 86400000 <? now - lastActivity rep then None
        else Some (decayedRecord rep)
    | None => None
    end.
Proof.
  intros Hnd. unfold decayReputations. rewrite (decayLoop_get _ _ _ _ Hnd).
  by destruct (get userId reps).
Qed.

(** X7. One tick of [decayReputations], record by record: a record
    inactive for more than 24 hours is deleted; any other keeps its
    counters of messages and reports, has [skipCount] and [spamScore]
    multiplied by 0.95 and floored, and has its score raised by one if it
    was below 100. *)
Theorem decayReputations_record_by_record
    (now : Z) (reps : t) (userId : Val) :
  NoDup (map fst reps) ->
  get userId (decayReputations now reps) =
    match get userId reps with
    | Some rep =>
        if 86400000 <? now - lastActivity rep then None
        else Some (decayedRecord rep)
    | None => None
    end.
Proof. apply decayReputations_get. Qed.

(** Two users reported at time 0 and 80000000; the tick of time 90000000
    deletes the first and lifts the score of the second from 85 to 86. *)
Lemma decayReputations_record_by_record_witness :
  let reps :=
    recordReport 80000000 (VStr "v") (recordReport 0 (VStr "u") empty) in
  get (VStr "u") (decayReputations 90000000 reps) = None /\
  (score <$> get (VStr "v") (decayReputations 90000000 reps)) = Some 86.
Proof.
  intros reps.
  assert (Hnd : NoDup (map fst reps)).
  { apply (bool_decide_unpack _). vm_compute. exact I. }
  split.
  - rewrite (decayReputations_record_by_record 90000000 reps (VStr "u") Hnd).
    reflexivity.
  - rewrite (decayReputations_record_by_record 90000000 reps (VStr "v") Hnd).
    reflexivity.
Defined.

Lemma getReputation_NoDup now userId reps :
  NoDup (map fst reps) ->
  NoDup (map fst (snd (getReputation now userId reps))).
Proof.
  intros Hnd. unfold getReputation, initializeReputation.
  destruct (get userId reps); simpl; [done|]. by apply NoDup_keys_set.
Qed.

Lemma decayLoop_NoDup now l acc :
  NoDup (map fst acc) -> NoDup (map fst (fold_left (decayOne now) l acc)).
Proof.
  revert acc. induction l as [|[k r] l IH]; intros acc Hnd; [done|].
  cbn [fold_left]. apply IH. unfold decayOne.
  destruct (86400000 <? now - lastActivity r);
    [by apply NoDup_keys_del|by apply NoDup_keys_set].
Qed.

Lemma step_NoDup reps o :
  NoDup (map fst reps) -> NoDup (map fst (step reps o)).
Proof.
  intros Hnd.
  destruct o; simpl;
    try (unfold recordMessage, recordSkip, recordReport, recordResponseTime;
         match goal with
         | |- context [getReputation ?n ?u ?r] =>
             pose proof (getReputation_NoDup n u r Hnd);
             destruct (getReputation n u r)
         end; by apply NoDup_keys_set).
  - unfold initializeReputation. destruct (get userId reps); simpl; [done|].
    by apply NoDup_keys_set.
  - by apply getReputation_NoDup.
  - by apply decayLoop_NoDup.
Qed.

Lemma steps_NoDup ops reps :
  NoDup (map fst reps) -> NoDup (map fst (fold_left step ops reps)).
Proof.
  revert reps. induction ops as [|o ops IH]; intros reps Hnd; [done|].
  cbn [fold_left]. by apply IH, step_NoDup.
Qed.

Lemma run_NoDup ops : NoDup (map fst (run ops)).
Proof. apply steps_NoDup. constructor. Qed.

(** What [getReputation] makes of an existing record: nothing. *)
Lemma getReputation_present now k reps u r :
  get u reps = Some r ->
  get u (snd (getReputation now k reps)) = Some r /\
  (k = u -> fst (getReputation now k reps) = r).
Proof.
  intros Hg. unfold getReputation, initializeReputation.
  destruct (get k reps) as [r0|] eqn:Hk; simpl.
  - split; [done|]. intros ->. congruence.
  - split; [|intros ->; congruence].
    rewrite get_set_ne; [done|]. intros ->. congruence.
Qed.

Lemma step_reportCount reps o u r r' :
  NoDup (map fst reps) ->
  get u reps = Some r -> get u (step reps o) = Some r' ->
  reportCount r <= reportCount r'.
Proof.
  intros Hnd Hg.
  assert (Hset : forall now k (f : Reputation -> Reputation),
            (forall x, reportCount x <= reportCount (f x)) ->
            get u (let '(rep, reps1) := getReputation now k reps in
                   set k (f rep) reps1) = Some r' ->
            reportCount r <= reportCount r').
  { intros now k f Hf.
    destruct (getReputation_present now k reps u r Hg) as [Hs Hk].
    destruct (getReputation now k reps) as [rep reps1]. simpl in Hs, Hk.
    destruct (decide (k = u)) as [->|Hne].
    - rewrite get_set_eq, (Hk eq_refl). intros [= <-]. apply Hf.
    - rewrite get_set_ne, Hs by done. intros [= <-]. lia. }
  destruct o; simpl.
  - unfold initializeReputation.
    destruct (get userId reps) eqn:Hk; simpl.
    + rewrite Hg. intros [= <-]. lia.
    + rewrite get_set_ne by (intros ->; congruence).
      rewrite Hg. intros [= <-]. lia.
  - rewrite (proj1 (getReputation_present now userId reps u r Hg)).
    intros [= <-]. lia.
  - apply (Hset now userId
             (fun rep =>
                let rep := set_messageCount (messageCount rep + 1) rep in
                let rep := set_lastActivity now rep in
                if isSpam
                then set_score (Z.max 0 (score
                       (set_spamScore (spamScore rep + 10) rep) - 5))
                       (set_spamScore (spamScore rep + 10) rep)
                else if 0 <? spamScore rep
                     then set_spamScore (Z.max 0 (spamScore rep - 1)) rep
                     else rep)).
    intros x. destruct isSpam; simpl; [lia|].
    destruct (0 <? spamScore x); simpl; lia.
  - apply (Hset now userId
             (fun rep =>
                set_lastActivity now
                  (set_score (Z.max 0 (score
                     (set_skipCount (skipCount rep + 1) rep) - 3))
                     (set_skipCount (skipCount rep + 1) rep)))).
    intros x; simpl; lia.
  - apply (Hset now userId
             (fun rep =>
                set_lastActivity now
                  (set_score (Z.max 0 (score
                     (set_reportCount (reportCount rep + 1) rep) - 15))
                     (set_reportCount (reportCount rep + 1) rep)))).
    intros x; simpl; lia.
  - apply (Hset now userId
             (fun rep =>
                if Qeq_bool (avgResponseTime rep) 0
                then set_avgResponseTime responseTimeMs rep
                else set_avgResponseTime
                       (Qplus (Qmult (avgResponseTime rep) (7 # 10))
                              (Qmult responseTimeMs (3 # 10))) rep)).
    intros x. destruct (Qeq_bool (avgResponseTime x) 0); simpl; lia.
  - rewrite (decayReputations_get _ _ _ Hnd), Hg.
    destruct (86400000 <? now - lastActivity r); [done|].
    intros [= <-]. unfold decayedRecord.
    match goal with |- context [if ?b then _ else _] => destruct b end;
      simpl; lia.
Qed.

(** X8. Reports are never forgiven: in any run, no operation lowers the
    [reportCount] of a record that it keeps (the decay tick lowers
    [skipCount] and [spamScore] only); a record loses its reports only by
    being deleted after 24 hours of inactivity. *)
Theorem reportCount_never_decreases
    (ops : list Op) (o : Op) (userId : Val) (rep rep' : Reputation) :
  get userId (run ops) = Some rep ->
  get userId (step (run ops) o) = Some rep' ->
  reportCount rep <= reportCount rep'.
Proof. apply step_reportCount, run_NoDup. Qed.

(** Four reports, then a decay tick. *)
Lemma reportCount_never_decreases_witness :
  let ops := repeat (OpReport 5 (VStr "u")) 4 in
  (reportCount <$> get (VStr "u") (run ops)) = Some 4 /\
  (reportCount <$> get (VStr "u") (step (run ops) (OpDecay 10))) = Some 4 /\
  4 <= 4.
Proof.
  intros ops. split; [reflexivity|]. split; [reflexivity|].
  apply (reportCount_never_decreases ops (OpDecay 10) (VStr "u")
           {| score := 40; messageCount := 0; avgResponseTime := 0%Q;
              skipCount := 0; reportCount := 4; spamScore := 0;
              lastActivity := 5; createdAt := 5 |}
           {| score := 41; messageCount := 0; avgResponseTime := 0%Q;
              skipCount := 0; reportCount := 4; spamScore := 0;
              lastActivity := 5; createdAt := 5 |}); reflexivity.
Defined.

(** X9. In any run the matchmaking priority of any user, known or not, is
    between 0 and 5, and it is 5 exactly for a score of 100. *)
Theorem priority_between_0_and_5 (ops : list Op) (now : Z) (userId : Val) :
  0 <= fst (getMatchmakingPriority now userId (run ops)) <= 5 /\
  (fst (getMatchmakingPriority now userId (run ops)) = 5 <->
   score (fst (getReputation now userId (run ops))) = 100).
Proof.
  unfold getMatchmakingPriority.
  assert (Hall : Forall score_ok (run ops)) by (apply run_ok; constructor).
  destruct (getReputation now userId (run ops)) as [rep reps'] eqn:Hg.
  destruct (getReputation_ok _ _ _ _ _ Hall Hg) as [_ Hs]. simpl.
  split; [split|split].
  - apply Z.div_pos; lia.
  - apply Z.div_le_upper_bound; lia.
  - intros Hp. assert (100 <= score rep); [|lia].
    destruct (Z_lt_le_dec (score rep) 100) as [Hlt|]; [|done].
    assert (score rep / 20 < 5) by (apply Z.div_lt_upper_bound; lia). lia.
  - intros ->. reflexivity.
Qed.

(** X10. A user inactive for more than 24 hours is forgotten by the next
    decay tick, whatever the record held: afterwards the user is not toxic
    and has priority 5, like a new user. *)
Theorem forgotten_user_starts_clean
    (now now' : Z) (reps : t) (userId : Val) (rep : Reputation) :
  NoDup (map fst reps) ->
  get userId reps = Some rep ->
  86400000 < now - lastActivity rep ->
  get userId (decayReputations now reps) = None /\
  fst (isToxic now' userId (decayReputations now reps)) = false /\
  fst (getMatchmakingPriority now' userId (decayReputations now reps)) = 5.
Proof.
  intros Hnd Hg Hold.
  assert (Hn : get userId (decayReputations now reps) = None).
  { rewrite (decayReputations_get _ _ _ Hnd), Hg.
    by replace (86400000 <? now - lastActivity rep) with true
      by (symmetry; apply Z.ltb_lt; lia). }
  split; [done|].
  unfold isToxic, getMatchmakingPriority, getReputation,
    initializeReputation.
  by rewrite Hn.
Qed.

(** A user reported eight times at time 0 (score 0, toxic) and silent
    since. *)
Lemma forgotten_user_starts_clean_witness :
  let reps := run (repeat (OpReport 0 (VStr "u")) 8) in
  fst (isToxic 1 (VStr "u") reps) = true /\
  fst (isToxic 90000001 (VStr "u") (decayReputations 90000000 reps)) = false.
Proof.
  intros reps. split; [reflexivity|].
  apply (forgotten_user_starts_clean 90000000 90000001 reps (VStr "u")
           {| score := 0; messageCount := 0; avgResponseTime := 0%Q;
              skipCount := 0; reportCount := 8; spamScore := 0;
              lastActivity := 0; createdAt := 0 |}).
  - apply run_NoDup.
  - reflexivity.
  - reflexivity.
Defined.

End ReputationRunFacts.

(** ** SessionManager over its lifetime *)

Section SessionRunFacts.
Import SessionManager SessionRun.

(** X11. A new session is found by its token and by its socket from the
    time of creation until 60000 ms later, that bound excluded. *)
Theorem createSession_then_lookup
    (tok sid uid uname : string) (now now' : Z) (sm : t) :
  tok <> "" ->
  let session :=
    {| token := tok; socketId := sid; userId := uid; username := uname;
       createdAt := now; lastActivity := now; currentRoom := None;
       currentMatch := None; messageBuffer := []; reconnectCount := 0 |} in
  let sm' := snd (createSession tok now sid uid uname sm) in
  getSession now' tok sm'
    = (if now' - now <? 60000 then Some session else None) /\
  getSessionBySocket now' sid sm' = getSession now' tok sm'.
Proof.
  intros Htok session sm'. unfold getSessionBySocket, getSession. simpl.
  rewrite !get_set_eq. simpl.
  apply String.eqb_neq in Htok. by rewrite Htok.
Qed.

Lemma createSession_then_lookup_witness :
  let sm' := snd (createSession "t0" 1000 "s1" "u1" "ann" empty) in
  (userId <$> getSessionBySocket 60999 "s1" sm') = Some "u1" /\
  getSessionBySocket 61000 "s1" sm' = None.
Proof.
  intros sm'.
  destruct (createSession_then_lookup "t0" "s1" "u1" "ann" 1000 60999 empty)
    as [H1 H2]; [discriminate|].
  destruct (createSession_then_lookup "t0" "s1" "u1" "ann" 1000 61000 empty)
    as [H3 H4]; [discriminate|].
  split.
  - unfold sm'. rewrite H2, H1. reflexivity.
  - unfold sm'. rewrite H4, H3. reflexivity.
Defined.

(** X12. [reconnectSession] on a session that [getSession] still returns:
    the session moves to the new socket with its user, room, match and
    message buffer as they were, one reconnect more and [lastActivity]
    refreshed; the new socket then leads to it, and the old socket, if
    another, to nothing. *)
Theorem reconnectSession_moves_session
    (now : Z) (tok newSocketId : string) (sm : t) (session : Session) :
  tok <> "" ->
  getSession now tok sm = Some session ->
  exists session',
    fst (reconnectSession now tok newSocketId sm) = Some session' /\
    socketId session' = newSocketId /\
    reconnectCount session' = reconnectCount session + 1 /\
    lastActivity session' = now /\
    userId session' = userId session /\
    currentRoom session' = currentRoom session /\
    currentMatch session' = currentMatch session /\
    messageBuffer session' = messageBuffer session /\
    getSessionBySocket now newSocketId
      (snd (reconnectSession now tok newSocketId sm)) = Some session' /\
    (socketId session <> newSocketId ->
     getSessionBySocket now (socketId session)
       (snd (reconnectSession now tok newSocketId sm)) = None).
Proof.
  intros Htok Hg. unfold reconnectSession. rewrite Hg. simpl.
  eexists. split; [done|]. simpl. repeat (split; [done|]).
  apply String.eqb_neq in Htok.
  unfold getSessionBySocket, getSession. simpl. split.
  - rewrite !get_set_eq, Htok. simpl.
    by replace (now - now <? SESSION_TTL) with true
      by (symmetry; apply Z.ltb_lt; unfold SESSION_TTL; lia).
  - intros Hne. rewrite get_set_ne by done. by rewrite get_del_eq.
Qed.

Lemma reconnectSession_moves_session_witness :
  let sm := snd (createSession "t0" 1000 "s1" "u1" "ann" empty) in
  exists session',
    fst (reconnectSession 30000 "t0" "s2" sm) = Some session' /\
    socketId session' = "s2" /\
    getSessionBySocket 30000 "s1" (snd (reconnectSession 30000 "t0" "s2" sm))
      = None.
Proof.
  intros sm.
  destruct (reconnectSession_moves_session 30000 "t0" "s2" sm
              {| token := "t0"; socketId := "s1"; userId := "u1";
                 username := "ann"; createdAt := 1000; lastActivity := 1000;
                 currentRoom := None; currentMatch := None;
                 messageBuffer := []; reconnectCount := 0 |})
    as (s' & H1 & H2 & _ & _ & _ & _ & _ & _ & _ & H10);
    [discriminate|reflexivity|].
  exists s'. split; [exact H1|]. split; [exact H2|].
  apply H10. discriminate.
Defined.

(** X13. [updateSession] does not look at the age of a session: a stored
    session, expired or not, is refreshed and is again returned by
    [getSession] for the next 60000 ms; an unknown token changes nothing. *)
Theorem updateSession_refreshes_any_session
    (now now' : Z) (tok : string) (updates : Updates) (sm : t) :
  match get tok (sessions sm) with
  | Some session =>
      fst (updateSession now tok updates sm) = true /\
      exists session',
        (now' - now < 60000 ->
         getSession now' tok (snd (updateSession now tok updates sm))
           = Some session') /\
        lastActivity session' = now /\
        messageBuffer session' = messageBuffer session /\
        socketId session' = socketId session
  | None => updateSession now tok updates sm = (false, sm)
  end.
Proof.
  unfold updateSession. destruct (get tok (sessions sm)) as [session|];
    [|done].
  split; [done|].
  exists (set_lastActivity now
            match updates with
            | UpdCurrentRoom r => set_currentRoom (Some r) session
            | UpdCurrentMatch m => set_currentMatch (Some m) session
            end).
  split; [|by destruct updates].
  intros Hlt. unfold getSession. simpl. rewrite get_set_eq. simpl.
  by replace (now' - now <? SESSION_TTL) with true
    by (symmetry; apply Z.ltb_lt; unfold SESSION_TTL; lia).
Qed.

(** A session idle since time 1000 is refreshed at time 200000. *)
Lemma updateSession_refreshes_any_session_witness :
  let sm := snd (createSession "t0" 1000 "s1" "u1" "ann" empty) in
  getSession 200000 "t0" sm = None /\
  getSession 259999 "t0"
    (snd (updateSession 200000 "t0" (UpdCurrentRoom "room-1") sm)) <> None.
Proof.
  intros sm. split; [reflexivity|].
  pose proof (updateSession_refreshes_any_session 200000 259999 "t0"
                (UpdCurrentRoom "room-1") sm) as H.
  change (get "t0" (sessions sm)) with
    (Some {| token := "t0"; socketId := "s1"; userId := "u1";
             username := "ann"; createdAt := 1000; lastActivity := 1000;
             currentRoom := None; currentMatch := None;
             messageBuffer := []; reconnectCount := 0 |}) in H.
  destruct H as (_ & s' & Hg & _). rewrite Hg by lia. discriminate.
Defined.

Lemma sessions_deleteSession tok sm :
  sessions (deleteSession tok sm) = del tok (sessions sm).
Proof.
  unfold deleteSession. destruct (get tok (sessions sm)) eqn:Hg; [done|].
  by rewrite del_absent.
Qed.

Lemma cleanupLoop_sessions now l sm tok :
  NoDup (map fst l) ->
  get tok (sessions (fold_left (cleanupOne now) l sm)) =
    match get tok l with
    | Some session =>
        if SESSION_TTL <? now - lastActivity session then None
        else get tok (sessions sm)
    | None => get tok (sessions sm)
    end.
Proof.
  revert sm. induction l as [|[k s0] l IH]; intros sm Hnd; [done|].
  simpl in Hnd. apply NoDup_cons in Hnd as [Hk Hnd].
  cbn [fold_left get]. rewrite (IH _ Hnd).
  assert (Hstep : get tok (sessions (cleanupOne now sm (k, s0))) =
                  if decide (k = tok)
                  then if SESSION_TTL <? now - lastActivity s0 then None
                       else get tok (sessions sm)
                  else get tok (sessions sm)).
  { unfold cleanupOne. destruct (SESSION_TTL <? now - lastActivity s0).
    - rewrite sessions_deleteSession, get_del.
      by destruct (decide (k = tok)).
    - by destruct (decide (k = tok)). }
  destruct (decide (k = tok)) as [->|Hne].
  - by rewrite (get_notin _ _ Hk).
  - rewrite Hstep. by destruct (get tok l) as [s1|];
      [destruct (SESSION_TTL <? now - lastActivity s1)|].
Qed.

(** X14. The sweep deletes exactly the sessions idle for more than 60000
    ms and keeps every other as it is.  A session idle for exactly 60000 ms
    is kept by the sweep although [getSession] no longer returns it. *)
Theorem cleanupExpiredSessions_exact (now : Z) (sm : t) (tok : string) :
  NoDup (map fst (sessions sm)) ->
  get tok (sessions (cleanupExpiredSessions now sm)) =
    match get tok (sessions sm) with
    | Some session =>
        if 60000 <? now - lastActivity session then None else Some session
    | None => None
    end.
Proof.
  intros Hnd. unfold cleanupExpiredSessions.
  rewrite (cleanupLoop_sessions _ _ _ _ Hnd).
  by destruct (get tok (sessions sm)) as [s0|] eqn:Hg.
Qed.

Lemma cleanupExpiredSessions_exact_witness :
  let sm := snd (createSession "t1" 2000 "s2" "u2" "bob"
                   (snd (createSession "t0" 1000 "s1" "u1" "ann" empty))) in
  get "t0" (sessions (cleanupExpiredSessions 61001 sm)) = None /\
  get "t1" (sessions (cleanupExpiredSessions 62000 sm)) <> None /\
  getSession 62000 "t1" sm = None.
Proof.
  intros sm.
  assert (Hnd : NoDup (map fst (sessions sm)))
    by (apply (bool_decide_unpack _); vm_compute; exact I).
  split; [|split].
  - rewrite (cleanupExpiredSessions_exact 61001 sm "t0" Hnd). reflexivity.
  - rewrite (cleanupExpiredSessions_exact 62000 sm "t1" Hnd).
    vm_compute. discriminate.
  - reflexivity.
Defined.

Lemma indexed_create tok now sid uid uname sm :
  get tok (sessions sm) = None -> indexed sm ->
  indexed (snd (createSession tok now sid uid uname sm)).
Proof.
  intros Hfresh Hi sid' tok'. simpl.
  destruct (decide (sid = sid')) as [->|Hne].
  - rewrite get_set_eq. intros [= <-]. rewrite get_set_eq. eauto.
  - rewrite get_set_ne by done. intros Hg.
    destruct (Hi _ _ Hg) as (s0 & Hs & Hsid). exists s0. split; [|done].
    rewrite get_set_ne; [done|]. intros ->. congruence.
Qed.

(** Writing back a session under its token, on its socket. *)
Lemma indexed_rewrite tok session session' sm :
  get tok (sessions sm) = Some session ->
  socketId session' = socketId session -> indexed sm ->
  indexed {| sessions := set tok session' (sessions sm);
             socketToSession := socketToSession sm |}.
Proof.
  intros Hg Hsid Hi sid' tok' Hs. simpl in *.
  destruct (Hi _ _ Hs) as (s0 & Hs0 & Hsid0).
  destruct (decide (tok = tok')) as [->|Hne].
  - rewrite get_set_eq. exists session'. split; [done|]. congruence.
  - rewrite get_set_ne by done. eauto.
Qed.

Lemma indexed_delete tok sm : indexed sm -> indexed (deleteSession tok sm).
Proof.
  intros Hi. unfold deleteSession.
  destruct (get tok (sessions sm)) as [session|] eqn:Hg; [|done].
  intros sid' tok'. simpl. rewrite get_del.
  destruct (decide (socketId session = sid')) as [|Hne]; [done|].
  intros Hs. destruct (Hi _ _ Hs) as (s0 & Hs0 & Hsid0).
  exists s0. split; [|done]. rewrite get_del_ne; [done|].
  intros ->. congruence.
Qed.

Lemma indexed_cleanupLoop now l sm :
  indexed sm -> indexed (fold_left (cleanupOne now) l sm).
Proof.
  revert sm. induction l as [|[k s0] l IH]; intros sm Hi; [done|].
  cbn [fold_left]. apply IH. unfold cleanupOne.
  destruct (SESSION_TTL <? now - lastActivity s0); [|done].
  by apply indexed_delete.
Qed.

Lemma indexed_reconnect now tok newSocketId sm :
  indexed sm -> indexed (snd (reconnectSession now tok newSocketId sm)).
Proof.
  intros Hi. unfold reconnectSession.
  destruct (getSession now tok sm) as [session|] eqn:Hgs; [|done].
  assert (Hg : get tok (sessions sm) = Some session).
  { unfold getSession in Hgs. destruct (get tok (sessions sm)); [|done].
    by destruct (_ <? _). }
  intros sid' tok'. simpl.
  destruct (decide (newSocketId = sid')) as [->|Hne].
  - rewrite get_set_eq. intros [= <-]. rewrite get_set_eq. eauto.
  - rewrite get_set_ne by done. rewrite get_del.
    destruct (decide (socketId session = sid')) as [|Hold]; [done|].
    intros Hs. destruct (Hi _ _ Hs) as (s0 & Hs0 & Hsid0).
    exists s0. split; [|done]. rewrite get_set_ne; [done|].
    intros ->. congruence.
Qed.

(** X15. In every state the SessionManager can reach, each entry of the
    socket index leads to a stored session that names that socket:
    [getSessionBySocket] never follows an entry to a deleted session or to
    the session of another socket. *)
Theorem socket_index_leads_to_sessions (sm : t) :
  reachable sm -> indexed sm.
Proof.
  induction 1 as [|tok now sid uid uname sm Hr IH Hfresh
                  |now tok updates sm Hr IH|tok message sm Hr IH
                  |now tok newSocketId sm Hr IH|tok sm Hr IH
                  |now sm Hr IH].
  - intros sid tok. done.
  - by apply indexed_create.
  - unfold updateSession.
    destruct (get tok (sessions sm)) as [session|] eqn:Hg; [|done].
    simpl. apply (indexed_rewrite _ session); [done| |done].
    by destruct updates.
  - unfold addMessageToBuffer.
    destruct (get tok (sessions sm)) as [session|] eqn:Hg; [|done].
    by apply (indexed_rewrite _ session).
  - by apply indexed_reconnect.
  - by apply indexed_delete.
  - by apply indexed_cleanupLoop.
Qed.

(** ann joins on s1, reconnects on s2, and the sweep of time 100000 runs. *)
Lemma socket_index_leads_to_sessions_witness :
  indexed
    (cleanupExpiredSessions 100000
       (snd (reconnectSession 30000 "t0" "s2"
               (snd (createSession "t0" 1000 "s1" "u1" "ann" empty))))).
Proof.
  apply socket_index_leads_to_sessions.
  apply reach_cleanup, reach_reconnect, reach_create;
    [apply reach_empty|reflexivity].
Defined.

End SessionRunFacts.

(** ** SmartMatchmaking: who is matched with whom *)

Section MatchFacts.
Import SmartMatchmaking MatchRun.

Lemma elem_add {A : Type} `{EqDecision A} (x y : A) (s : JsSet A) :
  y ∈ add x s <-> y = x \/ y ∈ s.
Proof.
  unfold add, mem. destruct (bool_decide_reflect (x ∈ s)) as [Hin|Hn].
  - split; [by right|]. intros [->|?]; done.
  - rewrite elem_of_app, list_elem_of_singleton. tauto.
Qed.

Lemma elem_remove {A : Type} `{EqDecision A} (x y : A) (s : JsSet A) :
  y ∈ remove x s <-> y <> x /\ y ∈ s.
Proof. unfold remove. by rewrite list_elem_of_filter. Qed.

(** After [getReputation] the record is stored, and asking again returns
    it. *)
Lemma getReputation_stored now k reps :
  get k (snd (ReputationSystem.getReputation now k reps))
    = Some (fst (ReputationSystem.getReputation now k reps)).
Proof.
  unfold ReputationSystem.getReputation,
    ReputationSystem.initializeReputation.
  destruct (get k reps) eqn:Hg; simpl; [done|]. by rewrite get_set_eq.
Qed.

Lemma getReputation_again now k reps rep :
  get k reps = Some rep ->
  ReputationSystem.getReputation now k reps = (rep, reps).
Proof. intros Hg. unfold ReputationSystem.getReputation. by rewrite Hg. Qed.

(** [addToQueue] with the record of the user at hand. *)
Lemma addToQueue_unfold now uid reps mm :
  let rep := fst (ReputationSystem.getReputation now (VStr uid) reps) in
  let reps1 := snd (ReputationSystem.getReputation now (VStr uid) reps) in
  let prio := ReputationSystem.score rep / 20 in
  addToQueue now uid reps mm =
    if (ReputationSystem.score rep <? 30)
       || (3 <? ReputationSystem.reportCount rep)
       || (50 <? ReputationSystem.spamScore rep)
    then (Rejected "reputation_too_low", reps1, mm)
    else
      let wq :=
        if has prio (waitingQueue mm) then waitingQueue mm
        else set prio [] (waitingQueue mm) in
      (Accepted prio, reps1,
       {| waitingQueue := set prio (add uid (default [] (get prio wq))) wq;
          userMetadata :=
            set uid
              {| priority := prio; joinedAt := now;
                 activityLevel := calculateActivityLevel rep;
                 responseSpeed := ReputationSystem.avgResponseTime rep |}
              (userMetadata mm);
          activeMatches := activeMatches mm |}).
Proof.
  intros rep reps1 prio. unfold addToQueue.
  pose proof (getReputation_stored now (VStr uid) reps) as Hs.
  fold rep reps1 in Hs.
  destruct (ReputationSystem.getReputation now (VStr uid) reps)
    as [rep0 reps0] eqn:Hg.
  subst rep reps1. simpl in *.
  unfold ReputationSystem.isToxic, ReputationSystem.getMatchmakingPriority.
  rewrite (getReputation_again _ _ _ _ Hs).
  destruct (_ || _); [done|]. by rewrite (getReputation_again _ _ _ _ Hs).
Qed.

(** X16. [addToQueue] on a reputation state of any run either refuses the
    user as toxic, with the reason [reputation_too_low] and the queue left
    as it was, or accepts with a priority between 1 and 5; the user is then
    a member of that bucket and has metadata with that priority and the
    current time.  Bucket 0 is never used: a score below 20 is toxic. *)
Theorem addToQueue_outcomes
    (ops : list ReputationSystem.Op) (now : Z) (uid : string) (mm : t) :
  let res := addToQueue now uid (ReputationSystem.run ops) mm in
  match fst (fst res) with
  | Rejected reason =>
      reason = "reputation_too_low" /\ snd res = mm /\
      fst (ReputationSystem.isToxic now (VStr uid) (ReputationSystem.run ops))
        = true
  | Accepted prio =>
      1 <= prio <= 5 /\
      (exists queue,
         get prio (waitingQueue (snd res)) = Some queue /\ uid ∈ queue) /\
      (priority <$> get uid (userMetadata (snd res))) = Some prio /\
      (joinedAt <$> get uid (userMetadata (snd res))) = Some now
  end.
Proof.
  intros res. subst res. rewrite addToQueue_unfold. cbv zeta.
  assert (Hall : Forall ReputationSystem.score_ok (ReputationSystem.run ops))
    by (apply run_ok; constructor).
  unfold ReputationSystem.isToxic.
  destruct (ReputationSystem.getReputation now (VStr uid)
              (ReputationSystem.run ops)) as [rep reps1] eqn:Hg.
  destruct (getReputation_ok _ _ _ _ _ Hall Hg) as [_ Hs]. simpl.
  destruct (_ || _) eqn:Htox; simpl; [done|].
  apply orb_false_iff in Htox as [[H30 _]%orb_false_iff _].
  apply Z.ltb_ge in H30.
  split; [|split; [|split]].
  - split.
    + apply Z.div_le_lower_bound; lia.
    + apply Z.div_le_upper_bound; lia.
  - rewrite get_set_eq. eexists; split; [done|]. apply elem_add. by left.
  - by rewrite get_set_eq.
  - by rewrite get_set_eq.
Qed.

(** The running best of the candidate loop is a candidate with metadata. *)
Lemma consider_fold mm userMeta cands b sc p sc' :
  fold_left (consider mm userMeta) cands (b, sc) = (Some p, sc') ->
  b = Some p \/ (p ∈ cands /\ is_Some (get p (userMetadata mm))).
Proof.
  revert b sc. induction cands as [|c cands IH]; intros b sc; simpl.
  - intros [= -> _]. by left.
  - intros Hf. unfold consider at 2 in Hf. simpl in Hf.
    destruct (get c (userMetadata mm)) as [md|] eqn:Hc.
    + destruct (better _ sc).
      * destruct (IH _ _ Hf) as [[= <-]|[Hin Hmd]].
        -- right. split; [by left|by rewrite Hc].
        -- right. split; [by right|done].
      * destruct (IH _ _ Hf) as [?|[Hin Hmd]]; [by left|].
        right. split; [by right|done].
    + destruct (IH _ _ Hf) as [?|[Hin Hmd]]; [by left|].
      right. split; [by right|done].
Qed.

Lemma findMatchInPriority_Some uid prio userMeta mm p :
  findMatchInPriority uid prio userMeta mm = Some p ->
  exists queue,
    get prio (waitingQueue mm) = Some queue /\ p ∈ queue /\ p <> uid /\
    is_Some (get p (userMetadata mm)).
Proof.
  unfold findMatchInPriority.
  destruct (get prio (waitingQueue mm)) as [queue|]; [|done].
  destruct (length queue <? 2)%nat; [done|].
  destruct (length (filter _ queue) =? 0)%nat; [done|].
  destruct (fold_left _ _ _) as [b sc] eqn:Hf. simpl. intros ->.
  apply consider_fold in Hf as [?|[Hin Hmd]]; [done|].
  apply list_elem_of_filter in Hin as [Hne Hin]. by exists queue.
Qed.

(** The bucket [findMatch] found its answer in. *)
Lemma findMatch_Some uuid now uid mm matchId p mm' :
  findMatch uuid now uid mm = (Some (matchId, p), mm') ->
  exists userMeta prio,
    get uid (userMetadata mm) = Some userMeta /\
    (prio = priority userMeta \/ prio = priority userMeta - 1 \/
     prio = priority userMeta + 1) /\
    findMatchInPriority uid prio userMeta mm = Some p /\
    p <> "" /\ matchId = "match-" +:+ uuid /\
    mm' =
      {| waitingQueue :=
           waitingQueue (removeFromQueue p (removeFromQueue uid mm));
         userMetadata :=
           userMetadata (removeFromQueue p (removeFromQueue uid mm));
         activeMatches :=
           set matchId {| user1 := uid; user2 := p; startTime := now |}
             (activeMatches (removeFromQueue p (removeFromQueue uid mm))) |}.
Proof.
  unfold findMatch.
  destruct (get uid (userMetadata mm)) as [userMeta|]; [|done].
  set (m0 := findMatchInPriority uid (priority userMeta) userMeta mm).
  set (m1 := if noMatch m0 && (0 <? priority userMeta)
             then findMatchInPriority uid (priority userMeta - 1) userMeta mm
             else m0).
  set (m2 := if noMatch m1 && (priority userMeta <? 5)
             then findMatchInPriority uid (priority userMeta + 1) userMeta mm
             else m1).
  destruct m2 as [partner|] eqn:Hm2; [|done].
  destruct (String.eqb_spec partner "") as [|Hne]; [done|].
  intros [= <- <- <-]. exists userMeta.
  assert (Hfound : exists prio,
             (prio = priority userMeta \/ prio = priority userMeta - 1 \/
              prio = priority userMeta + 1) /\
             findMatchInPriority uid prio userMeta mm = Some partner).
  { subst m2. destruct (noMatch m1 && _).
    - eexists. split; [right; right; reflexivity|done].
    - subst m1. destruct (noMatch m0 && _).
      + eexists. split; [right; left; reflexivity|done].
      + eexists. split; [left; reflexivity|done]. }
  destruct Hfound as (prio & Hp & Hf). exists prio. done.
Qed.

(** Who [findMatch] returns. *)
Lemma findMatch_partner_facts
    (uuid : string) (now : Z) (uid : string) (mm mm' : t)
    (matchId partner : string) :
  findMatch uuid now uid mm = (Some (matchId, partner), mm') ->
  partner <> uid /\ partner <> "" /\
  is_Some (get partner (userMetadata mm)) /\
  exists userMeta prio queue,
    get uid (userMetadata mm) = Some userMeta /\
    priority userMeta - 1 <= prio <= priority userMeta + 1 /\
    get prio (waitingQueue mm) = Some queue /\ partner ∈ queue.
Proof.
  intros Hf.
  apply findMatch_Some in Hf
    as (userMeta & prio & Hu & Hp & Hfp & Hne & _ & _).
  apply findMatchInPriority_Some in Hfp as (queue & Hq & Hin & Hself & Hmd).
  repeat (split; [done|]). exists userMeta, prio, queue.
  repeat (split; [done || lia|]). done.
Qed.

(** X17. The partner [findMatch] returns is never the searching user and
    never the empty id; the partner has matchmaking metadata (is waiting)
    and is a member of the bucket of the searcher's priority or of one of
    the two next to it. *)
Theorem findMatch_partner
    (uuid : string) (now : Z) (uid : string) (mm mm' : t)
    (matchId partner : string) :
  findMatch uuid now uid mm = (Some (matchId, partner), mm') ->
  partner <> uid /\ partner <> "" /\
  is_Some (get partner (userMetadata mm)) /\
  exists userMeta prio queue,
    get uid (userMetadata mm) = Some userMeta /\
    priority userMeta - 1 <= prio <= priority userMeta + 1 /\
    get prio (waitingQueue mm) = Some queue /\ partner ∈ queue.
Proof. apply findMatch_partner_facts. Qed.

Lemma findMatch_partner_witness :
  "carol" <> "alice" /\ "carol" <> "" /\
  is_Some (get "carol" (userMetadata Sample.aliceBobCarol)).
Proof.
  destruct (findMatch_partner "x" 30 "alice" Sample.aliceBobCarol
              (snd (findMatch "x" 30 "alice" Sample.aliceBobCarol))
              "match-x" "carol" eq_refl) as (H1 & H2 & H3 & _).
  auto.
Defined.

Lemma userMetadata_removeFromQueue uid mm :
  userMetadata (removeFromQueue uid mm) = del uid (userMetadata mm).
Proof.
  unfold removeFromQueue.
  destruct (get uid (userMetadata mm)) eqn:Hg; [done|].
  by rewrite del_absent.
Qed.

Lemma findMatch_no_metadata uuid now uid mm :
  get uid (userMetadata mm) = None -> findMatch uuid now uid mm = (None, mm).
Proof. intros Hg. unfold findMatch. by rewrite Hg. Qed.

(** X18. A match is made once: when [findMatch] succeeds, both users have
    left the queue's metadata, the match is recorded under its id with the
    two users and the time, and a further [findMatch] by either of them
    returns [null] and changes nothing. *)
Theorem findMatch_exactly_once
    (uuid uuid' : string) (now now' : Z) (uid : string) (mm mm' : t)
    (matchId partner : string) :
  findMatch uuid now uid mm = (Some (matchId, partner), mm') ->
  get uid (userMetadata mm') = None /\
  get partner (userMetadata mm') = None /\
  get matchId (activeMatches mm')
    = Some {| user1 := uid; user2 := partner; startTime := now |} /\
  findMatch uuid' now' uid mm' = (None, mm') /\
  findMatch uuid' now' partner mm' = (None, mm').
Proof.
  intros Hf.
  apply findMatch_Some in Hf as (userMeta & prio & _ & _ & _ & _ & _ & ->).
  assert (H1 : get uid (userMetadata
                 (removeFromQueue partner (removeFromQueue uid mm))) = None).
  { rewrite !userMetadata_removeFromQueue, get_del.
    destruct (decide (partner = uid)); [done|]. apply get_del_eq. }
  assert (H2 : get partner (userMetadata
                 (removeFromQueue partner (removeFromQueue uid mm))) = None).
  { rewrite userMetadata_removeFromQueue. apply get_del_eq. }
  simpl. repeat split; try done.
  - apply get_set_eq.
  - by apply findMatch_no_metadata.
  - by apply findMatch_no_metadata.
Qed.

Lemma findMatch_exactly_once_witness :
  let mm' := snd (findMatch "x" 30 "alice" Sample.aliceBobCarol) in
  findMatch "y" 40 "carol" mm' = (None, mm') /\
  findMatch "y" 40 "alice" mm' = (None, mm').
Proof.
  intros mm'.
  destruct (findMatch_exactly_once "x" "y" 30 40 "alice"
              Sample.aliceBobCarol mm' "match-x" "carol" eq_refl)
    as (_ & _ & _ & H4 & H5).
  auto.
Defined.

(** X19. A user taken from the queue by [removeFromQueue] is never returned
    as a partner afterwards, whoever searches, even where a stale entry of
    the user is left in a bucket. *)
Theorem dequeued_user_is_never_matched
    (uuid : string) (now : Z) (uid other : string) (mm mm' : t)
    (matchId partner : string) :
  findMatch uuid now other (removeFromQueue uid mm)
    = (Some (matchId, partner), mm') ->
  partner <> uid.
Proof.
  intros Hf. apply findMatch_partner_facts in Hf as (_ & _ & Hmd & _).
  intros ->. rewrite userMetadata_removeFromQueue, get_del_eq in Hmd.
  by destruct Hmd.
Qed.

(** ann is taken from the queue but stays in bucket 5 as a stale entry;
    zed, searching bucket 5, is matched with dave. *)
Lemma dequeued_user_is_never_matched_witness :
  bucketsOf "ann" (removeFromQueue "ann" Scenes.annDaveZed) = [5] /\
  fst (findMatch "x" 60 "zed" (removeFromQueue "ann" Scenes.annDaveZed))
    = Some ("match-x", "dave") /\
  "dave" <> "ann".
Proof.
  split; [reflexivity|]. split; [reflexivity|].
  apply (dequeued_user_is_never_matched "x" 60 "ann" "zed" Scenes.annDaveZed
           (snd (findMatch "x" 60 "zed"
                   (removeFromQueue "ann" Scenes.annDaveZed)))
           "match-x" "dave").
  reflexivity.
Defined.

(** X20. [removeFromQueue] of a user without metadata changes nothing, so
    removing twice is removing once; and it never touches the metadata of
    another user. *)
Theorem removeFromQueue_idempotent (uid other : string) (mm : t) :
  (get uid (userMetadata mm) = None -> removeFromQueue uid mm = mm) /\
  removeFromQueue uid (removeFromQueue uid mm) = removeFromQueue uid mm /\
  (other <> uid ->
   get other (userMetadata (removeFromQueue uid mm))
     = get other (userMetadata mm)).
Proof.
  split; [|split].
  - intros Hg. unfold removeFromQueue. by rewrite Hg.
  - unfold removeFromQueue at 1.
    by rewrite userMetadata_removeFromQueue, get_del_eq.
  - intros Hne. rewrite userMetadata_removeFromQueue. by apply get_del_ne.
Qed.

Lemma removeFromQueue_idempotent_witness :
  removeFromQueue "zed" Sample.aliceAndBob = Sample.aliceAndBob /\
  get "bob" (userMetadata (removeFromQueue "alice" Sample.aliceAndBob))
    = get "bob" (userMetadata Sample.aliceAndBob).
Proof.
  split.
  - apply (proj1 (removeFromQueue_idempotent "zed" "bob" Sample.aliceAndBob)).
    reflexivity.
  - apply (proj2 (proj2 (removeFromQueue_idempotent "alice" "bob"
                           Sample.aliceAndBob))).
    discriminate.
Defined.

Lemma better_spec score bestScore :
  better score bestScore = true <->
  match bestScore with
  | None => True
  | Some b => ~ Qle b score
  end.
Proof.
  destruct bestScore as [b|]; simpl; [|tauto].
  rewrite negb_true_iff, <- Qle_bool_iff.
  by destruct (Qle_bool b score).
Qed.

Lemma consider_bestOf mm userMeta best c :
  bestOf mm userMeta best -> bestOf mm userMeta (consider mm userMeta best c).
Proof.
  intros Hb. unfold consider.
  destruct (get c (userMetadata mm)) as [md|] eqn:Hc; [|done].
  destruct (better _ _); [|done]. unfold bestOf. simpl. eauto.
Qed.

Lemma consider_step mm userMeta best c :
  (forall s, snd best = Some s ->
     exists s1, snd (consider mm userMeta best c) = Some s1 /\ Qle s1 s) /\
  (forall md, get c (userMetadata mm) = Some md ->
     exists s1, snd (consider mm userMeta best c) = Some s1 /\
                Qle s1 (compatibility userMeta md)).
Proof.
  unfold consider. split.
  - intros s Hs. destruct (get c (userMetadata mm)) as [md|].
    + destruct (better _ (snd best)) eqn:Hbt.
      * simpl. eexists; split; [done|]. apply better_spec in Hbt.
        rewrite Hs in Hbt. by apply Qlt_le_weak, Qnot_le_lt.
      * exists s. split; [done|]. apply Qle_refl.
    + exists s. split; [done|]. apply Qle_refl.
  - intros md Hmd. rewrite Hmd.
    destruct (better _ (snd best)) eqn:Hbt.
    + simpl. eexists; split; [done|]. apply Qle_refl.
    + destruct (snd best) as [b0|] eqn:Hsb; [|done].
      exists b0. split; [done|]. simpl in Hbt.
      apply negb_false_iff in Hbt. by apply Qle_bool_iff.
Qed.

Lemma consider_fold_min mm userMeta cands best :
  bestOf mm userMeta best ->
  bestOf mm userMeta (fold_left (consider mm userMeta) cands best) /\
  (forall s, snd best = Some s ->
     exists s',
       snd (fold_left (consider mm userMeta) cands best) = Some s' /\
       Qle s' s) /\
  (forall c md, c ∈ cands -> get c (userMetadata mm) = Some md ->
     exists s',
       snd (fold_left (consider mm userMeta) cands best) = Some s' /\
       Qle s' (compatibility userMeta md)).
Proof.
  revert best. induction cands as [|c cands IH]; intros best Hb.
  - split; [done|]. split.
    + intros s Hs. exists s. split; [done|]. apply Qle_refl.
    + intros c md Hin. by apply elem_of_nil in Hin.
  - cbn [fold_left].
    destruct (IH (consider mm userMeta best c) (consider_bestOf _ _ _ c Hb))
      as (Hb' & Hmono & Hmin).
    destruct (consider_step mm userMeta best c) as [Hs1 Hs2].
    split; [done|]. split.
    + intros s Hs. destruct (Hs1 _ Hs) as (s1 & E1 & L1).
      destruct (Hmono _ E1) as (s' & E' & L').
      exists s'. split; [done|]. by apply (Qle_trans _ _ _ L').
    + intros c0 md0 [->|Hin]%elem_of_cons Hmd; [|by apply (Hmin c0)].
      destruct (Hs2 _ Hmd) as (s1 & E1 & L1).
      destruct (Hmono _ E1) as (s' & E' & L').
      exists s'. split; [done|]. by apply (Qle_trans _ _ _ L').
Qed.

(** X21. Within the bucket it searches, [findMatchInPriority] returns a
    candidate of the lowest compatibility score
    [|activityLevel difference| + |joinedAt difference| / 1000] (in exact
    arithmetic) among the other members of the bucket that have
    metadata. *)
Theorem findMatchInPriority_lowest_score
    (uid : string) (prio : Z) (userMeta : Metadata) (mm : t) (p : string) :
  findMatchInPriority uid prio userMeta mm = Some p ->
  exists md,
    get p (userMetadata mm) = Some md /\
    forall queue c mdc,
      get prio (waitingQueue mm) = Some queue ->
      c ∈ queue -> c <> uid -> get c (userMetadata mm) = Some mdc ->
      Qle (compatibility userMeta md) (compatibility userMeta mdc).
Proof.
  unfold findMatchInPriority.
  destruct (get prio (waitingQueue mm)) as [queue|]; [|done].
  destruct (length queue <? 2)%nat; [done|].
  destruct (length (filter _ queue) =? 0)%nat; [done|].
  intros Hf.
  destruct (consider_fold_min mm userMeta
              (filter (fun id => id <> uid) queue) (None, None))
    as (Hb & _ & Hmin); [done|].
  destruct (fold_left _ _ _) as [b sc]. simpl in *. subst b.
  unfold bestOf in Hb. simpl in Hb.
  destruct sc as [s|]; [|done].
  destruct Hb as (p0 & md & [= <-] & Hmd & ->).
  exists md. split; [done|].
  intros queue0 c mdc [= <-] Hin Hne Hc.
  destruct (Hmin c mdc) as (s' & [= <-] & Hle); [|done|done].
  by apply list_elem_of_filter.
Qed.

(** alice searches bucket 4, where bob joined 10 ms and carol 5 ms before
    her: carol is returned, and her score is not above bob's. *)
Lemma findMatchInPriority_lowest_score_witness :
  exists md,
    get "carol" (userMetadata Sample.aliceBobCarol) = Some md /\
    forall mdc,
      get "bob" (userMetadata Sample.aliceBobCarol) = Some mdc ->
      Qle (compatibility Sample.aliceMeta md)
          (compatibility Sample.aliceMeta mdc).
Proof.
  destruct (findMatchInPriority_lowest_score "alice" 4 Sample.aliceMeta
              Sample.aliceBobCarol "carol" eq_refl) as (md & Hmd & Hmin).
  exists md. split; [exact Hmd|]. intros mdc Hb.
  apply (Hmin ["bob"; "carol"] "bob" mdc);
    [reflexivity|apply list_elem_of_here|discriminate|exact Hb].
Defined.

Lemma findMatchInPriority_pair uid a prio userMeta mm mda :
  get prio (waitingQueue mm) = Some [a; uid] -> a <> uid ->
  get a (userMetadata mm) = Some mda ->
  findMatchInPriority uid prio userMeta mm = Some a.
Proof.
  intros Hq Hne Hmd. unfold findMatchInPriority. rewrite Hq.
  cbn [length Nat.ltb Nat.leb].
  rewrite filter_cons_True by done.
  rewrite filter_cons_False by tauto.
  rewrite filter_nil. cbn [length Nat.eqb fold_left].
  unfold consider. by rewrite Hmd.
Qed.

(** X22. Two distinct users of the same priority, neither toxic, who join
    a queue whose bucket of that priority is not there yet: the search of
    the second is matched with the first. *)
Theorem second_of_two_is_matched_with_first
    (uuid : string) (t1 t2 t3 : Z) (a b : string)
    (reps : ReputationSystem.t) (mm : t)
    (ra rb : ReputationSystem.Reputation) :
  a <> b -> a <> "" ->
  get (VStr a) reps = Some ra -> get (VStr b) reps = Some rb ->
  fst (ReputationSystem.isToxic t1 (VStr a) reps) = false ->
  fst (ReputationSystem.isToxic t2 (VStr b) reps) = false ->
  ReputationSystem.score ra / 20 = ReputationSystem.score rb / 20 ->
  get (ReputationSystem.score ra / 20) (waitingQueue mm) = None ->
  let '(_, reps1, mm1) := addToQueue t1 a reps mm in
  let '(_, _, mm2) := addToQueue t2 b reps1 mm1 in
  fst (findMatch uuid t3 b mm2) = Some ("match-" +:+ uuid, a).
Proof.
  intros Hab Ha Hra Hrb Hta Htb Hp Hq.
  unfold ReputationSystem.isToxic in Hta, Htb.
  rewrite (getReputation_again _ _ _ _ Hra) in Hta.
  rewrite (getReputation_again _ _ _ _ Hrb) in Htb.
  simpl in Hta, Htb.
  rewrite addToQueue_unfold. cbv zeta.
  rewrite (getReputation_again _ _ _ _ Hra). cbn [fst snd].
  rewrite Hta.
  rewrite addToQueue_unfold. cbv zeta.
  rewrite (getReputation_again _ _ _ _ Hrb). cbn [fst snd].
  rewrite Htb. rewrite <- Hp. unfold has. rewrite Hq.
  cbn [waitingQueue userMetadata activeMatches].
  rewrite !get_set_eq. cbn [default].
  set (p := ReputationSystem.score ra / 20) in *.
  match goal with
  | |- context [@add ?A ?E b ?x] =>
      assert (Hadd : @add A E b x = [a; b]);
      [unfold id, add, mem; simpl;
       rewrite bool_decide_eq_false_2;
       [done|rewrite list_elem_of_singleton; congruence]
      |rewrite Hadd; clear Hadd]
  end.
  unfold findMatch. cbn [userMetadata waitingQueue activeMatches].
  rewrite get_set_eq. cbn [priority].
  rewrite (findMatchInPriority_pair b a p _ _
             {| priority := p; joinedAt := t1;
                activityLevel := calculateActivityLevel ra;
                responseSpeed := ReputationSystem.avgResponseTime ra |});
    [|cbn [waitingQueue]; by rewrite get_set_eq|done
     |cbn [userMetadata]; rewrite get_set_ne by congruence;
      by rewrite get_set_eq].
  apply String.eqb_neq in Ha.
  assert (Hnm : noMatch (Some a) = false) by exact Ha.
  rewrite Hnm. cbn [andb]. rewrite Hnm. cbn [andb]. by rewrite Ha.
Qed.

(** ann and bob, both new, join an empty queue; bob's search finds ann. *)
Lemma second_of_two_is_matched_with_first_witness :
  let reps :=
    snd (ReputationSystem.initializeReputation 2 (VStr "bob")
           (snd (ReputationSystem.initializeReputation 1 (VStr "ann")
                   ReputationSystem.empty))) in
  let '(_, reps1, mm1) := addToQueue 10 "ann" reps SmartMatchmaking.empty in
  let '(_, _, mm2) := addToQueue 20 "bob" reps1 mm1 in
  fst (findMatch "x" 30 "bob" mm2) = Some ("match-" +:+ "x", "ann").
Proof.
  intros reps.
  apply (second_of_two_is_matched_with_first "x" 10 20 30 "ann" "bob" reps
           SmartMatchmaking.empty (ReputationSystem.fresh 1)
           (ReputationSystem.fresh 2));
    (discriminate || reflexivity).
Defined.

End MatchFacts.

(** ** The production server: what the handlers leave behind *)

Section HandlerFacts.
Import Server.

Lemma not_mem {A : Type} `{EqDecision A} (x : A) (s : JsSet A) :
  mem x s = false -> x ∉ s.
Proof. unfold mem. by intros ?%bool_decide_eq_false. Qed.

Lemma not_elem_remove {A : Type} `{EqDecision A} (x : A) (s : JsSet A) :
  x ∉ remove x s.
Proof. rewrite elem_remove. tauto. Qed.

Lemma leavePublic_get uid uname acc k room rid :
  get rid (snd (leavePublic uid uname acc (k, room))) =
    if decide (k = rid)
    then if mem uid (pub_participants room) then Some (pub_leave uid room)
         else get rid (snd acc)
    else get rid (snd acc).
Proof.
  unfold leavePublic. destruct (mem uid (pub_participants room)); simpl.
  - destruct (decide (k = rid)) as [->|Hne]; simpl;
      [apply get_set_eq|by apply get_set_ne].
  - by destruct (decide (k = rid)).
Qed.

Lemma leavePublic_loop uid uname l acc rid :
  NoDup (map fst l) ->
  get rid (snd (fold_left (leavePublic uid uname) l acc)) =
    match get rid l with
    | Some room =>
        if mem uid (pub_participants room) then Some (pub_leave uid room)
        else get rid (snd acc)
    | None => get rid (snd acc)
    end.
Proof.
  revert acc. induction l as [|[k r] l IH]; intros acc Hnd; [done|].
  simpl in Hnd. apply NoDup_cons in Hnd as [Hk Hnd].
  cbn [fold_left get]. rewrite (IH _ Hnd), leavePublic_get.
  destruct (decide (k = rid)) as [->|Hne]; simpl; [|done].
  by rewrite (get_notin _ _ Hk).
Qed.

Lemma leavePrivate_get uid acc k room cid :
  get cid (snd (fst (leavePrivate uid acc (k, room)))) =
    if decide (k = cid)
    then if mem uid (participants room)
         then if (length (remove uid (participants room)) =? 0)%nat
              then None else Some (room_leave uid room)
         else get cid (snd (fst acc))
    else get cid (snd (fst acc)).
Proof.
  destruct acc as [[outs rooms] mm]. unfold leavePrivate.
  destruct (mem uid (participants room)); simpl.
  - destruct (length (remove uid (participants room)) =? 0)%nat; simpl;
      (destruct (decide (k = cid)) as [->|Hne]; simpl;
       [first [apply get_del_eq|apply get_set_eq]
       |first [by apply get_del_ne|by apply get_set_ne]]).
  - by destruct (decide (k = cid)).
Qed.

Lemma leavePrivate_loop uid l acc cid :
  NoDup (map fst l) ->
  get cid (snd (fst (fold_left (leavePrivate uid) l acc))) =
    match get cid l with
    | Some room =>
        if mem uid (participants room)
        then if (length (remove uid (participants room)) =? 0)%nat then None
             else Some (room_leave uid room)
        else get cid (snd (fst acc))
    | None => get cid (snd (fst acc))
    end.
Proof.
  revert acc. induction l as [|[k r] l IH]; intros acc Hnd; [done|].
  simpl in Hnd. apply NoDup_cons in Hnd as [Hk Hnd].
  cbn [fold_left get]. rewrite (IH _ Hnd), leavePrivate_get.
  destruct (decide (k = cid)) as [->|Hne]; simpl; [|done].
  by rewrite (get_notin _ _ Hk).
Qed.

(** The loop over the private rooms only ends matches. *)
Lemma leavePrivate_fold_matchmaking uid l acc :
  SmartMatchmaking.userMetadata
    (snd (fold_left (leavePrivate uid) l acc))
    = SmartMatchmaking.userMetadata (snd acc).
Proof.
  revert acc. induction l as [|[k r] l IH]; intros acc; [done|].
  cbn [fold_left]. rewrite IH. destruct acc as [[outs rooms] mm].
  unfold leavePrivate. destruct (mem uid (participants r)); [|done].
  by destruct (length _ =? 0)%nat.
Qed.

(** The maps the [disconnect] handler leaves. *)
Lemma disconnect_fields c st uid :
  truthyId (currentUserId c) = Some uid ->
  let uname := username <$> get uid (users st) in
  let st' := snd (disconnect c st) in
  publicRooms st'
    = snd (fold_left (leavePublic uid uname) (publicRooms st)
             ([], publicRooms st)) /\
  privateChatRooms st'
    = snd (fst (fold_left (leavePrivate uid) (privateChatRooms st)
                  ([], privateChatRooms st,
                   SmartMatchmaking.removeFromQueue uid (matchmaking st)))) /\
  matchmaking st'
    = snd (fold_left (leavePrivate uid) (privateChatRooms st)
             ([], privateChatRooms st,
              SmartMatchmaking.removeFromQueue uid (matchmaking st))) /\
  activeSockets st' = del (socket_id c) (activeSockets st).
Proof.
  intros Hu uname st'. subst uname st'. unfold disconnect. rewrite Hu.
  cbn -[fold_left leavePublic leavePrivate
        SmartMatchmaking.removeFromQueue].
  destruct (get uid (users st)) as [u|];
    cbn -[fold_left leavePublic leavePrivate
          SmartMatchmaking.removeFromQueue];
    destruct (fold_left (leavePublic _ _) _ _) as [outs1 pubs];
    cbn -[fold_left leavePublic leavePrivate
          SmartMatchmaking.removeFromQueue];
    destruct (fold_left (leavePrivate _) _ _) as [[outs2 rooms] mm];
    done.
Qed.

(** X23. After the [disconnect] handler of an authenticated connection,
    the user is a participant of no public room and of no private or
    random room, has no matchmaking metadata, and the socket is no longer
    among the active sockets. *)
Theorem disconnect_leaves_every_room
    (c : Conn) (st : State) (uid : string) :
  truthyId (currentUserId c) = Some uid ->
  NoDup (map fst (publicRooms st)) ->
  NoDup (map fst (privateChatRooms st)) ->
  let st' := snd (disconnect c st) in
  (forall rid room,
     get rid (publicRooms st') = Some room -> uid ∉ pub_participants room) /\
  (forall cid room,
     get cid (privateChatRooms st') = Some room -> uid ∉ participants room) /\
  get uid (SmartMatchmaking.userMetadata (matchmaking st')) = None /\
  get (socket_id c) (activeSockets st') = None.
Proof.
  intros Hu Hpub Hpriv st'.
  destruct (disconnect_fields c st uid Hu) as (E1 & E2 & E3 & E4).
  subst st'. split; [|split; [|split]].
  - intros rid room. rewrite E1, (leavePublic_loop _ _ _ _ _ Hpub). simpl.
    destruct (get rid (publicRooms st)) as [r|] eqn:Hg; [|done].
    destruct (mem uid (pub_participants r)) eqn:Hm.
    + intros [= <-]. apply not_elem_remove.
    + intros [= <-]. by apply not_mem.
  - intros cid room. rewrite E2, (leavePrivate_loop _ _ _ _ Hpriv). simpl.
    destruct (get cid (privateChatRooms st)) as [r|] eqn:Hg; [|done].
    destruct (mem uid (participants r)) eqn:Hm.
    + destruct (length _ =? 0)%nat; [done|].
      intros [= <-]. apply not_elem_remove.
    + intros [= <-]. by apply not_mem.
  - rewrite E3, leavePrivate_fold_matchmaking. simpl.
    rewrite userMetadata_removeFromQueue. apply get_del_eq.
  - rewrite E4. apply get_del_eq.
Qed.

(** ann, in match-1 with bob, disconnects. *)
Lemma disconnect_leaves_every_room_witness :
  (participants
     <$> get "match-1"
           (privateChatRooms (snd (disconnect Sample.annConn Sample.server))))
    = Some ["u2"] /\
  forall cid room,
    get cid (privateChatRooms (snd (disconnect Sample.annConn Sample.server)))
      = Some room ->
    "u1" ∉ participants room.
Proof.
  split; [reflexivity|].
  apply (disconnect_leaves_every_room Sample.annConn Sample.server "u1");
    [reflexivity|apply NoDup_singleton|apply NoDup_singleton].
Defined.

Lemma substring_prefix n s : exists w, s = substring 0 n s +:+ w.
Proof.
  revert s. induction n as [|n IH]; intros s.
  - exists s. by destruct s.
  - destruct s as [|c s]; [by exists ""|].
    destruct (IH s) as [w Hw]. exists w. simpl.
    change (String c (substring 0 n s) +:+ w)
      with (String c (substring 0 n s +:+ w)). by rewrite <- Hw.
Qed.





Lemma remove_absent {A : Type} `{EqDecision A} (x : A) (s : JsSet A) :
  x ∉ s -> remove x s = s.
Proof.
  unfold remove. induction s as [|y s IH]; intros Hn; [done|].
  apply not_elem_of_cons in Hn as [Hne Hn].
  rewrite filter_cons_True by done. f_equal. by apply IH.
Qed.

(** X26. [skipMatch] does not ask whether the caller is in the room: an
    authenticated user who names an existing, occupied room of which the
    user is no participant is answered with success, has a skip recorded
    (score down by 3), and the room's match record is deleted and
    [partnerSkipped] emitted to the room, while the room keeps its
    participants. *)
Theorem skipMatch_by_outsider
    (now : Z) (c : Conn) (cid : string) (st : State) (uid : string)
    (room : PrivateRoom) :
  truthyId (currentUserId c) = Some uid ->
  cid <> "" ->
  get cid (privateChatRooms st) = Some room ->
  uid ∉ participants room -> participants room <> [] ->
  let rep :=
    fst (ReputationSystem.getReputation now (VStr uid)
           (reputationSystem st)) in
  let st' := snd (skipMatch now c (VStr cid) st) in
  fst (skipMatch now c (VStr cid) st)
    = [SocketLeave (VStr cid); PartnerSkipped (VStr cid); Callback ReplyOk] /\
  get cid (privateChatRooms st') = Some room /\
  get cid (SmartMatchmaking.activeMatches (matchmaking st')) = None /\
  exists rep',
    get (VStr uid) (reputationSystem st') = Some rep' /\
    ReputationSystem.score rep' = Z.max 0 (ReputationSystem.score rep - 3) /\
    ReputationSystem.skipCount rep' = ReputationSystem.skipCount rep + 1.
Proof.
  intros Hu Hc Hg Hout Hocc rep st'. subst st' rep. unfold skipMatch.
  rewrite Hu. simpl. apply String.eqb_neq in Hc. rewrite Hc. simpl.
  rewrite Hg. simpl.
  assert (Hroom : room_leave uid room = room).
  { unfold room_leave. rewrite (remove_absent _ _ Hout). by destruct room. }
  rewrite Hroom, (remove_absent _ _ Hout).
  destruct (participants room) as [|p ps] eqn:Hp; [done|]. simpl.
  split; [done|]. split; [apply get_set_eq|].
  split; [apply get_del_eq|].
  unfold ReputationSystem.recordSkip.
  destruct (ReputationSystem.getReputation now (VStr uid)
              (reputationSystem st)) as [rep reps1].
  rewrite get_set_eq. eexists. split; [done|]. done.
Qed.

(** carl, who is not in match-1, skips it. *)
Lemma skipMatch_by_outsider_witness :
  let carl := {| socket_id := "s3"; currentUserId := Some "u3";
                 currentSessionToken := None |} in
  let st' := snd (skipMatch 5000 carl (VStr "match-1") Sample.server) in
  (participants <$> get "match-1" (privateChatRooms st'))
    = Some ["u1"; "u2"] /\
  get "match-1" (SmartMatchmaking.activeMatches (matchmaking st')) = None.
Proof.
  intros carl st'.
  destruct (skipMatch_by_outsider 5000 carl "match-1" Sample.server "u3"
              {| room_id := "match-1"; participants := ["u1"; "u2"];
                 createdAt := 4000; type := "random" |})
    as (_ & H2 & H3 & _);
    [reflexivity|discriminate|reflexivity| |discriminate|].
  - apply not_mem. reflexivity.
  - split; [|exact H3]. unfold st'. rewrite H2. reflexivity.
Defined.

(** X27. The [reconnectSession] handler with a token whose session
    [getSession] still returns answers with the stored user id, message
    buffer, room and match, makes the connection that user's, maps the new
    socket to the user and marks the user online; with any other token it
    answers [Session expired or invalid] and changes nothing. *)
Theorem reconnect_restores_or_refuses
    (now : Z) (c : Conn) (tok : string) (st : State) :
  tok <> "" ->
  match SessionManager.getSession now tok (sessionManager st) with
  | Some session =>
      exists onlineUsers rooms effects st',
        Handlers.reconnectSession now c (VStr tok) st
          = (Handlers.Restored (SessionManager.userId session) (VStr tok)
               (SessionManager.messageBuffer session)
               (SessionManager.currentRoom session)
               (SessionManager.currentMatch session) onlineUsers rooms,
             effects,
             {| socket_id := socket_id c;
                currentUserId := Some (SessionManager.userId session);
                currentSessionToken := Some tok |}, st') /\
        get (socket_id c) (activeSockets st')
          = Some (SessionManager.userId session) /\
        (status <$> get (SessionManager.userId session) (users st'))
          = Some "online"
  | None =>
      Handlers.reconnectSession now c (VStr tok) st
        = (Handlers.Failed "Session expired or invalid", [], c, st)
  end.
Proof.
  intros Htok. apply String.eqb_neq in Htok.
  unfold Handlers.reconnectSession. simpl. rewrite Htok. simpl.
  unfold SessionManager.reconnectSession.
  destruct (SessionManager.getSession now tok (sessionManager st))
    as [session|]; [|done].
  simpl. eexists _, _, _, _. split; [reflexivity|]. simpl.
  split; [apply get_set_eq|].
  destruct (get (SessionManager.userId session) (users st));
    by rewrite get_set_eq.
Qed.

(** ann's session, created at time 1000 on socket s1, is resumed on
    socket s9 at time 30000; at time 70000 it is refused. *)
Lemma reconnect_restores_or_refuses_witness :
  let c := {| socket_id := "s9"; currentUserId := None;
              currentSessionToken := None |} in
  (exists onlineUsers rooms,
     fst (fst (fst (Handlers.reconnectSession 30000 c (VStr "t0")
                      Sample.server)))
       = Handlers.Restored "u1" (VStr "t0") [] None None onlineUsers rooms) /\
  Handlers.reconnectSession 70000 c (VStr "t0") Sample.server
    = (Handlers.Failed "Session expired or invalid", [], c, Sample.server).
Proof.
  intros c. split.
  - pose proof (reconnect_restores_or_refuses 30000 c "t0" Sample.server)
      as H.
    change (SessionManager.getSession 30000 "t0"
              (sessionManager Sample.server))
      with (Some {| SessionManager.token := "t0";
                    SessionManager.socketId := "s1";
                    SessionManager.userId := "u1";
                    SessionManager.username := "ann";
                    SessionManager.createdAt := 1000;
                    SessionManager.lastActivity := 1000;
                    SessionManager.currentRoom := None;
                    SessionManager.currentMatch := None;
                    SessionManager.messageBuffer := [];
                    SessionManager.reconnectCount := 0 |}) in H.
    destruct H as (ou & rooms & effs & st' & E & _); [discriminate|].
    exists ou, rooms. rewrite E. reflexivity.
  - apply (reconnect_restores_or_refuses 70000 c "t0" Sample.server).
    discriminate.
Defined.

Lemma substring_length n s : (String.length (substring 0 n s) <= n)%nat.
Proof.
  revert s. induction n as [|n IH]; intros s; [by destruct s|].
  destruct s as [|c s]; simpl; [lia|]. specialize (IH s). lia.
Qed.

(** X28. [userJoin] either refuses (the name is no string, or nothing is
    left of it after sanitizing) and changes nothing, or registers a new
    user: the stored name is the sanitized name cut to 30 characters,
    tag-free and not empty; the user is online under the id
    [user-<uuid>], the socket is mapped to the user, the connection is
    authenticated with the new session token, the session is found by that
    token, and a reputation record exists. *)
Theorem userJoin_outcomes
    (uuid tok : string) (now : Z) (c : Conn) (name : Val) (st : State) :
  let res := Handlers.userJoin uuid tok now c name st in
  let c' := snd (fst res) in
  let st' := snd res in
  match fst (fst (fst res)) with
  | Handlers.Failed _ => c' = c /\ st' = st /\ snd (fst (fst res)) = []
  | Handlers.Joined userId sessionToken _ _ =>
      userId = "user-" +:+ uuid /\ sessionToken = tok /\
      currentUserId c' = Some userId /\
      currentSessionToken c' = Some tok /\
      get (socket_id c) (activeSockets st') = Some userId /\
      SessionManager.getSession now tok (sessionManager st') <> None /\
      is_Some (get (VStr userId) (reputationSystem st')) /\
      exists user,
        get userId (users st') = Some user /\
        username user = substring 0 30 (sanitize name) /\
        username user <> "" /\
        (String.length (username user) <= 30)%nat /\
        Text.tagFree (username user) = true /\
        status user = "online"
  | Handlers.Restored _ _ _ _ _ _ _ => False
  end.
Proof.
  intros res c' st'. subst res c' st'. unfold Handlers.userJoin.
  destruct (negb (truthy name) || _); [done|].
  set (uname := substring 0 30 (sanitize name)).
  destruct (String.eqb_spec uname "") as [|Hne]; [done|].
  cbn -[substring sanitize String.append].
  repeat (split; [done|]).
  split; [apply get_set_eq|].
  split.
  { unfold SessionManager.getSession. cbn -[substring sanitize String.append].
    rewrite get_set_eq. cbn -[substring sanitize String.append].
    by replace (now - now <? SessionManager.SESSION_TTL) with true
      by (symmetry; apply Z.ltb_lt; unfold SessionManager.SESSION_TTL; lia). }
  split.
  { unfold ReputationSystem.initializeReputation.
    destruct (get (VStr ("user-" +:+ uuid)) (reputationSystem st)) eqn:Hg;
      cbn -[String.append]; [by rewrite Hg|by rewrite get_set_eq]. }
  eexists. split; [apply get_set_eq|].
  cbn -[substring sanitize String.append]. fold uname.
  repeat (split; [done|]). split; [apply substring_length|].
  split; [|done].
  destruct (substring_prefix 30 (sanitize name)) as [w Hw].
  apply (tagFree_prefix _ w). fold uname in Hw. rewrite <- Hw.
  apply sanitize_clean.
Qed.

End HandlerFacts.
